(** * The job-listing scraper and its ranking utilities

    A shallow embedding of [src/scraper.py], [main.py], [search.py] and
    [rank_jobs.py], followed by the properties of the extraction, merge,
    pagination and ranking pipelines.

    Conventions of the embedding.
    - Python strings are [string]s; the text operations below act on ASCII
      (white space and letter case as Python defines them below code 128).
    - A Python dict used as a record is a [gmap string value]; a dict whose
      iteration order is observed is an association list.
    - A function that may raise returns a [res]; functions that talk to the
      network thread a log of the requests made so far.
    - The keyword scores of [search.py], quotients of two counts, are
      rationals, and so are the similarities it only compares. The scores
      of [rank_jobs.py], which are averaged, are floating-point numbers:
      the class [Floats] names their operations, and [binary64] is
      Python's [float].
    - A job read by [rank_jobs.py] is an association list, the keys in the
      order of the file: pandas takes the order of its columns from it.
    - Console output of the scraper and its throttling sleeps are left out;
      the messages of the two ranking tools are kept. *)

From Stdlib Require Import Ascii String QArith Qminmax OrdersEx.
From Stdlib Require PrimFloat FloatOps FloatAxioms SpecFloat.
From stdpp Require Import base option list gmap strings pretty sorting.

Local Open Scope string_scope.
Local Open Scope Z_scope.

(** ** Python string operations *)

Module PyStr.

Definition code (c : ascii) : N := Ascii.N_of_ascii c.

(** [str.isspace] on one ASCII character. *)
Definition is_space (c : ascii) : bool :=
  let n := code c in
  ((9 <=? n) && (n <=? 13) || (28 <=? n) && (n <=? 32))%N.

Definition lower_char (c : ascii) : ascii :=
  let n := code c in
  if ((65 <=? n) && (n <=? 90))%N then Ascii.ascii_of_N (n + 32) else c.

(** [s.lower()] *)
Fixpoint lower (s : string) : string :=
  match s with
  | EmptyString => EmptyString
  | String c s' => String (lower_char c) (lower s')
  end.

(** [s.startswith(p)] *)
Definition startswith (p s : string) : bool := String.prefix p s.

(** [sub in s] *)
Fixpoint contains (sub s : string) : bool :=
  if String.prefix sub s then true
  else match s with
       | EmptyString => false
       | String _ s' => contains sub s'
       end.

Fixpoint lstrip (s : string) : string :=
  match s with
  | EmptyString => EmptyString
  | String c s' => if is_space c then lstrip s' else s
  end.

Definition rstrip (s : string) : string :=
  String.rev (lstrip (String.rev s)).

(** [s.strip()] *)
Definition strip (s : string) : string := rstrip (lstrip s).

(** The scanner behind [split] and [replace]: [skip] counts the characters
    of a separator occurrence still to be passed over, [cur] is the piece
    read so far, most recent character first. *)
Fixpoint split_go (sep : string) (skip : nat) (cur : string) (s : string)
  : list string :=
  match s with
  | EmptyString => [String.rev cur]
  | String c s' =>
      match skip with
      | S k => split_go sep k cur s'
      | O =>
          if String.prefix sep s
          then String.rev cur :: split_go sep (String.length sep - 1) EmptyString s'
          else split_go sep O (String c cur) s'
      end
  end.

(** [s.split(sep)] for a non-empty [sep]. *)
Definition split (sep s : string) : list string :=
  split_go sep O EmptyString s.

(** [sep.join(l)] *)
Fixpoint join (sep : string) (l : list string) : string :=
  match l with
  | [] => EmptyString
  | [x] => x
  | x :: l' => x ++ sep ++ join sep l'
  end.

(** [s.replace(old, new)] for a non-empty [old]. *)
Definition replace (old new s : string) : string :=
  join new (split old s).

(** [s.split(sep, 1)[1]] when [sep] occurs in [s]: what follows the first
    occurrence. *)
Fixpoint after_first (sep s : string) : option string :=
  if String.prefix sep s
  then Some (String.substring (String.length sep)
                              (String.length s - String.length sep) s)
  else match s with
       | EmptyString => None
       | String _ s' => after_first sep s'
       end.

(** [s.split()]: the maximal runs of non-space characters. *)
Fixpoint words_go (cur : string) (s : string) : list string :=
  match s with
  | EmptyString =>
      match cur with EmptyString => [] | _ => [String.rev cur] end
  | String c s' =>
      if is_space c
      then match cur with
           | EmptyString => words_go EmptyString s'
           | _ => String.rev cur :: words_go EmptyString s'
           end
      else words_go (String c cur) s'
  end.

Definition words (s : string) : list string := words_go EmptyString s.

Definition digit_val (c : ascii) : option Z :=
  let n := code c in
  if ((48 <=? n) && (n <=? 57))%N then Some (Z.of_N n - 48) else None.

(** Digits of an [int] literal, single underscores allowed between
    digits; [prev] tells whether the previous character was a digit. *)
Fixpoint digits_go (acc : Z) (prev : bool) (s : string) : option Z :=
  match s with
  | EmptyString => if prev then Some acc else None
  | String c s' =>
      match digit_val c with
      | Some d => digits_go (10 * acc + d) true s'
      | None =>
          if (code c =? 95)%N && prev
          then match s' with
               | EmptyString => None
               | String c' _ =>
                   match digit_val c' with
                   | Some _ => digits_go acc false s'
                   | None => None
                   end
               end
          else None
      end
  end.

(** [int(s)] on a string: [None] stands for [ValueError]. *)
Definition int (s : string) : option Z :=
  match strip s with
  | String "-"%char s' => Z.opp <$> digits_go 0 false s'
  | String "+"%char s' => digits_go 0 false s'
  | s' => digits_go 0 false s'
  end.

(** [str(n)] for an integer. *)
Definition of_Z (n : Z) : string := pretty n.

End PyStr.

(** ** Python values and records *)

(** The values a listing record or a job loaded from JSON holds in its
    fields: text, the integer page number, and [None]. *)
Inductive value :=
  | VStr (s : string)
  | VInt (n : Z)
  | VNone.

#[global] Instance value_eq_dec : EqDecision value.
Proof. solve_decision. Defined.

Definition sentinel : string := "Not specified".

(** ** Exceptions and the request log *)

Inductive exn :=
  | RequestException   (* requests: connection errors and HTTPError *)
  | KeyError
  | ValueError
  | IndexError
  | AttributeError
  | TypeError
  | ImportError
  | FileNotFoundError
  | OSError.           (* any other OSError *)

#[global] Instance exn_eq_dec : EqDecision exn.
Proof. solve_decision. Defined.

Inductive res (A : Type) :=
  | Ok (a : A)
  | Raise (e : exn).
Arguments Ok {A} a.
Arguments Raise {A} e.

(** ** Parsed HTML

    A tag as BeautifulSoup presents it: the text nodes below it in document
    order, its attributes, and what a CSS selector matches below it. *)
#[local] Set Warnings "-register-all".
Inductive Tag := mkTag {
  tag_strings : list string;
  tag_attrs : gmap string string;
  tag_select : string -> list Tag
}.

Module bs4.

(** [tag.text] *)
Definition text (t : Tag) : string := PyStr.join "" (tag_strings t).

Definition stripped_strings (t : Tag) : list string :=
  filter (fun s => s <> "") (PyStr.strip <$> tag_strings t).

(** [tag.get_text(strip=True)] and [tag.get_text(strip=True, separator=sep)] *)
Definition get_text_strip (sep : string) (t : Tag) : string :=
  PyStr.join sep (stripped_strings t).

(** [tag.select(selector)] *)
Definition select (t : Tag) (selector : string) : list Tag :=
  tag_select t selector.

(** [tag.select_one(selector)] *)
Definition select_one (t : Tag) (selector : string) : option Tag :=
  head (tag_select t selector).

(** [tag.get(key, default)] *)
Definition get (t : Tag) (key dflt : string) : string :=
  default dflt (tag_attrs t !! key).

(** [tag[key]] *)
Definition getitem (t : Tag) (key : string) : res string :=
  match tag_attrs t !! key with
  | Some v => Ok v
  | None => Raise KeyError
  end.

End bs4.

(** ** Requests

    What a GET yields: a connection-level failure, or a response with its
    status code and parsed body. *)
Inductive fetched :=
  | ConnectionError
  | Response (status : Z) (soup : Tag).

(** Who asked: the pager probe, a listing page, or a detail page. *)
Inductive event :=
  | GetPager (url : string)
  | GetListing (page_num : Z) (url : string)
  | GetDetail (url : string).

(** The site: the answer to the [n]-th request of a run, by URL. *)
Definition site := nat -> string -> fetched.

(** Computations that may raise and that carry a state [S]: the request
    log for the scraper, the lines printed for the ranking tools. *)
Definition M (S A : Type) : Type := S -> res A * S.

#[global] Instance M_ret {S} : MRet (M S) := fun A a st => (Ok a, st).
#[global] Instance M_bind {S} : MBind (M S) := fun A B f m st =>
  match m st with
  | (Ok a, st') => f a st'
  | (Raise e, st') => (Raise e, st')
  end.

Abbreviation Crawl := (M (list event)).
Abbreviation Console := (M (list string)).

Definition raise {S A} (e : exn) : M S A := fun st => (Raise e, st).

Definition lift {S A} (r : res A) : M S A := fun st => (r, st).

(** [print(line)] *)
Definition print (line : string) : Console unit :=
  fun out => (Ok tt, (out ++ [line])%list).

(** [try: m except <caught>: h] *)
Definition try_except {S A} (m : M S A) (caught : exn -> bool) (h : M S A)
  : M S A :=
  fun st =>
    match m st with
    | (Raise e, st') => if caught e then h st' else (Raise e, st')
    | r => r
    end.

Definition is_RequestException (e : exn) : bool :=
  bool_decide (e = RequestException).
Definition is_ImportError (e : exn) : bool :=
  bool_decide (e = ImportError).
(** [except Exception] *)
Definition is_Exception (e : exn) : bool := true.

Fixpoint mapM {S A B} (f : A -> M S B) (l : list A) : M S (list B) :=
  match l with
  | [] => mret []
  | x :: l' => y ← f x; ys ← mapM f l'; mret (y :: ys)
  end.

(** [d[key]] on a record *)
Definition getitem (d : gmap string value) (key : string) : res value :=
  match d !! key with
  | Some v => Ok v
  | None => Raise KeyError
  end.

(** [d[key] = v] on a dict whose order is kept *)
Fixpoint setitem (d : list (string * value)) (key : string) (v : value)
  : list (string * value) :=
  match d with
  | [] => [(key, v)]
  | (k, w) :: d' =>
      if decide (k = key) then (k, v) :: d' else (k, w) :: setitem d' key v
  end.

(** ** [src/scraper.py] *)

Module scraper.
Section ErasmusInternScraper.

Variable base_url : string.
Variable web : site.

(** [self.session.get(url)] *)
Definition session_get (who : string -> event) (url : string)
  : Crawl (Z * Tag) :=
  fun log =>
    match web (List.length log) url with
    | ConnectionError => (Raise RequestException, (log ++ [who url])%list)
    | Response status soup => (Ok (status, soup), (log ++ [who url])%list)
    end.

(** [response.raise_for_status()] *)
Definition raise_for_status (response : Z * Tag) : Crawl unit :=
  let status := response.1 in
  if (400 <=? status) && (status <? 600) then raise RequestException
  else mret tt.

(** One pager item of the fallback count (the inner [try]): [None] when
    the item is passed over. *)
Definition pager_item_page (item : Tag) : option Z :=
  match tag_attrs item !! "href" with
  | Some href =>
      t ← PyStr.split "page=" href !! 1%nat;
      n ← PyStr.int t;
      Some (n + 1)
  | None => PyStr.int (PyStr.strip (bs4.text item))
  end.

(** [max(pages)] on a non-empty list *)
Definition max_list (x : Z) (l : list Z) : Z := foldl Z.max x l.

(** The body of the [try] of [get_total_pages]. *)
Definition count_pages (soup : Tag) : res Z :=
  let pager := bs4.select soup ".pager-last a" in
  let last_page :=
    match pager with
    | p :: _ =>
        let href := bs4.get p "href" "" in
        if PyStr.contains "page=" href
        then Some match PyStr.split "page=" href !! 1%nat with
                  | Some t =>
                      match PyStr.int t with
                      | Some n => Ok (n + 1)
                      | None => Raise ValueError
                      end
                  | None => Raise IndexError
                  end
        else None
    | [] => None
    end in
  match last_page with
  | Some r => r
  | None =>
      let pager_items := bs4.select soup ".pager-item a, .pager-current" in
      match pager_items with
      | _ :: _ =>
          match omap pager_item_page pager_items with
          | n :: pages => Ok (max_list n pages)
          | [] => Ok 1
          end
      | [] => Ok 1
      end
  end.

Definition get_total_pages : Crawl Z :=
  response ← session_get GetPager base_url;
  let soup := response.2 in
  try_except (lift (count_pages soup)) is_Exception (mret 1).

(** The [for selector in ..._selectors] loops for duration and post date:
    the first selector that matches decides, its text loses the label. *)
Fixpoint first_labelled (label : string) (selectors : list string)
    (container : Tag) (found : string) : string :=
  match selectors with
  | [] => found
  | selector :: rest =>
      match bs4.select_one container selector with
      | Some elem =>
          let text := bs4.get_text_strip "" elem in
          if PyStr.contains label text
          then PyStr.strip (PyStr.replace label "" text)
          else text
      | None => first_labelled label rest container found
      end
  end.

Definition duration_selectors : list string :=
  [ ".ds-top-footer .field-name-field-traineeship-duration .field-items .field-item";
    ".ds-top-footer .field-name-field-traineeship-duration";
    ".field-name-field-traineeship-duration .field-item";
    ".field-type-taxonomy-term-reference.field-name-field-traineeship-duration .field-items .field-item" ].

Definition post_date_selectors : list string :=
  [ ".ds-top-footer .field-name-post-date .field-items .field-item";
    ".ds-top-footer .field-name-post-date";
    ".field-name-post-date .field-item";
    ".field-type-ds.field-name-post-date .field-items .field-item" ].

Definition find_title (container : Tag) : option Tag :=
  match bs4.select_one container ".field-name-title a, h3.dot-title a" with
  | Some e => Some e
  | None => bs4.select_one container "h3.title a, .media-body a"
  end.

Definition extract_company (container : Tag) : string :=
  match bs4.select_one container ".field-name-recruiter-name .field-item a" with
  | Some e => PyStr.strip (bs4.text e)
  | None => sentinel
  end.

Definition extract_location (container : Tag) : string :=
  let country_elem :=
    bs4.select_one container ".field-name-field-traineeship-location-count .field-item" in
  let city_elem :=
    bs4.select_one container ".field-name-field-traineeship-location-city .field-item" in
  match city_elem, country_elem with
  | Some city, Some country =>
      PyStr.strip (bs4.text city) ++ ", " ++ PyStr.strip (bs4.text country)
  | None, Some country => PyStr.strip (bs4.text country)
  | _, None => sentinel
  end.

Definition extract_deadline (container : Tag) : string :=
  match bs4.select_one container
          ".ds-top-footer .field-name-field-traineeship-apply-deadline" with
  | Some deadline_container =>
      match bs4.select_one deadline_container
              ".field-items .field-item .date-display-single" with
      | Some item => PyStr.strip (bs4.text item)
      | None =>
          match bs4.select_one deadline_container ".field-items .field-item" with
          | Some item => PyStr.strip (bs4.text item)
          | None => sentinel
          end
      end
  | None => sentinel
  end.

Definition extract_field (container : Tag) : string :=
  match bs4.select_one container ".ds-top-content h5" with
  | Some e => PyStr.strip (bs4.text e)
  | None => sentinel
  end.

(** What the body of the per-container [try] does once a title element
    is at hand. *)
Definition build_traineeship (page_num : Z) (container title_elem : Tag)
  : res (gmap string value) :=
  let title := PyStr.strip (bs4.text title_elem) in
  match bs4.getitem title_elem "href" with
  | Raise e => Raise e
  | Ok href =>
      let link :=
        if PyStr.startswith "http" href then href
        else "https://erasmusintern.org" ++ href in
      let company := extract_company container in
      let location := extract_location container in
      let duration :=
        first_labelled "Duration:" duration_selectors container sentinel in
      let post_date :=
        first_labelled "Post date:" post_date_selectors container sentinel in
      let deadline := extract_deadline container in
      let field := extract_field container in
      Ok (<["title" := VStr title]>
         (<["company" := VStr company]>
         (<["location" := VStr location]>
         (<["duration" := VStr duration]>
         (<["post_date" := VStr post_date]>
         (<["deadline" := VStr deadline]>
         (<["field" := VStr field]>
         (<["url" := VStr link]>
         (<["page_number" := VInt page_num]> ∅)))))))))
  end.

(** One turn of [for container in listing_container]: the records this
    container adds to [traineeships] (none when the title is missing, or
    when the [except Exception] of the loop body is taken). *)
Definition scrape_container (page_num : Z) (container : Tag)
  : list (gmap string value) :=
  match find_title container with
  | None => []
  | Some title_elem =>
      match build_traineeship page_num container title_elem with
      | Ok traineeship => [traineeship]
      | Raise _ => []
      end
  end.

Definition page_url (page_num : Z) : string :=
  if PyStr.contains "?" base_url
  then base_url ++ "&page=" ++ PyStr.of_Z (page_num - 1)
  else base_url ++ "?page=" ++ PyStr.of_Z (page_num - 1).

Definition listing_containers (soup : Tag) : list Tag :=
  match bs4.select soup ".media-list-items" with
  | [] => bs4.select soup ".view-content > div"
  | l => l
  end.

Definition scrape_traineeship_listings (page_num : Z)
  : Crawl (list (gmap string value)) :=
  let url := page_url page_num in
  try_except
    (response ← session_get (GetListing page_num) url;
     _ ← raise_for_status response;
     let soup := response.2 in
     mret (concat (scrape_container page_num <$> listing_containers soup)))
    is_RequestException
    (mret []).

(** The selector table of the detail page, in the order of the dict. *)
Definition detail_fields : list (string * string) :=
  [ ("post_date", ".field-name-field-date-posted .field-item, .date-posted");
    ("duration", ".field-name-field-duration .field-item, .duration");
    ("description", ".field-name-body .field-item, .description") ].

(** [field_name in result and result[field_name] != "Not specified"] *)
Definition has_valid_data (result : gmap string value) (field_name : string)
  : bool :=
  match result !! field_name with
  | Some v => bool_decide (v <> VStr sentinel)
  | None => false
  end.

(** One turn of [for field_name, selector in fields.items()]. *)
Definition collect_detail (soup : Tag) (result : gmap string value)
    (details : list (string * value)) (f : string * string)
  : list (string * value) :=
  let '(field_name, selector) := f in
  if has_valid_data result field_name then details
  else
    match bs4.select soup selector with
    | elem :: _ =>
        if decide (field_name = "website")
        then setitem details field_name (VStr (bs4.get elem "href" ""))
        else
          let text := bs4.get_text_strip " " elem in
          let text :=
            match PyStr.after_first ":" text with
            | Some rest => PyStr.strip rest
            | None => text
            end in
          setitem details field_name (VStr text)
    | [] => setitem details field_name (VStr sentinel)
    end.

(** One turn of [for key, value in details.items()]. *)
Definition update_missing (result : gmap string value) (kv : string * value)
  : gmap string value :=
  let '(key, v) := kv in
  if has_valid_data result key then result else <[key := v]> result.

(** The merge proper: from [result = traineeship.copy()] to
    [return result]. *)
Definition merge_details (soup : Tag) (traineeship : gmap string value)
  : gmap string value :=
  let result := traineeship in
  let details := foldl (collect_detail soup result) [] detail_fields in
  foldl update_missing result details.

Definition get_traineeship_details (traineeship : gmap string value)
  : Crawl (gmap string value) :=
  url ← lift (getitem traineeship "url");
  _ ← lift (getitem traineeship "title");
  try_except
    (response ← match url with
                | VStr u => session_get GetDetail u
                | _ => raise RequestException   (* not a URL: MissingSchema *)
                end;
     _ ← raise_for_status response;
     let soup := response.2 in
     mret (merge_details soup traineeship))
    is_RequestException
    (mret traineeship).

(** The effective page count of [scrape_all]. *)
Definition effective_pages (total_pages : Z) (max_pages : option Z) : Z :=
  match max_pages with
  | Some c => if 0 <? c then Z.min total_pages c else total_pages
  | None => total_pages
  end.

(** [for page in range(1, total_pages + 1)], with [all_traineeships]
    as accumulator. *)
Fixpoint scrape_pages (get_details : bool) (pages : list Z)
    (all_traineeships : list (gmap string value))
  : Crawl (list (gmap string value)) :=
  match pages with
  | [] => mret all_traineeships
  | page :: rest =>
      traineeships_on_page ← scrape_traineeship_listings page;
      detailed ←
        (if get_details && bool_decide (traineeships_on_page <> [])
         then mapM get_traineeship_details traineeships_on_page
         else mret traineeships_on_page);
      scrape_pages get_details rest (all_traineeships ++ detailed)%list
  end.

Definition scrape_all (max_pages : option Z) (get_details : bool)
  : Crawl (list (gmap string value)) :=
  total_pages ← get_total_pages;
  let total_pages := effective_pages total_pages max_pages in
  scrape_pages get_details (seqZ 1 total_pages) [].

End ErasmusInternScraper.
End scraper.

(** ** [main.py] *)

Module main_py.

(** [for key, value in t.items(): if value is None: t[key] = ...] *)
Definition clean_nulls (t : gmap string value) : gmap string value :=
  (fun v => match v with VNone => VStr sentinel | _ => v end) <$> t.

(** [scrape_command], up to the point where the collection is handed to
    [save_to_csv] and [save_to_json]: the collection that is persisted,
    [None] when nothing is saved (no records, or the [except Exception]
    of the command is taken). *)
Definition scrape_command (base_url : string) (web : site)
    (args_max_pages : option Z) (config_max_pages : Z) (no_details : bool)
  : option (list (gmap string value)) :=
  let max_pages := default config_max_pages args_max_pages in
  let get_details := negb no_details in
  match scraper.scrape_all base_url web (Some max_pages) get_details [] with
  | (Ok [], _) => None
  | (Ok traineeships, _) => Some (clean_nulls <$> traineeships)
  | (Raise _, _) => None
  end.

End main_py.

(** ** Scores and ranking order *)

(** Steps that may raise, one after the other, outside any state. *)
#[global] Instance res_ret : MRet res := fun A a => Ok a.
#[global] Instance res_bind : MBind res := fun A B f r =>
  match r with
  | Ok a => f a
  | Raise e => Raise e
  end.

(** The floating-point numbers of the similarity scores. The ranking code
    has numpy sum the numbers of a row, divides the sum by their count,
    compares scores and sets NaN aside; the class names these operations,
    so that the model holds for whatever precision the embedding library
    delivers and in whatever order numpy adds a row up. *)
Class Floats (F : Type) := {
  fsum : list F -> F;       (* the sum of a row that is not empty *)
  fdiv : F -> F -> F;       (* a / b *)
  of_int : Z -> F;          (* float(n) *)
  flt : F -> F -> bool;     (* a < b *)
  isnan : F -> bool         (* np.isnan(a) *)
}.

(** Python's [float]: IEEE 754 binary64, rounding to nearest even, a row
    added up from left to right (as numpy does with fewer than eight
    numbers). *)
#[global] Instance binary64 : Floats PrimFloat.float := {|
  fsum xs :=
    match xs with
    | [] => PrimFloat.zero
    | x :: xs' => foldl PrimFloat.add x xs'
    end;
  fdiv := PrimFloat.div;
  of_int n :=
    FloatOps.SF2Prim
      (SpecFloat.binary_normalize FloatOps.prec FloatOps.emax n 0 false);
  flt := PrimFloat.ltb;
  isnan := PrimFloat.is_nan
|}.

(** The float nearest to [n / d], for [n] and [d] that are floats
    themselves: the number Python reads a decimal literal as, [0.4] being
    [decimal 4 10]. *)
Definition decimal `{Floats F} (n d : Z) : F := fdiv (of_int n) (of_int d).

(** A sentence-embedding model, seen through the one thing the code asks
    of it: [cosine_similarity([encode(query)], encode(texts))], the score
    of a job text against a query. *)
Definition Model (number : Type) : Type := string -> string -> number.

(** Stable insertion sort, the elements that [after] sends behind others
    moving right: [list.sort(key=..., reverse=True)] keeps equal keys in
    their order; it also stands for [DataFrame.sort_values] and
    [numpy.argsort], which promise nothing about equal keys. *)
Section sorting.
Context {A : Type} (after : A -> A -> bool).

Fixpoint insert_sorted (x : A) (l : list A) : list A :=
  match l with
  | [] => [x]
  | y :: l' => if after x y then y :: insert_sorted x l' else x :: y :: l'
  end.

Definition sort_by (l : list A) : list A := foldr insert_sorted [] l.
End sorting.

(** [a < b] on scores *)
Definition Qlt_bool (a b : Q) : bool := negb (Qle_bool b a).

(** [l[:n]] *)
Definition slice_to {A} (n : Z) (l : list A) : list A :=
  if 0 <=? n then take (Z.to_nat n) l
  else take (List.length l - Z.to_nat (- n)) l.

(** [str(v)], as an f-string shows a field *)
Definition str (v : value) : string :=
  match v with
  | VStr s => s
  | VInt n => PyStr.of_Z n
  | VNone => "None"
  end.

(** [f"...{job.get(key, '')}..."] *)
Definition get_str (job : gmap string value) (key : string) : string :=
  match job !! key with
  | Some v => str v
  | None => ""
  end.

(** [a / b] on two counts *)
Definition true_div (a b : nat) : Q :=
  (inject_Z (Z.of_nat a) / inject_Z (Z.of_nat b))%Q.

(** ** [search.py] *)

Module search.

(** The f-string of [create_job_texts] for one job. *)
Definition job_repr (job : gmap string value) : string :=
  "Title: " ++ get_str job "title" ++ ". Company: " ++ get_str job "company"
  ++ ". " ++ "Field: " ++ get_str job "field" ++ ". Description: "
  ++ get_str job "description".

Definition create_job_texts (jobs : list (gmap string value)) : list string :=
  job_repr <$> jobs.

(** [[(jobs[i], similarities[i]) for i in top_indices]] *)
Fixpoint pick (jobs : list (gmap string value)) (top_indices : list (nat * Q))
  : res (list (gmap string value * Q)) :=
  match top_indices with
  | [] => Ok []
  | (i, similarity) :: rest =>
      match jobs !! i with
      | None => Raise IndexError
      | Some job => found ← pick jobs rest; mret ((job, similarity) :: found)
      end
  end.

(** [semantic_search]: each index goes with its similarity through
    [np.argsort(similarities)[::-1][:top_n]]. Without a job text
    [cosine_similarity] has no row to compare with and raises
    [ValueError]. *)
Definition semantic_search (model : Model Q) (job_texts : list string)
    (jobs : list (gmap string value)) (query : string) (top_n : Z)
  : res (list (gmap string value * Q)) :=
  if bool_decide (job_texts = []) then Raise ValueError
  else
    let similarities := model query <$> job_texts in
    let indexed := zip (seq 0 (List.length similarities)) similarities in
    let ascending := sort_by (fun x y => Qlt_bool y.2 x.2) indexed in
    let top_indices := slice_to top_n (reverse ascending) in
    pick jobs top_indices.

(** [job.get(key, '').lower()] *)
Definition get_lower (job : gmap string value) (key : string) : res string :=
  match job !! key with
  | None => Ok (PyStr.lower "")
  | Some (VStr s) => Ok (PyStr.lower s)
  | Some _ => Raise AttributeError
  end.

Definition job_text (job : gmap string value) : res string :=
  match get_lower job "title", get_lower job "company",
        get_lower job "field", get_lower job "description" with
  | Ok title, Ok company, Ok field, Ok description =>
      Ok (title ++ " " ++ company ++ " " ++ field ++ " " ++ description)
  | _, _, _, _ => Raise AttributeError
  end.

(** The inner loop: how many of the terms occur in the text. *)
Definition count_terms (query_terms : list string) (text : string) : nat :=
  List.length (filter (fun term => PyStr.contains term text = true) query_terms).

(** One turn of [for job in jobs]: the pair appended to [matches], if
    any. *)
Definition match_job (query_terms : list string) (job : gmap string value)
  : res (list (gmap string value * Q)) :=
  match job_text job with
  | Raise e => Raise e
  | Ok text =>
      let score := count_terms query_terms text in
      if (0 <? score)%nat
      then Ok [(job, true_div score (List.length query_terms))]
      else Ok []
  end.

Fixpoint collect_matches (query_terms : list string)
    (jobs : list (gmap string value))
  : res (list (gmap string value * Q)) :=
  match jobs with
  | [] => Ok []
  | job :: rest =>
      match match_job query_terms job with
      | Raise e => Raise e
      | Ok m =>
          match collect_matches query_terms rest with
          | Raise e => Raise e
          | Ok ms => Ok (m ++ ms)%list
          end
      end
  end.

Definition keyword_matching (jobs : list (gmap string value))
    (query_terms : list string)
  : res (list (gmap string value * Q)) :=
  let query_terms := PyStr.lower <$> query_terms in
  match collect_matches query_terms jobs with
  | Raise e => Raise e
  | Ok matches => Ok (sort_by (fun x y => Qlt_bool x.2 y.2) matches)
  end.

Inductive method := transformer | keyword.

Record args := {
  query : string;
  results : Z;
  search_method : method
}.

(** [main], from the loaded jobs to the results it goes on to display
    ([None] when it returns before ranking); [load_model] is what
    [SentenceTransformer('all-MiniLM-L6-v2')] does in this run. *)
Definition main (load_model : res (Model Q)) (jobs : list (gmap string value))
    (a : args) : Console (option (list (gmap string value * Q))) :=
  if bool_decide (jobs = []) then mret None
  else
    _ ← print ("Loaded " ++ PyStr.of_Z (Z.of_nat (List.length jobs))
               ++ " jobs. Searching for: '" ++ query a ++ "'");
    results ←
      try_except
        (match search_method a with
         | transformer =>
             _ ← print "Loading sentence transformer model (this may take a moment)...";
             model ← lift load_model;
             let job_texts := create_job_texts jobs in
             lift (semantic_search model job_texts jobs (query a) (results a))
         | keyword =>
             _ ← print "Using keyword matching...";
             let query_terms := PyStr.words (query a) in
             matches ← lift (keyword_matching jobs query_terms);
             mret (slice_to (results a) matches)
         end)
        is_ImportError
        (_ ← print "Sentence Transformers not installed. Falling back to keyword matching.";
         _ ← print "To install: pip install sentence-transformers";
         let query_terms := PyStr.words (query a) in
         matches ← lift (keyword_matching jobs query_terms);
         mret (slice_to (results a) matches));
    mret (Some results).

End search.

(** ** The file system under [rank_jobs.py] *)

(** What the disk lets the run do: [can_make d] tells whether
    [os.makedirs(d, exist_ok=True)] succeeds on a directory name that is
    not empty, [can_write f] whether [df.to_csv(f)] does. *)
Record disk := {
  can_make : string -> bool;
  can_write : string -> bool
}.

Module os_path.

Definition is_sep (c : ascii) : bool := Ascii.eqb c "/".

Fixpoint drop_while (p : ascii -> bool) (l : list ascii) : list ascii :=
  match l with
  | [] => []
  | c :: l' => if p c then drop_while p l' else l
  end.

(** [os.path.dirname(p)] (posixpath): the head of [p] up to its last
    slash, without the slashes that end it unless it holds nothing
    else. *)
Definition dirname (p : string) : string :=
  let head_reversed :=
    drop_while (fun c => negb (is_sep c)) (rev (list_ascii_of_string p)) in
  if forallb is_sep head_reversed
  then string_of_list_ascii head_reversed
  else string_of_list_ascii (rev (drop_while is_sep head_reversed)).

End os_path.

Module os.

(** [os.makedirs(name, exist_ok=True)]: there is no directory of the
    empty name to make. *)
Definition makedirs (fs : disk) (name : string) : res unit :=
  if bool_decide (name = "") then Raise FileNotFoundError
  else if can_make fs name then Ok tt
  else Raise OSError.

End os.

(** ** [rank_jobs.py] *)

(** A job as [json.load] returns it: a dict, its keys in the order of
    the file. *)
Definition record : Type := list (string * value).

(** The dict itself, for [job.get]. *)
Definition fields (job : record) : gmap string value := list_to_map job.

(** A cell of a pandas table: a field of a job, or a score. A missing
    cell (NaN) is a key the row does not have. *)
Inductive cell (F : Type) :=
  | CVal (v : value)
  | CNum (x : F).
Arguments CVal {F} v.
Arguments CNum {F} x.

(** A table: its column names in order, and its rows. *)
Record frame (F : Type) := mk_frame {
  columns : list string;
  rows : list (gmap string (cell F))
}.
Arguments mk_frame {F} columns rows.
Arguments columns {F} f.
Arguments rows {F} f.

Module pd.
Section frames.
Context {F : Type} `{Floats F}.

(** The names of [keys], each once, in the order of their first
    occurrence. *)
Definition first_seen (keys : list string) : list string :=
  foldl (fun seen k => if bool_decide (k ∈ seen) then seen else (seen ++ [k])%list)
        [] keys.

(** [pd.DataFrame(jobs)], row by row; a column for every key, in the
    order in which the keys are met. *)
Definition DataFrame (jobs : list record) : frame F :=
  {| columns := first_seen (jobs ≫= fmap fst);
     rows := (fun job => CVal <$> fields job) <$> jobs |}.

(** The columns once [df[name]] is assigned: a new name goes last. *)
Definition put_column (name : string) (cols : list string) : list string :=
  if bool_decide (name ∈ cols) then cols else (cols ++ [name])%list.

(** [df[name] = values]: a table without rows takes its rows from the
    values; any other table wants one value per row, and raises
    [ValueError] otherwise. *)
Definition set_column (name : string) (values : list F) (df : frame F)
  : res (frame F) :=
  if bool_decide (rows df = [])
  then Ok {| columns := put_column name (columns df);
             rows := (fun x => {[name := CNum x]}) <$> values |}
  else if bool_decide (List.length values = List.length (rows df))
  then Ok {| columns := put_column name (columns df);
             rows := zip_with (fun row x => <[name := CNum x]> row)
                              (rows df) values |}
  else Raise ValueError.

(** The score a row holds in a column of floats: NaN counts as missing. *)
Definition score (col : string) (row : gmap string (cell F)) : option F :=
  match row !! col with
  | Some (CNum x) => if isnan x then None else Some x
  | _ => None
  end.

(** The order of [sort_values(by=col, ascending=False)] on a column of
    floats: does row [x] belong behind row [y]? Rows without a number in
    [col] go last. *)
Definition after_desc (col : string) (x y : gmap string (cell F)) : bool :=
  match score col x, score col y with
  | Some a, Some b => flt a b
  | None, Some _ => true
  | _, _ => false
  end.

Definition sort_values_desc (col : string) (df : frame F) : frame F :=
  {| columns := columns df; rows := sort_by (after_desc col) (rows df) |}.

(** What [mean] makes of a cell: a float or an integer counts, NaN and
    [None] are skipped, text makes it raise [TypeError]. *)
Definition number (c : option (cell F)) : res (option F) :=
  match c with
  | Some (CNum x) => Ok (if isnan x then None else Some x)
  | Some (CVal (VInt n)) => Ok (Some (of_int n))
  | Some (CVal VNone) | None => Ok None
  | Some (CVal (VStr _)) => Raise TypeError
  end.

(** The numbers of a row in the columns [cols], in the order of the
    columns. *)
Fixpoint numbers (cols : list string) (row : gmap string (cell F))
  : res (list F) :=
  match cols with
  | [] => Ok []
  | col :: cols' =>
      x ← number (row !! col);
      xs ← numbers cols' row;
      mret (match x with Some x => x :: xs | None => xs end)
  end.

(** The sum of the numbers over their count; NaN when there is none. *)
Definition mean (xs : list F) : option F :=
  match xs with
  | [] => None
  | _ :: _ => Some (fdiv (fsum xs) (of_int (Z.of_nat (List.length xs))))
  end.

(** [df[cols].mean(axis=1)] for one row. *)
Definition row_mean (cols : list string) (row : gmap string (cell F))
  : res (option F) :=
  xs ← numbers cols row; mret (mean xs).

End frames.
End pd.

Module rank_jobs.
Section ranking.
Context {F : Type} `{Floats F}.

(** The f-string of [create_job_texts] for one job. *)
Definition job_repr (job : record) : string :=
  "Title: " ++ get_str (fields job) "title"
  ++ ". Company: " ++ get_str (fields job) "company"
  ++ ". " ++ "Field: " ++ get_str (fields job) "field"
  ++ ". Description: " ++ get_str (fields job) "description".

Definition create_job_texts (jobs : list record) : list string :=
  job_repr <$> jobs.

Definition calculate_match_probabilities (model : Model F)
    (job_texts : list string) (query : string) : list F :=
  model query <$> job_texts.

(** [f'match_probability_{query.replace(" ", "_")}'] *)
Definition column_name (query : string) : string :=
  "match_probability_" ++ PyStr.replace " " "_" query.

(** [s[:30]] *)
Definition first30 (s : string) : string := String.substring 0 30 s.

(** [if not output_file: output_file = default] *)
Definition output_path (output_file : option string) (default_file : string)
  : string :=
  match output_file with
  | Some f => if bool_decide (f = "") then default_file else f
  | None => default_file
  end.

(** The default file names; [timestamp] is the formatted
    [datetime.now()]. *)
Definition ranked_file (timestamp query : string) : string :=
  "data/ranked_jobs_" ++ first30 (PyStr.replace " " "_" query)
  ++ "_" ++ timestamp ++ ".csv".

Definition ranked_file_multiple (timestamp : string) : string :=
  "data/ranked_jobs_multiple_queries_" ++ timestamp ++ ".csv".

(** [os.makedirs(os.path.dirname(output_file), exist_ok=True)] and
    [df.to_csv(output_file, index=False)]. *)
Definition write_csv (fs : disk) (output_file : string) : res unit :=
  _ ← os.makedirs fs (os_path.dirname output_file);
  if can_write fs output_file then Ok tt else Raise OSError.

(** [save_to_csv]: the path, and the table written there. *)
Definition save_to_csv (fs : disk) (timestamp : string) (jobs : list record)
    (match_probabilities : list F) (query : string)
    (output_file : option string) : res (string * frame F) :=
  let df := pd.DataFrame jobs in
  df ← pd.set_column (column_name query) match_probabilities df;
  let df := pd.sort_values_desc (column_name query) df in
  let output_file := output_path output_file (ranked_file timestamp query) in
  _ ← write_csv fs output_file;
  mret (output_file, df).

(** [process_query], from the loaded jobs on: what is written, if
    anything; [load_model] is what [SentenceTransformer(model_name)] does
    in this run. *)
Definition process_query (fs : disk) (load_model : res (Model F))
    (timestamp : string) (query : string) (input_file : string)
    (jobs : list record) (output_file : option string) (model_name : string)
  : Console (option (string * frame F)) :=
  if bool_decide (jobs = [])
  then _ ← print ("No jobs loaded from " ++ input_file); mret None
  else
    _ ← print ("Loaded " ++ PyStr.of_Z (Z.of_nat (List.length jobs))
               ++ " jobs. Calculating match probabilities for: '" ++ query ++ "'");
    try_except
      (_ ← print ("Loading sentence transformer model '" ++ model_name ++ "'...");
       model ← lift load_model;
       let job_texts := create_job_texts jobs in
       let match_probabilities :=
         calculate_match_probabilities model job_texts query in
       saved ← lift (save_to_csv fs timestamp jobs match_probabilities query
                       output_file);
       _ ← print ("Job rankings saved to " ++ saved.1);
       mret (Some saved))
      is_ImportError
      (_ ← print "Error: Sentence Transformers not installed.";
       _ ← print "To install: pip install sentence-transformers";
       mret None).

(** One turn of [for query in queries]. *)
Definition add_query_column (model : Model F) (job_texts : list string)
    (df : frame F) (query : string) : Console (frame F) :=
  _ ← print ("Processing query: '" ++ query ++ "'");
  let match_probabilities := calculate_match_probabilities model job_texts query in
  lift (pd.set_column (column_name query) match_probabilities df).

Fixpoint add_query_columns (model : Model F) (job_texts : list string)
    (df : frame F) (queries : list string) : Console (frame F) :=
  match queries with
  | [] => mret df
  | query :: rest =>
      df ← add_query_column model job_texts df query;
      add_query_columns model job_texts df rest
  end.

(** [[col for col in df.columns if col.startswith('match_probability_')]] *)
Definition probability_cols (df : frame F) : list string :=
  filter (fun col => PyStr.startswith "match_probability_" col = true)
         (columns df).

(** The mean of every row, in the order of the rows. *)
Fixpoint row_means (cols : list string) (rows : list (gmap string (cell F)))
  : res (list (option F)) :=
  match rows with
  | [] => Ok []
  | row :: rows' =>
      m ← pd.row_mean cols row;
      ms ← row_means cols rows';
      mret (m :: ms)
  end.

(** [df[name] = series], row by row: NaN leaves the cell missing. *)
Definition set_cell (name : string) (row : gmap string (cell F))
    (x : option F) : gmap string (cell F) :=
  match x with
  | Some x => <[name := CNum x]> row
  | None => delete name row
  end.

(** [df['average_match_probability'] = df[probability_cols].mean(axis=1)] *)
Definition add_average (df : frame F) : res (frame F) :=
  means ← row_means (probability_cols df) (rows df);
  mret {| columns := pd.put_column "average_match_probability" (columns df);
          rows := zip_with (set_cell "average_match_probability")
                           (rows df) means |}.

Definition process_multiple_queries (fs : disk) (load_model : res (Model F))
    (timestamp : string) (queries : list string) (input_file : string)
    (jobs : list record) (output_file : option string)
  : Console (option (string * frame F)) :=
  if bool_decide (jobs = [])
  then _ ← print ("No jobs loaded from " ++ input_file); mret None
  else
    _ ← print ("Loaded " ++ PyStr.of_Z (Z.of_nat (List.length jobs))
               ++ " jobs. Processing "
               ++ PyStr.of_Z (Z.of_nat (List.length queries)) ++ " queries...");
    try_except
      (_ ← print "Loading sentence transformer model...";
       model ← lift load_model;
       let job_texts := create_job_texts jobs in
       let df := pd.DataFrame jobs in
       df ← add_query_columns model job_texts df queries;
       df ← lift (add_average df);
       let df := pd.sort_values_desc "average_match_probability" df in
       let output_file :=
         output_path output_file (ranked_file_multiple timestamp) in
       _ ← lift (write_csv fs output_file);
       _ ← print ("Job rankings saved to " ++ output_file);
       mret (Some (output_file, df)))
      is_ImportError
      (_ ← print "Error: Sentence Transformers not installed.";
       _ ← print "To install: pip install sentence-transformers";
       mret None).

End ranking.
End rank_jobs.

(** ** [src/utils.py]: the configuration *)

Module utils.

Record config := {
  groq_api_key : string;
  base_url : string;
  max_pages : Z;
  data_dir : string
}.

(** [validate_config]; the directory it creates is left out. *)
Definition validate_config (c : config) : Console bool :=
  if bool_decide (groq_api_key c = "")
  then _ ← print "ERROR: GROQ API key is not set. Set it in .env file or as environment variable.";
       mret false
  else if bool_decide (base_url c = "")
          || negb (PyStr.startswith "https://erasmusintern.org" (base_url c))
  then _ ← print "ERROR: Invalid base URL. Must be a valid erasmusintern.org URL.";
       mret false
  else mret true.

(** [a < b] on strings: by code point, the shorter first on a tie. *)
Definition str_lt (a b : string) : bool :=
  match String_as_OT.compare a b with
  | Lt => true
  | _ => false
  end.

(** [sorted(files)] *)
Definition sorted (files : list string) : list string :=
  sort_by (fun x y => str_lt y x) files.

(** [get_most_recent_data_file]: [data_dir_exists] is
    [os.path.exists(data_dir)], [files] what [glob.glob] finds there; the
    directory it creates when there is none is left out. *)
Definition get_most_recent_data_file (data_dir_exists : bool)
    (files : list string) : option string :=
  if negb data_dir_exists then None
  else if bool_decide (files = []) then None
  else last (sorted files).

End utils.

(** ** [src/scraper.py]: saving the collection

    The two save functions against a file system that may refuse. *)

Module persistence.

(** How a write can fail: [PermissionError], or any other exception. *)
Inductive write_error :=
  | Denied
  | Failed.

(** What leaves a save function when it does not return. *)
Inductive save_exn :=
  | PermissionError
  | OtherException
  | UnboundLocalError.

Inductive outcome :=
  | Returned (filename : string)
  | Raised (e : save_exn).

Definition raised_of (e : write_error) : save_exn :=
  match e with
  | Denied => PermissionError
  | Failed => OtherException
  end.

Section file_system.

(** [self.data_dir] and the formatted [datetime.now()]. *)
Variable data_dir : string.
Variable now : string.
(** [os.path.join], [os.path.dirname(os.path.abspath(.))], [os.path.splitext]
    and [tempfile.gettempdir()]. *)
Variable join : string -> string -> string.
Variable parent : string -> string.
Variable splitext : string -> string * string.
Variable tempdir : string.
(** [os.makedirs(d, exist_ok=True)]: [None] when it succeeds. *)
Variable makedirs : string -> option write_error.
(** [os.path.exists(f)], and whether [open(f, 'a')] succeeds. *)
Variable file_exists : string -> bool.
Variable open_append : string -> bool.
(** Writing the collection to a path ([df.to_csv], or [open(f, 'w')] with
    [json.dump]): [None] when it succeeds. *)
Variable write : string -> option write_error.

(** [if not filename] *)
Definition not_given (filename : option string) : bool :=
  match filename with
  | Some f => bool_decide (f = "")
  | None => true
  end.

(** The local [date_str]: assigned only on the [if not filename] branch. *)
Definition date_str (filename : option string) : option string :=
  if not_given filename then Some now else None.

Definition target (extension : string) (filename : option string) : string :=
  if not_given filename
  then join data_dir ("erasmusintern_traineeships_" ++ now ++ extension)
  else default "" filename.

(** A write inside an [except] handler: its path is built from [date_str],
    which must have been assigned; whatever the write raises is let go. *)
Definition rescue (path_for : string -> string) (filename : option string)
  : outcome :=
  match date_str filename with
  | None => Raised UnboundLocalError
  | Some d =>
      match write (path_for d) with
      | None => Returned (path_for d)
      | Some e => Raised (raised_of e)
      end
  end.

Definition save_to_csv (traineeships : list (gmap string value))
    (filename : option string) : outcome :=
  if bool_decide (traineeships = []) then Returned ""
  else
    let given := filename in
    let filename := target ".csv" given in
    match makedirs (parent filename) with
    | Some e => Raised (raised_of e)
    | None =>
        let filename :=
          if file_exists filename && negb (open_append filename)
          then (splitext filename).1 ++ "_new" ++ (splitext filename).2
          else filename in
        match write filename with
        | None => Returned filename
        | Some Denied =>
            rescue (fun d => join tempdir ("erasmusintern_backup_" ++ d ++ ".csv"))
                   given
        | Some Failed =>
            rescue (fun d => "erasmusintern_traineeships_fallback_" ++ d ++ ".csv")
                   given
        end
    end.

Definition save_to_json (traineeships : list (gmap string value))
    (filename : option string) : outcome :=
  if bool_decide (traineeships = []) then Returned ""
  else
    let given := filename in
    let filename := target ".json" given in
    match makedirs (parent filename) with
    | Some e => Raised (raised_of e)
    | None =>
        match write filename with
        | None => Returned filename
        | Some Denied =>
            rescue (fun d => join tempdir ("erasmusintern_backup_" ++ d ++ ".json"))
                   given
        | Some Failed => Returned ""
        end
    end.

(** The saving part of [main.scrape_command]: the CSV under [args.output],
    then the JSON under its default name; [None] for the JSON when the
    CSV step raised, which ends the command in its [except Exception]. *)
Definition scrape_command_save (traineeships : list (gmap string value))
    (args_output : option string) : outcome * option outcome :=
  match save_to_csv traineeships args_output with
  | Raised e => (Raised e, None)
  | Returned output_file =>
      (Returned output_file, Some (save_to_json traineeships None))
  end.

End file_system.
End persistence.

(** * Sample inputs *)

Definition leaf (strings : list string) (attrs : list (string * string)) : Tag :=
  mkTag strings (list_to_map attrs) (fun _ => []).

Definition node (strings : list string) (matches : list (string * list Tag)) : Tag :=
  mkTag strings ∅ (fun selector => default [] (list_to_map (M := gmap string (list Tag)) matches !! selector)).

Definition listed_3_months : gmap string value :=
  <["title" := VStr "Lab assistant"]>
  (<["url" := VStr "https://erasmusintern.org/traineeship/lab-assistant"]>
  (<["duration" := VStr "3 months"]> ∅)).

Definition detail_6_months : Tag :=
  node [] [ (".field-name-field-duration .field-item, .duration", [leaf ["Duration: 6 months"] []]);
            (".field-name-body .field-item, .description", [leaf [" Help in the lab. "] []]) ].

Definition web_6_months : site := fun _ _ => Response 200 detail_6_months.


(** A small site: an index page with a pager pointing at page 9 (ten
    pages) and four fragments, and the detail page above behind every
    other address. *)
Definition sample_base : string := "https://erasmusintern.org/traineeships".

Definition fragment_full : Tag :=
  node []
    [ (".field-name-title a, h3.dot-title a",
       [leaf ["  Data analyst "] [("href", "/traineeship/data-analyst")]]);
      (".field-name-recruiter-name .field-item a", [leaf ["ACME "] []]);
      (".field-name-field-traineeship-location-count .field-item", [leaf ["Spain"] []]);
      (".field-name-field-traineeship-location-city .field-item", [leaf [" Madrid"] []]);
      (".ds-top-footer .field-name-field-traineeship-duration",
       [leaf ["Duration:"; " 3 months "] []]);
      (".field-name-post-date .field-item", [leaf ["12 May 2024"] []]);
      (".ds-top-content h5", [leaf ["Statistics"] []]) ].

Definition fragment_bare : Tag :=
  node []
    [ ("h3.title a, .media-body a",
       [leaf ["Intern"] [("href", "https://example.org/intern")]]) ].

Definition fragment_untitled : Tag :=
  node [] [ (".field-name-recruiter-name .field-item a", [leaf ["Nameless Ltd"] []]) ].

Definition fragment_no_href : Tag :=
  node [] [ (".field-name-title a, h3.dot-title a", [leaf ["Ghost"] []]) ].

Definition index_page : Tag :=
  node []
    [ (".media-list-items",
       [fragment_untitled; fragment_full; fragment_no_href; fragment_bare]);
      (".pager-last a", [leaf ["last"] [("href", "/traineeships?page=9")]]) ].

Definition sample_web : site := fun _ url =>
  if PyStr.startswith sample_base url then Response 200 index_page
  else Response 200 detail_6_months.

(** The same site, refusing the first connection of the run only. *)
Definition web_down_once : site := fun n url =>
  match n with
  | O => ConnectionError
  | _ => sample_web n url
  end.

Definition record_full (page_num : Z) : gmap string value :=
  <["title" := VStr "Data analyst"]>
  (<["company" := VStr "ACME"]>
  (<["location" := VStr "Madrid, Spain"]>
  (<["duration" := VStr "3 months"]>
  (<["post_date" := VStr "12 May 2024"]>
  (<["deadline" := VStr sentinel]>
  (<["field" := VStr "Statistics"]>
  (<["url" := VStr "https://erasmusintern.org/traineeship/data-analyst"]>
  (<["page_number" := VInt page_num]> ∅)))))))).

Definition record_bare (page_num : Z) : gmap string value :=
  <["title" := VStr "Intern"]>
  (<["company" := VStr sentinel]>
  (<["location" := VStr sentinel]>
  (<["duration" := VStr sentinel]>
  (<["post_date" := VStr sentinel]>
  (<["deadline" := VStr sentinel]>
  (<["field" := VStr sentinel]>
  (<["url" := VStr "https://example.org/intern"]>
  (<["page_number" := VInt page_num]> ∅)))))))).

(** The two records of the first page once the detail page is merged. *)
Definition persisted_full : gmap string value :=
  <["description" := VStr "Help in the lab."]> (record_full 1).

Definition persisted_bare : gmap string value :=
  <["description" := VStr "Help in the lab."]>
  (<["duration" := VStr "6 months"]> (record_bare 1)).

(** ** The keyword score in the words of the specification *)

(** The four fields keyword matching reads; it lower-cases each, which
    only text allows. *)
Definition search_keys : list string := ["title"; "company"; "field"; "description"].

Definition text_or_absent (job : gmap string value) (key : string) : bool :=
  match job !! key with
  | Some (VStr _) | None => true
  | Some _ => false
  end.

Definition searchable (job : gmap string value) : bool :=
  forallb (text_or_absent job) search_keys.

Definition text_of (job : gmap string value) (key : string) : string :=
  match job !! key with
  | Some (VStr s) => s
  | _ => ""
  end.

(** The concatenated record text. *)
Definition record_text (job : gmap string value) : string :=
  text_of job "title" ++ " " ++ text_of job "company" ++ " "
  ++ text_of job "field" ++ " " ++ text_of job "description".

(** How many of the query terms occur in the record text, letter case
    set aside. *)
Definition terms_found (query_terms : list string) (job : gmap string value) : nat :=
  List.length
    (filter (fun term => PyStr.contains (PyStr.lower term)
                           (PyStr.lower (record_text job)) = true)
            query_terms).

(** Matched terms over all terms. *)
Definition keyword_overlap (query_terms : list string) (job : gmap string value) : Q :=
  true_div (terms_found query_terms job) (List.length query_terms).

Definition job_python : gmap string value :=
  <["title" := VStr "Python Developer"]>
  (<["company" := VStr "ACME"]>
  (<["field" := VStr "Software"]>
  (<["description" := VStr "Build web services."]>
  (<["page_number" := VInt 1]> ∅)))).

Definition job_cook : gmap string value :=
  <["title" := VStr "Line cook"]>
  (<["company" := VStr "Bistro"]>
  (<["field" := VStr "Catering"]> ∅)).

Definition job_analyst : gmap string value :=
  <["title" := VStr "Analyst"]>
  (<["company" := VStr "DataCorp"]>
  (<["field" := VStr "Statistics"]>
  (<["description" := VStr "Python and R for data pipelines."]> ∅))).

(** ** Ranked tables *)

Section ranked_tables.
Context {F : Type} `{Floats F}.

(** Writing the score of one query into the row of a job. *)
Definition score_step (model : Model F) (job : record)
    (row : gmap string (cell F)) (query : string) : gmap string (cell F) :=
  <[rank_jobs.column_name query := CNum (model query (rank_jobs.job_repr job))]> row.

(** The row of a job once the queries are scored, column by column in the
    order of the queries. *)
Definition scored_row (model : Model F) (queries : list string) (job : record)
  : gmap string (cell F) :=
  foldl (score_step model job) (CVal <$> fields job) queries.

(** The table once every query has its column. *)
Definition scored_frame (model : Model F) (queries : list string)
    (jobs : list record) : frame F :=
  {| columns := foldl (fun cols query =>
                         pd.put_column (rank_jobs.column_name query) cols)
                      (pd.first_seen (jobs ≫= fmap fst)) queries;
     rows := scored_row model queries <$> jobs |}.

(** The per-query scores of a job, in the order of the queries, and those
    of them that are numbers. *)
Definition query_scores (model : Model F) (queries : list string) (job : record)
  : list F :=
  (fun query => model query (rank_jobs.job_repr job)) <$> queries.

Definition without_nan (xs : list F) : list F :=
  filter (fun x => isnan x = false) xs.

(** The arithmetic mean as floating-point arithmetic takes it: the sum
    of the numbers divided by their count; there is none of no number. *)
Definition arithmetic_mean (xs : list F) : option F :=
  match xs with
  | [] => None
  | _ :: _ => Some (fdiv (fsum xs) (of_int (Z.of_nat (List.length xs))))
  end.

(** A model that scores the jobs A, B and C (by title) 0.2, 0.9 and 0.5
    whatever the query. *)
Definition scores_abc : Model F := fun _ text =>
  if PyStr.contains "Title: A." text then decimal 2 10
  else if PyStr.contains "Title: B." text then decimal 9 10
  else decimal 5 10.

(** A model that scores every job 0.4 against the query "data science"
    and 0.8 against any other query. *)
Definition scores_04_08 : Model F := fun query _ =>
  if decide (query = "data science") then decimal 4 10 else decimal 8 10.

End ranked_tables.

(** No field of the input already looks like a score column. *)
Definition no_score_columns (jobs : list record) : bool :=
  forallb (fun job : record =>
             forallb (fun k => negb (PyStr.startswith "match_probability_" k))
                     job.*1)
          jobs.

(** No field of the input that looks like a score column holds text. *)
Definition no_text_scores (jobs : list record) : bool :=
  forallb (fun job : record =>
             forallb (fun kv : string * value =>
                        negb (PyStr.startswith "match_probability_" kv.1)
                        || match kv.2 with VStr _ => false | _ => true end)
                     job)
          jobs.

(** The directory of the path can be named and made, and the file
    written. *)
Definition writable (fs : disk) (path : string) : bool :=
  negb (bool_decide (os_path.dirname path = ""))
  && can_make fs (os_path.dirname path) && can_write fs path.

(** A disk that lets everything be done. *)
Definition open_disk : disk :=
  {| can_make := fun _ => true; can_write := fun _ => true |}.

Definition job_titled (title : string) : gmap string value :=
  <["title" := VStr title]> ∅.

Definition jobs_abc : list (gmap string value) :=
  [job_titled "A"; job_titled "B"; job_titled "C"].

(** A similarity model that scores the jobs A, B and C (by title) 0.2,
    0.9 and 0.5 whatever the query. *)
Definition model_abc : Model Q := fun _ text =>
  if PyStr.contains "Title: A." text then (2 # 10)%Q
  else if PyStr.contains "Title: B." text then (9 # 10)%Q
  else (5 # 10)%Q.

Definition record_titled (title : string) : record := [("title", VStr title)].

Definition records_abc : list record :=
  [record_titled "A"; record_titled "B"; record_titled "C"].

(** A job that brings a score column of its own. *)
Definition record_ranked_before : record :=
  [("title", VStr "A"); ("match_probability_old", VInt 1)].

(** What a run wrote in one column, row by row. *)
Definition written_column {F} (col : string)
    (run : res (option (string * frame F)) * list string)
  : option (list (option (cell F))) :=
  match run.1 with
  | Ok (Some (_, table)) => Some ((fun row => row !! col) <$> rows table)
  | _ => None
  end.

(** An index page without a last-page link: two numbered pager links, the
    marker of the current page, and an item that is no number. *)
Definition pager_items_page : Tag :=
  node []
    [ (".pager-item a, .pager-current",
       [ leaf ["2"] [("href", "/traineeships?page=1")];
         leaf [" 3 "] [];
         leaf ["5"] [("href", "/traineeships?page=4")];
         leaf ["next"] [] ]) ].

(** An index page whose last-page link carries a further parameter. *)
Definition pager_sorted_page : Tag :=
  node []
    [ (".pager-last a", [leaf ["last"] [("href", "/traineeships?page=9&sort=asc")]]);
      (".pager-item a, .pager-current",
       [leaf ["2"] [("href", "/traineeships?page=1")]]) ].

(** A file system in which only the temporary directory can be written. *)
Definition fs_join (dir name : string) : string := dir ++ "/" ++ name.
Definition fs_parent (path : string) : string := "data".
Definition fs_splitext (path : string) : string * string := (path, "").
Definition fs_makedirs (dir : string) : option persistence.write_error := None.
Definition fs_exists (path : string) : bool := false.
Definition fs_open_append (path : string) : bool := true.
Definition fs_write_tmp_only (path : string) : option persistence.write_error :=
  if PyStr.startswith "/tmp" path then None else Some persistence.Denied.

(** Three data files as [glob.glob] may list them. *)
Definition data_files : list string :=
  ["data/erasmusintern_traineeships_2025-02-27_18-28-26.csv";
   "data/erasmusintern_traineeships_2025-03-01_10-00-00.csv";
   "data/erasmusintern_traineeships_2025-02-28_09-15-00.csv"].

(** * Vocabulary of the properties *)

(** Equality of results, events, scores and cells is decidable. *)
#[global] Instance res_eq_dec `{EqDecision A} : EqDecision (res A).
Proof. solve_decision. Defined.

#[global] Instance event_eq_dec : EqDecision event.
Proof. solve_decision. Defined.

#[global] Instance Q_eq_dec : EqDecision Q.
Proof. solve_decision. Defined.

#[global] Instance cell_eq_dec `{EqDecision F} : EqDecision (cell F).
Proof. solve_decision. Defined.

(** Closed equations between values with decidable equality are settled by
    evaluating the decision. *)
Ltac by_evaluation := apply (bool_decide_eq_true_1 _); vm_compute; reflexivity.

(** The listing pages a request log asks for, in order. *)
Definition listing_pages (log : list event) : list Z :=
  omap (fun e => match e with GetListing p _ => Some p | _ => None end) log.

(** The fields of a listing record that hold text. *)
Definition text_fields : list string :=
  ["title"; "company"; "location"; "duration"; "post_date"; "deadline";
   "field"; "url"].

(** Every value is text, except the page number, which is an integer. *)
Definition typed (t : gmap string value) : Prop :=
  forall k v, t !! k = Some v ->
    if decide (k = "page_number") then exists n, v = VInt n
    else exists s, v = VStr s.

(** The nine fields of the listing page are there. *)
Definition complete (t : gmap string value) : Prop :=
  forall k, k ∈ "page_number" :: text_fields -> is_Some (t !! k).

(** An entry the detail page may contribute: text, never the page number. *)
Definition text_entry (kv : string * value) : Prop :=
  kv.1 <> "page_number" /\ exists s, kv.2 = VStr s.

(** A record as the listing page builds it. *)
Definition well_formed (t : gmap string value) : Prop := typed t /\ complete t.

(** The order of [matches.sort(key=lambda x: x[1], reverse=True)]: does
    the pair [x] belong behind the pair [y]? *)
Definition score_after (x y : gmap string value * Q) : bool := Qlt_bool x.2 y.2.

(** The order of the floats the scores are: a score below another is a
    number, as the other is; [<] never holds both ways; and among numbers,
    not being below is passed on. *)
Class FloatOrder (F : Type) `{Floats F} : Prop := {
  flt_numbers (x y : F) : flt x y = true -> isnan x = false /\ isnan y = false;
  flt_asym (x y : F) : flt x y = true -> flt y x = false;
  flt_chain (x y z : F) :
    isnan x = false -> isnan y = false -> isnan z = false ->
    flt x y = false -> flt y z = false -> flt x z = false
}.

(** What the ranked table holds for a job: the score of every query in the
    column of that query, and as the average the arithmetic mean of those
    scores that are numbers. *)
Definition row_for `{Floats F} (model : Model F) (queries : list string)
    (job : record) (row : gmap string (cell F)) : Prop :=
  (forall query, query ∈ queries ->
     row !! rank_jobs.column_name query
     = Some (CNum (model query (rank_jobs.job_repr job))))
  /\ row !! "average_match_probability"
     = CNum <$> arithmetic_mean (without_nan (query_scores model queries job)).

(** A search for "python data" by the transformer method. *)
Definition args_transformer : search.args :=
  {| search.query := "python data"; search.results := 5;
     search.search_method := search.transformer |}.

(** In a ranking by [after], [x] may stand before [y]. *)
Definition in_order {A : Type} (after : A -> A -> bool) (x y : A) : Prop :=
  after x y = false.

(** The three fields the detail page may fill. *)
Definition detail_names : list string := ["post_date"; "duration"; "description"].

(** What the detail page offers for a selector: the text of the first
    match, without its label, or the sentinel when nothing matches. *)
Definition detail_text (soup : Tag) (selector : string) : string :=
  match bs4.select soup selector with
  | elem :: _ =>
      let text := bs4.get_text_strip " " elem in
      match PyStr.after_first ":" text with
      | Some rest => PyStr.strip rest
      | None => text
      end
  | [] => sentinel
  end.

(** The text of a listing element without the label of its field. *)
Definition strip_label (label text : string) : string :=
  if PyStr.contains label text
  then PyStr.strip (PyStr.replace label "" text)
  else text.

(** The addresses of the detail pages a request log asks for, in order. *)
Definition detail_urls (log : list event) : list string :=
  omap (fun e => match e with GetDetail u => Some u | _ => None end) log.

(** The address a record points to. *)
Definition record_url (t : gmap string value) : string := text_of t "url".

(** An index request of a crawl from [base_url]: the pager probe goes to
    [base_url], the request for page [p] to its page address. *)
Definition expected_event (base_url : string) (e : event) : Prop :=
  match e with
  | GetPager u => u = base_url
  | GetListing p u => u = scraper.page_url base_url p
  | GetDetail _ => True
  end.

(** The address of an index request lies under the site. *)
Definition on_site (e : event) : Prop :=
  match e with
  | GetPager u | GetListing _ u =>
      PyStr.startswith "https://erasmusintern.org" u = true
  | GetDetail _ => True
  end.

(** The request for one listing page. *)
Definition listing_request (base_url : string) (page_num : Z) : event :=
  GetListing page_num (scraper.page_url base_url page_num).


(** Equality of scores as numbers is decidable. *)
#[global] Instance Qeq_decision (a b : Q) : Decision (a == b)%Q := Qeq_dec a b.

(** The pairs keyword matching collects, in the order of the jobs, before
    they are sorted. *)
Definition matches_in_input_order (query_terms : list string)
    (jobs : list (gmap string value)) : list (gmap string value * Q) :=
  omap (fun job =>
          if (0 <? terms_found query_terms job)%nat
          then Some (job, keyword_overlap query_terms job)
          else None)
       jobs.

(** A job with the score the model gives its text. *)
Definition with_similarity (model : Model Q) (query : string)
    (job : gmap string value) : gmap string value * Q :=
  (job, model query (search.job_repr job)).

(** The order of [np.argsort(similarities)]: does the pair [x] belong
    behind the pair [y] in ascending order? *)
Definition similarity_after {A} (x y : A * Q) : bool :=
  Qlt_bool y.2 x.2.

(** The job an index stands for, with the similarity found at it. *)
Definition picked (jobs : list (gmap string value)) (p : nat * Q)
  : gmap string value * Q :=
  (default ∅ (jobs !! p.1), p.2).

(** * Properties *)

(** ** Detail merge *)

Section merge.

Variable soup : Tag.

Lemma has_valid_data_true (r : gmap string value) k v :
  r !! k = Some v -> v <> VStr sentinel -> scraper.has_valid_data r k = true.
Proof.
  intros Hk Hv. unfold scraper.has_valid_data. rewrite Hk.
  by apply bool_decide_eq_true_2.
Qed.

Lemma update_missing_keeps (r : gmap string value) kv k v :
  r !! k = Some v -> v <> VStr sentinel ->
  scraper.update_missing r kv !! k = Some v.
Proof.
  intros Hk Hv. destruct kv as [key w]. unfold scraper.update_missing.
  destruct (scraper.has_valid_data r key) eqn:Hvalid; [done|].
  destruct (decide (key = k)) as [->|Hne].
  - by rewrite (has_valid_data_true r k v) in Hvalid.
  - by rewrite lookup_insert_ne.
Qed.

Lemma foldl_update_missing_keeps details (r : gmap string value) k v :
  r !! k = Some v -> v <> VStr sentinel ->
  foldl scraper.update_missing r details !! k = Some v.
Proof.
  revert r. induction details as [|kv details IH]; intros r Hk Hv; [done|].
  cbn [foldl]. apply IH; [|done]. by apply update_missing_keeps.
Qed.

Lemma merge_details_keeps (traineeship : gmap string value) k v :
  traineeship !! k = Some v -> v <> VStr sentinel ->
  scraper.merge_details soup traineeship !! k = Some v.
Proof. intros. unfold scraper.merge_details. by apply foldl_update_missing_keeps. Qed.

End merge.

(** What a run of [get_traineeship_details] hands back: the merged record,
    the record it was given, or nothing when the record lacks the keys the
    function reads before its [try]. *)
Lemma get_traineeship_details_cases web (traineeship : gmap string value) log :
  (exists soup, (scraper.get_traineeship_details web traineeship log).1
                = Ok (scraper.merge_details soup traineeship))
  \/ (scraper.get_traineeship_details web traineeship log).1 = Ok traineeship
  \/ ((scraper.get_traineeship_details web traineeship log).1 = Raise KeyError
      /\ (traineeship !! "url" = None \/ traineeship !! "title" = None)).
Proof.
  unfold scraper.get_traineeship_details, mbind, M_bind, lift, getitem.
  destruct (traineeship !! "url") as [url|] eqn:Hurl; [|right; right; auto].
  destruct (traineeship !! "title") as [title|] eqn:Htitle; [|right; right; auto].
  unfold try_except, raise, scraper.session_get, scraper.raise_for_status, mret, M_ret.
  destruct url as [u| |]; cbn; [|right; left; done..].
  destruct (web (List.length log) u) as [|status soup]; cbn; [right; left; done|].
  destruct ((400 <=? status) && (status <? 600)); cbn; [right; left; done|].
  left. by exists soup.
Qed.

(** C1. The detail merge never changes a field that the listing record
    holds with a value other than the sentinel "Not specified": whatever
    the site answers, the record [get_traineeship_details] returns has the
    same value there; so a field whose value differs afterwards was absent
    or held the sentinel. The call returns a record unless the input lacks
    "url" or "title", which it reads before its [try]. *)
Theorem detail_merge_never_overwrites web (traineeship : gmap string value) log k v :
  traineeship !! k = Some v ->
  v <> VStr sentinel ->
  (forall soup, scraper.merge_details soup traineeship !! k = Some v)
  /\ match (scraper.get_traineeship_details web traineeship log).1 with
     | Ok result =>
         result !! k = Some v
         /\ forall k', result !! k' <> traineeship !! k' ->
                       traineeship !! k' = None
                       \/ traineeship !! k' = Some (VStr sentinel)
     | Raise e =>
         e = KeyError
         /\ (traineeship !! "url" = None \/ traineeship !! "title" = None)
     end.
Proof.
  intros Hk Hv. split; [intros soup; by apply merge_details_keeps|].
  assert (Hpres : forall soup k', 
             scraper.merge_details soup traineeship !! k' <> traineeship !! k' ->
             traineeship !! k' = None \/ traineeship !! k' = Some (VStr sentinel)).
  { intros soup k' Hdiff.
    destruct (traineeship !! k') as [w|] eqn:Hk'; [|by left].
    destruct (decide (w = VStr sentinel)) as [->|Hw]; [by right|].
    exfalso. apply Hdiff. by apply merge_details_keeps. }
  destruct (get_traineeship_details_cases web traineeship log)
    as [[soup ->]|[->|[-> Hmiss]]].
  - split; [by apply merge_details_keeps|]. apply Hpres.
  - split; [done|]. intros k' Hdiff. by destruct Hdiff.
  - done.
Qed.
Example merge_3_months :
  (scraper.get_traineeship_details web_6_months listed_3_months []).1
  = Ok (<["description" := VStr "Help in the lab."]>
       (<["post_date" := VStr sentinel]> listed_3_months)).
Proof. by_evaluation. Qed.

Lemma detail_merge_never_overwrites_witness :
  listed_3_months !! "duration" = Some (VStr "3 months")
  /\ VStr "3 months" <> VStr sentinel
  /\ match (scraper.get_traineeship_details web_6_months listed_3_months []).1 with
     | Ok result => result !! "duration" = Some (VStr "3 months")
     | Raise _ => False
     end.
Proof.
  assert (H1 : listed_3_months !! "duration" = Some (VStr "3 months"))
    by by_evaluation.
  assert (H2 : VStr "3 months" <> VStr sentinel) by by_evaluation.
  split; [exact H1|]. split; [exact H2|].
  pose proof (detail_merge_never_overwrites web_6_months listed_3_months [] _ _ H1 H2)
    as [_ H].
  rewrite merge_3_months in H |- *. exact (proj1 H).
Defined.

(** ** The crawl: what each request leaves in the log *)

Lemma listing_pages_app l1 l2 :
  listing_pages (l1 ++ l2)%list = (listing_pages l1 ++ listing_pages l2)%list.
Proof. apply omap_app. Qed.

Section crawl.

Variable base_url : string.
Variable web : site.

Lemma session_get_run who url log :
  scraper.session_get web who url log
  = (match web (List.length log) url with
     | ConnectionError => Raise RequestException
     | Response status soup => Ok (status, soup)
     end, (log ++ [who url])%list).
Proof. unfold scraper.session_get. by destruct (web _ _). Qed.

(** A listing page never raises and costs exactly one request; when the
    page arrives with a status outside 400..599, its records are those of
    its fragments, in order. *)
Lemma scrape_traineeship_listings_run page_num log :
  exists recs,
    scraper.scrape_traineeship_listings base_url web page_num log
    = (Ok recs, (log ++ [GetListing page_num (scraper.page_url base_url page_num)])%list)
    /\ match web (List.length log) (scraper.page_url base_url page_num) with
       | ConnectionError => recs = []
       | Response status soup =>
           recs = if (400 <=? status) && (status <? 600) then []
                  else concat (scraper.scrape_container page_num
                                 <$> scraper.listing_containers soup)
       end.
Proof.
  unfold scraper.scrape_traineeship_listings, try_except, mbind, M_bind.
  rewrite session_get_run.
  destruct (web _ _) as [|status soup]; cbn.
  - by eexists.
  - unfold scraper.raise_for_status, raise, mret, M_ret. cbn.
    destruct ((400 <=? status) && (status <? 600)); cbn; by eexists.
Qed.

End crawl.

(** ** The shape of listing records *)

Lemma build_traineeship_typed page_num container title_elem t :
  scraper.build_traineeship page_num container title_elem = Ok t ->
  typed t /\ complete t /\ t !! "page_number" = Some (VInt page_num).
Proof.
  unfold scraper.build_traineeship.
  destruct (bs4.getitem title_elem "href") as [href|]; [|done].
  intros [= <-]. split; [|split].
  - intros k v H.
    repeat (apply lookup_insert_Some in H as [[<- <-]|[? H]];
            [case_decide; [done|by eexists]|]).
    apply lookup_insert_Some in H as [[<- <-]|[? H]];
      [case_decide; [by eexists|done]|].
    by rewrite lookup_empty in H.
  - intros k Hk. unfold text_fields in Hk.
    repeat (apply elem_of_cons in Hk as [->|Hk]; [by eexists|]).
    by apply elem_of_nil in Hk.
  - done.
Qed.

Lemma scrape_container_typed page_num container t :
  t ∈ scraper.scrape_container page_num container ->
  typed t /\ complete t /\ t !! "page_number" = Some (VInt page_num).
Proof.
  unfold scraper.scrape_container.
  destruct (scraper.find_title container) as [title_elem|]; [|by intros ?%elem_of_nil].
  destruct (scraper.build_traineeship _ _ _) as [t'|] eqn:E; [|by intros ?%elem_of_nil].
  intros ->%list_elem_of_singleton. by eapply build_traineeship_typed.
Qed.

Lemma setitem_text details key s :
  key <> "page_number" -> Forall text_entry details ->
  Forall text_entry (setitem details key (VStr s)).
Proof.
  intros Hkey. induction 1 as [|[k w] details Hkw Hall IH]; cbn.
  - repeat constructor; [done|by eexists].
  - case_decide as Hk.
    + constructor; [|done]. split; [by rewrite Hk|by eexists].
    + by constructor.
Qed.

Lemma collect_detail_text soup result details f :
  f ∈ scraper.detail_fields -> Forall text_entry details ->
  Forall text_entry (scraper.collect_detail soup result details f).
Proof.
  intros Hf Hall. destruct f as [field_name selector].
  assert (field_name <> "page_number") as Hname.
  { unfold scraper.detail_fields in Hf.
    repeat (apply elem_of_cons in Hf as [[= -> ->]|Hf]; [done|]).
    by apply elem_of_nil in Hf. }
  unfold scraper.collect_detail.
  destruct (scraper.has_valid_data result field_name); [done|].
  destruct (bs4.select soup selector) as [|elem ?]; [by apply setitem_text|].
  case_decide; by apply setitem_text.
Qed.

Lemma collected_details_text soup result fields details :
  fields ⊆ scraper.detail_fields -> Forall text_entry details ->
  Forall text_entry (foldl (scraper.collect_detail soup result) details fields).
Proof.
  revert details. induction fields as [|f fields IH]; intros details Hsub Hall; [done|].
  cbn [foldl]. apply IH; [set_solver|]. apply collect_detail_text; [set_solver|done].
Qed.

Lemma update_missing_typed result kv :
  text_entry kv -> typed result -> typed (scraper.update_missing result kv).
Proof.
  destruct kv as [key w]. intros [Hkey [s Hw]] Htyped. cbn in Hkey, Hw. subst w.
  unfold scraper.update_missing.
  destruct (scraper.has_valid_data result key); [done|].
  intros k v [[<- <-]|[? Hk]]%lookup_insert_Some.
  - case_decide; [done|by eexists].
  - by apply Htyped.
Qed.

Lemma update_missing_complete result kv :
  complete result -> complete (scraper.update_missing result kv).
Proof.
  destruct kv as [key w]. intros Hc k Hk. unfold scraper.update_missing.
  destruct (scraper.has_valid_data result key); [by apply Hc|].
  rewrite lookup_insert_is_Some. destruct (decide (key = k)); [by left|].
  right. split; [done|by apply Hc].
Qed.

Lemma merge_details_typed soup t :
  typed t -> complete t ->
  typed (scraper.merge_details soup t) /\ complete (scraper.merge_details soup t).
Proof.
  intros Ht Hc. unfold scraper.merge_details.
  pose proof (collected_details_text soup t scraper.detail_fields []
                ltac:(done) ltac:(constructor)) as Hdetails.
  revert Hdetails. generalize (foldl (scraper.collect_detail soup t) [] scraper.detail_fields).
  intros details Hdetails. revert t Ht Hc.
  induction Hdetails as [|kv details Hkv Hall IH]; intros t Ht Hc; [done|].
  cbn [foldl]. apply IH; [by apply update_missing_typed|by apply update_missing_complete].
Qed.

Section crawl_records.

Variable base_url : string.
Variable web : site.

(** On a record of the listing page the detail step never raises, asks
    for at most one page, and hands back a record of the same shape. *)
Lemma get_traineeship_details_run t log :
  well_formed t ->
  exists t' evs,
    scraper.get_traineeship_details web t log = (Ok t', (log ++ evs)%list)
    /\ listing_pages evs = [] /\ well_formed t'.
Proof.
  intros [Ht Hc].
  destruct (Hc "url") as [url Hurl];
    [apply (bool_decide_eq_true_1 _); vm_compute; reflexivity|].
  destruct (Hc "title") as [title Htitle];
    [apply (bool_decide_eq_true_1 _); vm_compute; reflexivity|].
  unfold scraper.get_traineeship_details, mbind, M_bind, lift, getitem.
  rewrite Hurl, Htitle. unfold try_except.
  destruct url as [u| |]; cbn.
  2,3: exists t, []; by rewrite app_nil_r.
  rewrite session_get_run.
  destruct (web _ _) as [|status soup]; cbn.
  { by exists t, [GetDetail u]. }
  unfold scraper.raise_for_status, raise, mret, M_ret. cbn.
  destruct ((400 <=? status) && (status <? 600)); cbn.
  { by exists t, [GetDetail u]. }
  exists (scraper.merge_details soup t), [GetDetail u].
  repeat split; try done; by apply merge_details_typed.
Qed.

Lemma mapM_get_traineeship_details_run recs log :
  Forall well_formed recs ->
  exists recs' evs,
    mapM (scraper.get_traineeship_details web) recs log = (Ok recs', (log ++ evs)%list)
    /\ listing_pages evs = [] /\ Forall well_formed recs'.
Proof.
  intros Hall. revert log.
  induction Hall as [|t recs Ht Hall IH]; intros log; cbn.
  { exists [], []. by rewrite app_nil_r. }
  unfold mbind, M_bind.
  destruct (get_traineeship_details_run t log Ht) as (t' & evs & -> & Hevs & Ht').
  destruct (IH (log ++ evs)%list) as (recs' & evs' & -> & Hevs' & Hrecs').
  exists (t' :: recs'), (evs ++ evs')%list. cbn.
  rewrite <-(assoc_L app), listing_pages_app, Hevs, Hevs'.
  repeat split; try done. by constructor.
Qed.

Lemma scrape_traineeship_listings_well_formed page_num log recs log' :
  scraper.scrape_traineeship_listings base_url web page_num log = (Ok recs, log') ->
  Forall well_formed recs.
Proof.
  destruct (scrape_traineeship_listings_run base_url web page_num log)
    as (recs0 & -> & Hrecs).
  intros [= <- <-].
  assert (Forall well_formed
            (concat (scraper.scrape_container page_num <$> scraper.listing_containers
               match web (List.length log) (scraper.page_url base_url page_num) with
               | Response _ soup => soup
               | ConnectionError => mkTag [] ∅ (fun _ => [])
               end))) as Hall.
  { apply Forall_forall. intros t Hin.
    apply list_elem_of_In, in_concat in Hin as (l & Hl & Ht).
    apply list_elem_of_In, list_elem_of_fmap in Hl as (c & -> & _).
    apply list_elem_of_In in Ht.
    apply scrape_container_typed in Ht as (? & ? & _). by split. }
  destruct (web _ _) as [|status soup]; [by subst|].
  destruct ((400 <=? status) && (status <? 600)); by subst.
Qed.

(** The page loop: no turn raises, and the listing pages asked for are
    exactly the pages of the loop, in its order. *)
Lemma scrape_pages_run get_details pages acc log :
  Forall well_formed acc ->
  exists recs evs,
    scraper.scrape_pages base_url web get_details pages acc log
    = (Ok recs, (log ++ evs)%list)
    /\ listing_pages evs = pages /\ Forall well_formed recs.
Proof.
  revert acc log. induction pages as [|page pages IH]; intros acc log Hacc; cbn.
  { exists acc, []. by rewrite app_nil_r. }
  unfold mbind, M_bind.
  destruct (scrape_traineeship_listings_run base_url web page log)
    as (on_page & Hrun & _).
  pose proof (scrape_traineeship_listings_well_formed _ _ _ _ Hrun) as Hon_page.
  rewrite Hrun.
  set (log1 := (log ++ [GetListing page (scraper.page_url base_url page)])%list).
  assert (exists detailed evs,
            (if get_details && bool_decide (on_page <> [])
             then mapM (scraper.get_traineeship_details web) on_page
             else mret on_page) log1 = (Ok detailed, (log1 ++ evs)%list)
            /\ listing_pages evs = [] /\ Forall well_formed detailed)
    as (detailed & evs & -> & Hevs & Hdetailed).
  { destruct (get_details && bool_decide (on_page <> [])).
    - by apply mapM_get_traineeship_details_run.
    - exists on_page, []. by rewrite app_nil_r. }
  destruct (IH (acc ++ detailed)%list (log1 ++ evs)%list)
    as (recs & evs' & -> & Hevs' & Hrecs); [by apply Forall_app|].
  exists recs, ([GetListing page (scraper.page_url base_url page)] ++ evs ++ evs')%list.
  subst log1. rewrite <-!(assoc_L app). split; [done|].
  rewrite !listing_pages_app, Hevs, Hevs'. done.
Qed.

(** The pager probe: one request, made before the [try]. *)
Lemma get_total_pages_run log :
  scraper.get_total_pages base_url web log
  = (match web (List.length log) base_url with
     | ConnectionError => Raise RequestException
     | Response _ soup =>
         Ok match scraper.count_pages soup with Ok n => n | Raise _ => 1 end
     end, (log ++ [GetPager base_url])%list).
Proof.
  unfold scraper.get_total_pages, mbind, M_bind. rewrite session_get_run.
  destruct (web _ _) as [|status soup]; [done|]. cbn.
  unfold try_except, lift. by destruct (scraper.count_pages soup).
Qed.

Lemma scrape_all_run max_pages get_details log total_pages log1 :
  scraper.get_total_pages base_url web log = (Ok total_pages, log1) ->
  exists recs evs,
    scraper.scrape_all base_url web max_pages get_details log
    = (Ok recs, (log1 ++ evs)%list)
    /\ listing_pages evs = seqZ 1 (scraper.effective_pages total_pages max_pages)
    /\ Forall well_formed recs.
Proof.
  intros Htotal. unfold scraper.scrape_all, mbind, M_bind. rewrite Htotal.
  by apply scrape_pages_run.
Qed.

End crawl_records.

(** ** Fetch failures *)

(** C2. The pager probe of [get_total_pages] is made before the [try] of
    that function: when the connection fails there, the exception leaves
    [get_total_pages] and [scrape_all], no listing page is ever asked for
    and [scrape_command] saves nothing, even though every later request
    would have been answered. (The listing and detail fetches sit inside
    their [try]: see [scrape_traineeship_listings_run] and
    [get_traineeship_details_run].) *)
Theorem pager_connection_error_leaves_scrape_all :
  forall max_pages get_details,
    scraper.scrape_all sample_base web_down_once max_pages get_details []
    = (Raise RequestException, [GetPager sample_base])
    /\ forall args_max_pages config_max_pages no_details,
         main_py.scrape_command sample_base web_down_once
           args_max_pages config_max_pages no_details = None.
Proof.
  assert (forall max_pages get_details,
             scraper.scrape_all sample_base web_down_once max_pages get_details []
             = (Raise RequestException, [GetPager sample_base])) as Hraise.
  { intros. unfold scraper.scrape_all, mbind, M_bind.
    by rewrite get_total_pages_run. }
  intros. split; [apply Hraise|].
  intros. unfold main_py.scrape_command. by rewrite Hraise.
Qed.

(** ** Pagination *)

(** C5. Once the pager probe has detected [N] pages, [scrape_all] runs to
    its end and asks for exactly the listing pages 1, 2, ..., in that
    order, up to [min N C] for a cap [C > 0] and up to [N] for a cap of 0
    or no cap. *)
Theorem scrape_all_pages_processed base_url web get_details N log1 :
  scraper.get_total_pages base_url web [] = (Ok N, log1) ->
  (forall C, 0 < C ->
     exists recs log,
       scraper.scrape_all base_url web (Some C) get_details [] = (Ok recs, log)
       /\ listing_pages log = seqZ 1 (Z.min N C))
  /\ (exists recs log,
        scraper.scrape_all base_url web (Some 0) get_details [] = (Ok recs, log)
        /\ listing_pages log = seqZ 1 N)
  /\ (exists recs log,
        scraper.scrape_all base_url web None get_details [] = (Ok recs, log)
        /\ listing_pages log = seqZ 1 N).
Proof.
  intros Htotal.
  assert (listing_pages log1 = []) as Hlog1.
  { rewrite get_total_pages_run in Htotal. by injection Htotal as _ <-. }
  assert (forall max_pages,
            exists recs log,
              scraper.scrape_all base_url web max_pages get_details [] = (Ok recs, log)
              /\ listing_pages log = seqZ 1 (scraper.effective_pages N max_pages))
    as Hrun.
  { intros max_pages.
    destruct (scrape_all_run base_url web max_pages get_details [] N log1 Htotal)
      as (recs & evs & Hrun & Hevs & _).
    exists recs, (log1 ++ evs)%list. split; [done|].
    by rewrite listing_pages_app, Hlog1, Hevs. }
  split; [|split].
  - intros C HC. destruct (Hrun (Some C)) as (recs & log & ? & Hpages).
    exists recs, log. split; [done|]. rewrite Hpages. cbn.
    by rewrite (proj2 (Z.ltb_lt 0 C) HC).
  - apply (Hrun (Some 0)).
  - apply (Hrun None).
Qed.

Lemma scrape_all_pages_processed_witness :
  scraper.get_total_pages sample_base sample_web []
  = (Ok 10, [GetPager sample_base])
  /\ exists recs log,
       scraper.scrape_all sample_base sample_web (Some 3) true [] = (Ok recs, log)
       /\ listing_pages log = [1; 2; 3].
Proof.
  assert (scraper.get_total_pages sample_base sample_web []
          = (Ok 10, [GetPager sample_base])) as H by by_evaluation.
  split; [exact H|].
  exact (proj1 (scrape_all_pages_processed sample_base sample_web true 10 _ H)
           3 ltac:(lia)).
Defined.

(** ** The persisted collection *)

Lemma clean_nulls_lookup (t : gmap string value) k :
  main_py.clean_nulls t !! k
  = (fun v => match v with VNone => VStr sentinel | _ => v end) <$> t !! k.
Proof. unfold main_py.clean_nulls. apply lookup_fmap. Qed.

Lemma clean_nulls_well_formed t :
  well_formed t -> main_py.clean_nulls t = t.
Proof.
  intros [Ht _]. apply map_eq. intros k. rewrite clean_nulls_lookup.
  destruct (t !! k) as [v|] eqn:Hk; [|done]. cbn.
  specialize (Ht k v Hk). case_decide; by destruct Ht as [? ->].
Qed.

Lemma page_number_not_text : "page_number" ∉ text_fields.
Proof. by_evaluation. Qed.

Lemma clean_nulls_all_well_formed (l : list (gmap string value)) :
  Forall well_formed l -> main_py.clean_nulls <$> l = l.
Proof.
  induction 1 as [|t l Ht Hl IH]; [done|].
  rewrite fmap_cons, IH. by rewrite clean_nulls_well_formed.
Qed.

(** C6, read to the letter, asks every field of a persisted record to hold
    text. The page number does not: the first record of the sample site is
    persisted with the integer 1 there. *)
Lemma persisted_page_number_is_an_integer :
  main_py.scrape_command sample_base sample_web (Some 1) 0 false
  = Some [persisted_full; persisted_bare]
  /\ persisted_full !! "page_number" = Some (VInt 1)
  /\ ~ exists s, persisted_full !! "page_number" = Some (VStr s).
Proof.
  assert (persisted_full !! "page_number" = Some (VInt 1)) as H by by_evaluation.
  split; [by_evaluation|]. split; [exact H|].
  intros [s Hs]. rewrite H in Hs. discriminate Hs.
Qed.

(** C6, amended. In the collection [scrape_command] hands to the two save
    functions no field is [None]: the clean-up rewrites every [None] to the
    sentinel, whatever the record; every record has the nine fields of the
    listing page; and every field present holds text (a real value or the
    sentinel), except "page_number", which holds the integer page number. *)
Theorem persisted_records_have_no_null base_url web args_max_pages
    config_max_pages no_details recs :
  main_py.scrape_command base_url web args_max_pages config_max_pages no_details
  = Some recs ->
  (forall (t : gmap string value) k, main_py.clean_nulls t !! k <> Some VNone)
  /\ forall t, t ∈ recs ->
       (forall k v, t !! k = Some v -> v <> VNone)
       /\ (forall k, k ∈ text_fields -> exists s, t !! k = Some (VStr s))
       /\ (exists n, t !! "page_number" = Some (VInt n))
       /\ (forall k v, t !! k = Some v -> k <> "page_number" -> exists s, v = VStr s).
Proof.
  intros Hcmd. split.
  { intros t k. rewrite clean_nulls_lookup.
    destruct (t !! k) as [[]|]; cbn; congruence. }
  unfold main_py.scrape_command in Hcmd.
  destruct (scraper.scrape_all _ _ _ _ _) as [[traineeships|e] log] eqn:Hrun; [|done].
  assert (Forall well_formed traineeships) as Hall.
  { unfold scraper.scrape_all, mbind, M_bind in Hrun.
    destruct (scraper.get_total_pages base_url web []) as [[N|e] log1] eqn:Htotal; [|done].
    destruct (scrape_pages_run base_url web (negb no_details)
                (seqZ 1 (scraper.effective_pages N
                           (Some (default config_max_pages args_max_pages))))
                [] log1 ltac:(constructor)) as (recs' & evs & Hpages & _ & Hwf).
    rewrite Hpages in Hrun. by injection Hrun as <- _. }
  assert (recs = traineeships) as ->.
  { rewrite (clean_nulls_all_well_formed _ Hall) in Hcmd.
    destruct traineeships; [done|]. by injection Hcmd as <-. }
  intros t Ht. rewrite Forall_forall in Hall.
  destruct (Hall t Ht) as [Htyped Hcomplete].
  assert (forall k v, t !! k = Some v -> k <> "page_number" -> exists s, v = VStr s)
    as Htext.
  { intros k v Hk Hne. specialize (Htyped k v Hk). by case_decide. }
  repeat split.
  - intros k v Hk ->. specialize (Htyped k VNone Hk).
    case_decide; by destruct Htyped.
  - intros k Hk. destruct (Hcomplete k) as [v Hv]; [by right|].
    destruct (Htext k v Hv) as [s ->]; [|by exists s].
    intros ->. by apply page_number_not_text in Hk.
  - destruct (Hcomplete "page_number") as [v Hv]; [by left|].
    specialize (Htyped _ _ Hv). cbn in Htyped. destruct Htyped as [n ->]. by exists n.
  - done.
Qed.

Lemma persisted_records_have_no_null_witness :
  main_py.scrape_command sample_base sample_web (Some 1) 0 false
  = Some [persisted_full; persisted_bare]
  /\ forall k v, persisted_full !! k = Some v -> v <> VNone.
Proof.
  assert (main_py.scrape_command sample_base sample_web (Some 1) 0 false
          = Some [persisted_full; persisted_bare]) as H by by_evaluation.
  split; [exact H|].
  pose proof (persisted_records_have_no_null _ _ _ _ _ _ H) as [_ Hrecs].
  exact (proj1 (Hrecs persisted_full ltac:(by left))).
Defined.

(** ** Fragments of a listing page *)

Lemma first_labelled_none label selectors container found :
  (forall selector, selector ∈ selectors ->
                    bs4.select_one container selector = None) ->
  scraper.first_labelled label selectors container found = found.
Proof.
  induction selectors as [|selector rest IH]; intros Hnone; [done|].
  cbn. rewrite (Hnone selector) by (by left). apply IH.
  intros ? ?. apply Hnone. by right.
Qed.

(** C7, read to the letter, asks every fragment with a title to become a
    record. A fragment whose title link has no [href] does not: the lookup
    [title_elem['href']] raises, the [except Exception] of the loop body
    passes the fragment over, and the page of the sample site yields two
    records for its three titled fragments. *)
Lemma titled_fragment_without_href_yields_no_record :
  scraper.listing_containers index_page
  = [fragment_untitled; fragment_full; fragment_no_href; fragment_bare]
  /\ (exists title_elem, scraper.find_title fragment_no_href = Some title_elem)
  /\ scraper.scrape_container 1 fragment_no_href = []
  /\ (scraper.scrape_traineeship_listings sample_base sample_web 1 []).1
     = Ok [record_full 1; record_bare 1].
Proof.
  split; [reflexivity|]. split; [by eexists|].
  split; by_evaluation.
Qed.

(** C7, amended. When a listing page arrives, its records are those of its
    fragments taken one by one, in order, so a fragment that is passed over
    costs the others nothing. A fragment in which no title selector matches
    gives no record, and neither does one whose title link has no [href];
    any other fragment gives exactly one record, with its title and page
    number, in which each of company, location, duration, post date,
    deadline and field is exactly "Not specified" as soon as its own
    selectors match nothing, whatever the other fields do. *)
Theorem listing_fragments_processed_independently base_url web page_num log
    status soup :
  web (List.length log) (scraper.page_url base_url page_num) = Response status soup ->
  (400 <=? status) && (status <? 600) = false ->
  (scraper.scrape_traineeship_listings base_url web page_num log).1
  = Ok (concat (scraper.scrape_container page_num <$> scraper.listing_containers soup))
  /\ forall container,
       match scraper.find_title container with
       | None => scraper.scrape_container page_num container = []
       | Some title_elem =>
           match tag_attrs title_elem !! "href" with
           | None => scraper.scrape_container page_num container = []
           | Some href =>
               exists t,
                 scraper.scrape_container page_num container = [t]
                 /\ t !! "title" = Some (VStr (PyStr.strip (bs4.text title_elem)))
                 /\ t !! "page_number" = Some (VInt page_num)
                 /\ (bs4.select_one container
                       ".field-name-recruiter-name .field-item a" = None ->
                     t !! "company" = Some (VStr sentinel))
                 /\ (bs4.select_one container
                       ".field-name-field-traineeship-location-count .field-item" = None ->
                     t !! "location" = Some (VStr sentinel))
                 /\ ((forall selector, selector ∈ scraper.duration_selectors ->
                        bs4.select_one container selector = None) ->
                     t !! "duration" = Some (VStr sentinel))
                 /\ ((forall selector, selector ∈ scraper.post_date_selectors ->
                        bs4.select_one container selector = None) ->
                     t !! "post_date" = Some (VStr sentinel))
                 /\ (bs4.select_one container
                       ".ds-top-footer .field-name-field-traineeship-apply-deadline" = None ->
                     t !! "deadline" = Some (VStr sentinel))
                 /\ (bs4.select_one container ".ds-top-content h5" = None ->
                     t !! "field" = Some (VStr sentinel))
           end
       end.
Proof.
  intros Hweb Hstatus. split.
  { destruct (scrape_traineeship_listings_run base_url web page_num log)
      as (recs & -> & Hrecs).
    rewrite Hweb, Hstatus in Hrecs. by subst. }
  intros container. unfold scraper.scrape_container.
  destruct (scraper.find_title container) as [title_elem|]; [|done].
  unfold scraper.build_traineeship, bs4.getitem.
  destruct (tag_attrs title_elem !! "href") as [href|]; [|done].
  eexists. split; [reflexivity|].
  split; [reflexivity|]. split; [reflexivity|].
  repeat split.
  - intros Hnone. unfold scraper.extract_company. rewrite Hnone. reflexivity.
  - intros Hnone. unfold scraper.extract_location. rewrite Hnone.
    destruct (bs4.select_one container
                ".field-name-field-traineeship-location-city .field-item");
      reflexivity.
  - intros Hnone. rewrite first_labelled_none by done. reflexivity.
  - intros Hnone. rewrite (first_labelled_none "Post date:") by done. reflexivity.
  - intros Hnone. unfold scraper.extract_deadline. rewrite Hnone. reflexivity.
  - intros Hnone. unfold scraper.extract_field. rewrite Hnone. reflexivity.
Qed.

Lemma listing_fragments_processed_independently_witness :
  sample_web 0%nat (scraper.page_url sample_base 1) = Response 200 index_page
  /\ (400 <=? 200) && (200 <? 600) = false
  /\ (scraper.scrape_traineeship_listings sample_base sample_web 1 []).1
     = Ok (concat (scraper.scrape_container 1
                     <$> [fragment_untitled; fragment_full; fragment_no_href;
                          fragment_bare]))
  /\ scraper.scrape_container 1 fragment_untitled = []
  /\ scraper.scrape_container 1 fragment_bare = [record_bare 1].
Proof.
  assert (sample_web 0%nat (scraper.page_url sample_base 1) = Response 200 index_page)
    as H1 by reflexivity.
  assert ((400 <=? 200) && (200 <? 600) = false) as H2 by reflexivity.
  split; [exact H1|]. split; [exact H2|].
  split.
  - exact (proj1 (listing_fragments_processed_independently
                    sample_base sample_web 1 [] 200 index_page H1 H2)).
  - split; by_evaluation.
Defined.

(** ** Ranking order *)

Section sort_by_facts.

Context {A : Type} (after : A -> A -> bool).

Lemma insert_sorted_perm x l : insert_sorted after x l ≡ₚ x :: l.
Proof.
  induction l as [|y l IH]; [done|]. cbn.
  destruct (after x y); [|done]. rewrite IH. apply Permutation_swap.
Qed.

Lemma sort_by_perm l : sort_by after l ≡ₚ l.
Proof.
  induction l as [|x l IH]; [done|]. cbn.
  by rewrite insert_sorted_perm, IH.
Qed.

Lemma sort_by_length l : List.length (sort_by after l) = List.length l.
Proof. apply Permutation_length, sort_by_perm. Qed.

Lemma sort_by_elem_of l x : x ∈ sort_by after l <-> x ∈ l.
Proof. by rewrite sort_by_perm. Qed.

Hypothesis after_asym : forall x y, after x y = true -> after y x = false.
Hypothesis after_chain :
  forall x y z, after x y = false -> after y z = false -> after x z = false.

Lemma insert_sorted_sorted x l :
  StronglySorted (in_order after) l -> StronglySorted (in_order after) (insert_sorted after x l).
Proof.
  induction 1 as [|y l Hl IH Hy]; cbn.
  { repeat constructor. }
  destruct (after x y) eqn:Hxy.
  - constructor; [done|].
    rewrite Forall_forall. intros z Hz.
    rewrite insert_sorted_perm in Hz. apply elem_of_cons in Hz as [->|Hz].
    + by apply after_asym.
    + rewrite Forall_forall in Hy. by apply Hy.
  - constructor; [by constructor|].
    constructor; [done|].
    eapply Forall_impl; [exact Hy|]. intros z Hz. by eapply after_chain.
Qed.

Lemma sort_by_sorted l : StronglySorted (in_order after) (sort_by after l).
Proof.
  induction l as [|x l IH]; cbn; [constructor|by apply insert_sorted_sorted].
Qed.

Lemma StronglySorted_lookup_lt (l : list A) i j x y :
  StronglySorted (in_order after) l ->
  l !! i = Some x -> l !! j = Some y -> (i < j)%nat -> in_order after x y.
Proof.
  intros Hl. revert i j. induction Hl as [|z l Hl IH Hz]; intros i j Hi Hj Hij.
  { by rewrite lookup_nil in Hi. }
  destruct i as [|i], j as [|j]; try lia; cbn in Hi, Hj.
  - injection Hi as ->. rewrite Forall_forall in Hz.
    apply Hz. by eapply list_elem_of_lookup_2.
  - eapply IH; [done..|lia].
Qed.

(** In a sorted list, who belongs behind stands behind. *)
Lemma sort_by_ranked l i j x y :
  sort_by after l !! i = Some x -> sort_by after l !! j = Some y ->
  after y x = true -> (i < j)%nat.
Proof.
  intros Hi Hj Hyx.
  destruct (decide (i < j)%nat) as [|Hge]; [done|]. exfalso.
  destruct (decide (i = j)) as [->|Hne].
  - rewrite Hi in Hj. injection Hj as ->.
    pose proof (after_asym _ _ Hyx). congruence.
  - assert (in_order after y x) as Hin.
    { eapply (StronglySorted_lookup_lt _ j i); [apply sort_by_sorted|done..|lia]. }
    unfold in_order in Hin. congruence.
Qed.

End sort_by_facts.

Lemma Qlt_bool_iff a b : Qlt_bool a b = true <-> (a < b)%Q.
Proof.
  unfold Qlt_bool. rewrite negb_true_iff. split.
  - intros H. apply Qnot_le_lt. intros Hle. apply Qle_bool_iff in Hle. congruence.
  - intros H. destruct (Qle_bool b a) eqn:E; [|done].
    apply Qle_bool_iff in E. by apply Qlt_not_le in H.
Qed.

Lemma Qlt_bool_false a b : Qlt_bool a b = false <-> (b <= a)%Q.
Proof.
  unfold Qlt_bool. rewrite negb_false_iff. apply Qle_bool_iff.
Qed.

Lemma Qlt_bool_asym a b : Qlt_bool a b = true -> Qlt_bool b a = false.
Proof. rewrite Qlt_bool_iff, Qlt_bool_false. apply Qlt_le_weak. Qed.

Lemma Qlt_bool_chain a b c :
  Qlt_bool a b = false -> Qlt_bool b c = false -> Qlt_bool a c = false.
Proof. rewrite !Qlt_bool_false. intros ? ?. by eapply Qle_trans. Qed.

Lemma true_div_bounds (a b : nat) :
  (0 < a)%nat -> (a <= b)%nat -> (0 < true_div a b)%Q /\ (true_div a b <= 1)%Q.
Proof.
  intros Ha Hab. unfold true_div.
  assert (0 < inject_Z (Z.of_nat b))%Q as Hb.
  { change 0%Q with (inject_Z 0). rewrite <-Zlt_Qlt. lia. }
  split.
  - apply Qlt_shift_div_l; [done|]. rewrite Qmult_0_l.
    change 0%Q with (inject_Z 0). rewrite <-Zlt_Qlt. lia.
  - apply Qle_shift_div_r; [done|]. rewrite Qmult_1_l.
    rewrite <-Zle_Qle. lia.
Qed.

(** ** Keyword matching *)

Lemma lower_app a b : PyStr.lower (a ++ b) = PyStr.lower a ++ PyStr.lower b.
Proof.
  induction a as [|c a IH]; [done|].
  change (String (PyStr.lower_char c) (PyStr.lower (a ++ b))
          = String (PyStr.lower_char c) (PyStr.lower a ++ PyStr.lower b)).
  by rewrite IH.
Qed.

Lemma get_lower_Ok job key s :
  search.get_lower job key = Ok s -> s = PyStr.lower (text_of job key).
Proof.
  unfold search.get_lower, text_of.
  destruct (job !! key) as [[]|]; by intros [= <-].
Qed.

Lemma job_text_Ok job text :
  search.job_text job = Ok text -> text = PyStr.lower (record_text job).
Proof.
  unfold search.job_text, record_text.
  destruct (search.get_lower job "title") as [t|] eqn:Ht; [|done].
  destruct (search.get_lower job "company") as [c|] eqn:Hc; [|done].
  destruct (search.get_lower job "field") as [f|] eqn:Hf; [|done].
  destruct (search.get_lower job "description") as [d|] eqn:Hd; [|done].
  intros [= <-].
  rewrite (get_lower_Ok _ _ _ Ht), (get_lower_Ok _ _ _ Hc),
    (get_lower_Ok _ _ _ Hf), (get_lower_Ok _ _ _ Hd).
  by rewrite !lower_app.
Qed.

Lemma get_lower_searchable job key :
  text_or_absent job key = true ->
  search.get_lower job key = Ok (PyStr.lower (text_of job key)).
Proof.
  unfold text_or_absent, search.get_lower, text_of.
  by destruct (job !! key) as [[]|].
Qed.

Lemma job_text_searchable job :
  searchable job = true ->
  search.job_text job = Ok (PyStr.lower (record_text job)).
Proof.
  unfold searchable, search_keys. cbn [forallb].
  rewrite !andb_true_iff. intros (Ht & Hc & Hf & Hd & _).
  unfold search.job_text, record_text.
  rewrite !get_lower_searchable by done. by rewrite !lower_app.
Qed.

Lemma count_terms_lower query_terms job :
  search.count_terms (PyStr.lower <$> query_terms) (PyStr.lower (record_text job))
  = terms_found query_terms job.
Proof.
  unfold search.count_terms, terms_found.
  induction query_terms as [|term rest IH]; [done|].
  rewrite fmap_cons, !filter_cons. repeat case_decide; cbn; congruence.
Qed.

Lemma terms_found_le query_terms job :
  (terms_found query_terms job <= List.length query_terms)%nat.
Proof. apply length_filter. Qed.

(** What [for job in jobs] leaves in [matches], for the lower-cased terms
    [lower <$> query_terms]. *)
Lemma collect_matches_spec query_terms jobs matches :
  search.collect_matches (PyStr.lower <$> query_terms) jobs = Ok matches ->
  (forall job s, (job, s) ∈ matches <->
                 job ∈ jobs /\ (0 < terms_found query_terms job)%nat
                 /\ s = keyword_overlap query_terms job)
  /\ (List.length matches <= List.length jobs)%nat.
Proof.
  revert matches. induction jobs as [|job0 jobs IH]; intros matches; cbn.
  { intros [= <-]. split; [|done]. intros job s. split.
    - by intros ?%elem_of_nil.
    - by intros [?%elem_of_nil _]. }
  unfold search.match_job.
  destruct (search.job_text job0) as [text|] eqn:Htext; [|done].
  apply job_text_Ok in Htext as ->. rewrite count_terms_lower, length_fmap.
  destruct (search.collect_matches _ jobs) as [ms|]; [|by destruct (_ <? _)%nat].
  destruct (IH ms eq_refl) as [IHin IHlen].
  destruct (0 <? terms_found query_terms job0)%nat eqn:Hpos; intros [= <-].
  - apply Nat.ltb_lt in Hpos. split; [|cbn; lia].
    intros job s. cbn. rewrite !elem_of_cons, IHin. split.
    + intros [[= -> ->]|(? & ? & ?)]; [by auto|by auto].
    + intros ([->|?] & ? & ->); [by left|right; by auto].
  - apply Nat.ltb_ge in Hpos. split; [|cbn; lia].
    intros job s. cbn. rewrite elem_of_cons, IHin. split.
    + intros (? & ? & ?); by auto.
    + intros ([->|?] & ? & ->); [lia|by auto].
Qed.

Lemma collect_matches_total query_terms jobs :
  forallb searchable jobs = true ->
  exists matches, search.collect_matches query_terms jobs = Ok matches.
Proof.
  induction jobs as [|job jobs IH]; cbn; [by eexists|].
  intros [Hjob [ms Hms]%IH]%andb_prop.
  unfold search.match_job. rewrite (job_text_searchable job Hjob), Hms.
  destruct (_ <? _)%nat; by eexists.
Qed.

Lemma matches_in_input_order_cons query_terms job jobs :
  matches_in_input_order query_terms (job :: jobs)
  = ((if (0 <? terms_found query_terms job)%nat
      then [(job, keyword_overlap query_terms job)] else [])
     ++ matches_in_input_order query_terms jobs)%list.
Proof.
  unfold matches_in_input_order.
  destruct (terms_found query_terms job) eqn:Hn; cbn; by rewrite Hn.
Qed.

Lemma collect_matches_in_input_order query_terms jobs matches :
  search.collect_matches (PyStr.lower <$> query_terms) jobs = Ok matches ->
  matches = matches_in_input_order query_terms jobs.
Proof.
  revert matches. induction jobs as [|job jobs IH]; intros matches.
  { by intros [= <-]. }
  rewrite matches_in_input_order_cons. cbn [search.collect_matches].
  unfold search.match_job.
  destruct (search.job_text job) as [text|] eqn:Htext; [|done].
  apply job_text_Ok in Htext as ->. rewrite count_terms_lower, length_fmap.
  fold (keyword_overlap query_terms job).
  destruct (search.collect_matches _ jobs) as [ms|];
    [|by destruct (0 <? terms_found query_terms job)%nat].
  pose proof (IH ms eq_refl) as Hms. subst ms.
  by destruct (0 <? terms_found query_terms job)%nat; intros [= <-].
Qed.

Lemma keyword_matching_unfold jobs query_terms :
  search.keyword_matching jobs query_terms
  = match search.collect_matches (PyStr.lower <$> query_terms) jobs with
    | Ok matches => Ok (sort_by score_after matches)
    | Raise e => Raise e
    end.
Proof. reflexivity. Qed.

(** C4. On records whose title, company, field and description are text
    (or absent), keyword matching returns, and the score it pairs with a
    record is the number of query terms found in the record text, letter
    case set aside, divided by the number of query terms; every score lies
    between 0 and 1. Records are paired exactly when a term is found. *)
Theorem keyword_score_is_share_of_terms_found jobs query_terms :
  forallb searchable jobs = true ->
  exists matches,
    search.keyword_matching jobs query_terms = Ok matches
    /\ (forall job s, (job, s) ∈ matches <->
                      job ∈ jobs /\ (0 < terms_found query_terms job)%nat
                      /\ s = keyword_overlap query_terms job)
    /\ (forall job s, (job, s) ∈ matches -> (0 <= s)%Q /\ (s <= 1)%Q).
Proof.
  intros Hjobs. rewrite keyword_matching_unfold.
  destruct (collect_matches_total (PyStr.lower <$> query_terms) jobs Hjobs)
    as [ms Hms].
  rewrite Hms. destruct (collect_matches_spec _ _ _ Hms) as [Hin _].
  eexists. split; [done|].
  assert (forall job s, (job, s) ∈ sort_by score_after ms <->
                        job ∈ jobs /\ (0 < terms_found query_terms job)%nat
                        /\ s = keyword_overlap query_terms job) as Hsorted.
  { intros job s. by rewrite sort_by_elem_of. }
  split; [done|].
  intros job s (_ & Hpos & ->)%Hsorted.
  destruct (true_div_bounds _ _ Hpos (terms_found_le query_terms job)).
  split; [by apply Qlt_le_weak|done].
Qed.

Lemma keyword_score_is_share_of_terms_found_witness :
  forallb searchable [job_python] = true
  /\ exists matches,
       search.keyword_matching [job_python] (PyStr.words "python data") = Ok matches
       /\ (job_python, (1 # 2)%Q) ∈ matches.
Proof.
  assert (forallb searchable [job_python] = true) as H by reflexivity.
  split; [exact H|].
  destruct (keyword_score_is_share_of_terms_found
              [job_python] (PyStr.words "python data") H)
    as (matches & Hrun & Hin & _).
  exists matches. split; [exact Hrun|].
  apply Hin. split; [by left|].
  assert (terms_found (PyStr.words "python data") job_python = 1%nat) as Hfound
    by by_evaluation.
  split; [rewrite Hfound; lia|].
  unfold keyword_overlap. rewrite Hfound. by_evaluation.
Defined.

(** The example of C4: "python" is found, "data" is not. *)
Example keyword_score_python_data :
  PyStr.contains "python" (PyStr.lower (record_text job_python)) = true
  /\ PyStr.contains "data" (PyStr.lower (record_text job_python)) = false
  /\ search.keyword_matching [job_python] (PyStr.words "python data")
     = Ok [(job_python, (1 # 2)%Q)].
Proof. repeat split; by_evaluation. Qed.

(** A field that is not text makes [.lower()] fail, and the call with it. *)
Example keyword_matching_on_null_title :
  search.keyword_matching [<["title" := VNone]> job_python] ["python"]
  = Raise AttributeError.
Proof. by_evaluation. Qed.

(** C10. Keyword matching returns only pairs with a score above zero: a
    record in whose text no query term occurs gets no pair at all, so the
    result is at most as long as the input, and shorter whenever such a
    record is present. *)
Theorem keyword_matching_omits_unmatched jobs query_terms matches :
  search.keyword_matching jobs query_terms = Ok matches ->
  (forall job s, (job, s) ∈ matches -> (0 < s)%Q)
  /\ (forall job, job ∈ jobs -> terms_found query_terms job = 0%nat ->
                  forall s, (job, s) ∉ matches)
  /\ (List.length matches <= List.length jobs)%nat
  /\ ((exists job, job ∈ jobs /\ terms_found query_terms job = 0%nat) ->
      (List.length matches < List.length jobs)%nat).
Proof.
  rewrite keyword_matching_unfold.
  destruct (search.collect_matches _ jobs) as [ms|] eqn:Hms; [|done].
  intros [= <-]. destruct (collect_matches_spec _ _ _ Hms) as [Hin Hlen].
  split; [|split; [|split]].
  - intros job s. rewrite sort_by_elem_of, Hin. intros (_ & Hpos & ->).
    by destruct (true_div_bounds _ _ Hpos (terms_found_le query_terms job)).
  - intros job _ Hzero s. rewrite sort_by_elem_of, Hin. intros (_ & Hpos & _). lia.
  - by rewrite sort_by_length.
  - rewrite sort_by_length. intros (job & Hjob & Hzero).
    clear Hin Hlen. revert ms Hms.
    induction jobs as [|job0 jobs IH]; intros ms; [by apply elem_of_nil in Hjob|].
    cbn. unfold search.match_job.
    destruct (search.job_text job0) as [text|] eqn:Htext; [|done].
    apply job_text_Ok in Htext as ->. rewrite count_terms_lower.
    destruct (search.collect_matches _ jobs) as [ms'|] eqn:Hms';
      [|by destruct (_ <? _)%nat].
    destruct (collect_matches_spec _ _ _ Hms') as [_ Hlen'].
    apply elem_of_cons in Hjob as [<-|Hjob].
    + rewrite Hzero. intros [= <-]. cbn. lia.
    + specialize (IH Hjob ms' eq_refl).
      destruct (_ <? _)%nat; intros [= <-]; cbn; lia.
Qed.

Lemma keyword_matching_omits_unmatched_witness :
  search.keyword_matching [job_cook; job_python; job_analyst] ["Python"; "data"]
  = Ok [(job_analyst, (2 # 2)%Q); (job_python, (1 # 2)%Q)]
  /\ forall s, (job_cook, s) ∉ [(job_analyst, (2 # 2)%Q); (job_python, (1 # 2)%Q)].
Proof.
  assert (search.keyword_matching [job_cook; job_python; job_analyst] ["Python"; "data"]
          = Ok [(job_analyst, (2 # 2)%Q); (job_python, (1 # 2)%Q)]) as H
    by by_evaluation.
  split; [exact H|].
  apply (proj1 (proj2 (keyword_matching_omits_unmatched _ _ _ H))).
  - by left.
  - by_evaluation.
Defined.

(** ** The embedding library is missing *)

(** C3, read to the letter, rules out any switch of strategy inside one
    invocation. [search.py] makes that switch: asked for the transformer
    method, with the import failing, [main] announces the fallback and
    returns exactly what keyword matching returns. *)
Lemma search_main_falls_back_to_keyword_matching :
  search.main (Raise ImportError) [job_python] args_transformer []
  = (Ok (Some [(job_python, (1 # 2)%Q)]),
     [ "Loaded 1 jobs. Searching for: 'python data'";
       "Loading sentence transformer model (this may take a moment)...";
       "Sentence Transformers not installed. Falling back to keyword matching.";
       "To install: pip install sentence-transformers" ])
  /\ search.keyword_matching [job_python] (PyStr.words "python data")
     = Ok [(job_python, (1 # 2)%Q)].
Proof. split; by_evaluation. Qed.

(** C3, amended. When loading the model raises [ImportError]:
    [rank_jobs.process_query] and [rank_jobs.process_multiple_queries] give
    the embedding path up, tell the operator that Sentence Transformers is
    not installed and how to install it, and rank and write nothing;
    [search.main], asked for the transformer method, says that it falls
    back and then ranks by keyword overlap within the same invocation. *)
Theorem import_error_abandons_or_falls_back {F : Type} `{Floats F}
    (console : list string) :
  (forall fs timestamp query input_file (jobs : list record) output_file
          model_name,
     jobs <> [] ->
     rank_jobs.process_query (F := F) fs (Raise ImportError) timestamp query
       input_file jobs output_file model_name console
     = (Ok None,
        (console ++
         [ ("Loaded " ++ PyStr.of_Z (Z.of_nat (List.length jobs))
            ++ " jobs. Calculating match probabilities for: '" ++ query ++ "'")%string;
           ("Loading sentence transformer model '" ++ model_name ++ "'...")%string;
           "Error: Sentence Transformers not installed.";
           "To install: pip install sentence-transformers" ])%list))
  /\ (forall fs timestamp queries input_file (jobs : list record) output_file,
        jobs <> [] ->
        rank_jobs.process_multiple_queries (F := F) fs (Raise ImportError)
          timestamp queries input_file jobs output_file console
        = (Ok None,
           (console ++
            [ ("Loaded " ++ PyStr.of_Z (Z.of_nat (List.length jobs))
               ++ " jobs. Processing "
               ++ PyStr.of_Z (Z.of_nat (List.length queries)) ++ " queries...")%string;
              "Loading sentence transformer model...";
              "Error: Sentence Transformers not installed.";
              "To install: pip install sentence-transformers" ])%list))
  /\ (forall (jobs : list (gmap string value)) a,
        jobs <> [] ->
        search.search_method a = search.transformer ->
        search.main (Raise ImportError) jobs a console
        = (match search.keyword_matching jobs (PyStr.words (search.query a)) with
           | Ok matches => Ok (Some (slice_to (search.results a) matches))
           | Raise e => Raise e
           end,
           (console ++
            [ ("Loaded " ++ PyStr.of_Z (Z.of_nat (List.length jobs))
               ++ " jobs. Searching for: '" ++ search.query a ++ "'")%string;
              "Loading sentence transformer model (this may take a moment)...";
              "Sentence Transformers not installed. Falling back to keyword matching.";
              "To install: pip install sentence-transformers" ])%list)).
Proof.
  split; [|split].
  - intros fs timestamp query input_file jobs output_file model_name Hjobs.
    unfold rank_jobs.process_query.
    rewrite bool_decide_eq_false_2 by done.
    unfold try_except, mbind, M_bind, print, lift, mret, M_ret. cbn.
    by rewrite <-!(assoc_L app).
  - intros fs timestamp queries input_file jobs output_file Hjobs.
    unfold rank_jobs.process_multiple_queries.
    rewrite bool_decide_eq_false_2 by done.
    unfold try_except, mbind, M_bind, print, lift, mret, M_ret. cbn.
    by rewrite <-!(assoc_L app).
  - intros jobs a Hjobs Hmethod. unfold search.main.
    rewrite bool_decide_eq_false_2 by done. rewrite Hmethod.
    unfold try_except, mbind, M_bind, print, lift, mret, M_ret. cbn.
    rewrite <-!(assoc_L app). cbn.
    by destruct (search.keyword_matching jobs (PyStr.words (search.query a))).
Qed.

Lemma import_error_abandons_or_falls_back_witness :
  [record_titled "Python Developer"] <> []
  /\ rank_jobs.process_query (F := PrimFloat.float) open_disk (Raise ImportError)
       "2025-03-01_10-00-00" "python data" "data/jobs.json"
       [record_titled "Python Developer"] None "all-MiniLM-L6-v2" []
     = (Ok None,
        [ "Loaded 1 jobs. Calculating match probabilities for: 'python data'";
          "Loading sentence transformer model 'all-MiniLM-L6-v2'...";
          "Error: Sentence Transformers not installed.";
          "To install: pip install sentence-transformers" ])
  /\ [job_python] <> []
  /\ search.main (Raise ImportError) [job_python] args_transformer []
     = (Ok (Some [(job_python, (1 # 2)%Q)]),
        [ "Loaded 1 jobs. Searching for: 'python data'";
          "Loading sentence transformer model (this may take a moment)...";
          "Sentence Transformers not installed. Falling back to keyword matching.";
          "To install: pip install sentence-transformers" ]).
Proof.
  assert ([record_titled "Python Developer"] <> []) as H1 by discriminate.
  assert ([job_python] <> []) as H2 by discriminate.
  split; [exact H1|]. split.
  { exact (proj1 (import_error_abandons_or_falls_back (F := PrimFloat.float) [])
             open_disk "2025-03-01_10-00-00" "python data" "data/jobs.json"
             [record_titled "Python Developer"] None "all-MiniLM-L6-v2" H1). }
  split; [exact H2|].
  exact (proj2 (proj2 (import_error_abandons_or_falls_back (F := PrimFloat.float) []))
           [job_python] args_transformer H2 eq_refl).
Defined.

(** ** The order of binary64 floats *)

Lemma Prim2SF_of_nan x :
  PrimFloat.is_nan x = true -> FloatOps.Prim2SF x = SpecFloat.S754_nan.
Proof. intros Hx. unfold FloatOps.Prim2SF. by rewrite Hx. Qed.

Lemma Prim2SF_of_number x :
  PrimFloat.is_nan x = false -> FloatOps.Prim2SF x <> SpecFloat.S754_nan.
Proof.
  intros Hx. unfold FloatOps.Prim2SF. rewrite Hx.
  destruct (PrimFloat.is_zero x); [done|].
  destruct (PrimFloat.is_infinity x); [done|].
  destruct (FloatOps.Z.frexp x) as [r e].
  destruct (SpecFloat.shr_fexp _ _ _ _ _) as [shr e'].
  by destruct (SpecFloat.shr_m shr).
Qed.

Lemma SFltb_numbers x y :
  SpecFloat.SFltb x y = true ->
  x <> SpecFloat.S754_nan /\ y <> SpecFloat.S754_nan.
Proof.
  unfold SpecFloat.SFltb.
  by destruct x as [?|?| |? ? ?], y as [?|?| |? ? ?].
Qed.

Lemma SFltb_asym x y :
  SpecFloat.SFltb x y = true -> SpecFloat.SFltb y x = false.
Proof.
  unfold SpecFloat.SFltb.
  destruct x as [sx|[]| |[] mx ex], y as [sy|[]| |[] my ey]; cbn; try congruence;
    try (destruct sx; congruence); try (destruct sy; congruence);
    change (Pos.compare_cont Eq mx my) with (Pos.compare mx my);
    change (Pos.compare_cont Eq my mx) with (Pos.compare my mx);
    rewrite (Z.compare_antisym ex ey), (Pos.compare_antisym mx my);
    destruct (ex ?= ey), (mx ?= my)%positive; cbn; congruence.
Qed.

Lemma SFltb_chain x y z :
  x <> SpecFloat.S754_nan -> y <> SpecFloat.S754_nan -> z <> SpecFloat.S754_nan ->
  SpecFloat.SFltb x y = false -> SpecFloat.SFltb y z = false ->
  SpecFloat.SFltb x z = false.
Proof.
  unfold SpecFloat.SFltb.
  destruct x as [sx|[]| |[] mx ex], y as [sy|[]| |[] my ey], z as [sz|[]| |[] mz ez];
    cbn; try congruence;
    repeat match goal with
           | |- context [Pos.compare_cont Eq ?a ?b] =>
               change (Pos.compare_cont Eq a b) with (Pos.compare a b)
           end;
    intros _ _ _;
    repeat match goal with
           | |- context [(?a ?= ?b)%Z] => destruct (Z.compare_spec a b)
           | |- context [(?a ?= ?b)%positive] => destruct (Pos.compare_spec a b)
           end; cbn; try congruence; try lia.
Qed.

(** Python's floats are ordered as the ranking needs them to be. *)
Lemma binary64_order : FloatOrder PrimFloat.float.
Proof.
  split; cbn [flt isnan binary64].
  - intros x y. rewrite FloatAxioms.ltb_spec. intros [Hx Hy]%SFltb_numbers.
    split.
    + destruct (PrimFloat.is_nan x) eqn:Hnan; [|done].
      by apply Prim2SF_of_nan in Hnan.
    + destruct (PrimFloat.is_nan y) eqn:Hnan; [|done].
      by apply Prim2SF_of_nan in Hnan.
  - intros x y. rewrite !FloatAxioms.ltb_spec. apply SFltb_asym.
  - intros x y z Hx Hy Hz. rewrite !FloatAxioms.ltb_spec.
    apply SFltb_chain; by apply Prim2SF_of_number.
Qed.

(** ** Ranked tables *)

Section ranked_tables_facts.
Context {F : Type} `{Floats F}.

Lemma zip_with_fmap_same {A B C D} (f : B -> C -> D) (g : A -> B) (h : A -> C)
    (l : list A) :
  zip_with f (g <$> l) (h <$> l) = (fun x => f (g x) (h x)) <$> l.
Proof. induction l as [|x l IH]; [done|]. cbn. by rewrite IH. Qed.

Lemma write_csv_writable fs path :
  writable fs path = true -> rank_jobs.write_csv fs path = Ok tt.
Proof.
  unfold writable. intros [[Hdir Hmake]%andb_prop Hwrite]%andb_prop.
  apply negb_true_iff, bool_decide_eq_false in Hdir.
  unfold rank_jobs.write_csv, os.makedirs.
  rewrite bool_decide_eq_false_2 by done. rewrite Hmake. cbn. by rewrite Hwrite.
Qed.


(** Assigning one value per job. *)
Lemma set_column_values name (values : list F) (jobs : list record) :
  List.length values = List.length jobs ->
  pd.set_column name values (pd.DataFrame jobs)
  = Ok {| columns := pd.put_column name (columns (pd.DataFrame (F:=F) jobs));
          rows := zip_with (fun job x => <[name := CNum x]> (CVal <$> fields job))
                           jobs values |}.
Proof.
  intros Hlen. unfold pd.set_column. cbn [rows pd.DataFrame].
  destruct jobs as [|job jobs].
  { destruct values; [|done]. by rewrite bool_decide_eq_true_2. }
  rewrite bool_decide_eq_false_2 by done.
  rewrite bool_decide_eq_true_2 by (by rewrite length_fmap).
  by rewrite zip_with_fmap_l.
Qed.

(** Assigning the scores of a query. *)
Lemma set_column_scores (model : Model F) query
    (g : record -> gmap string (cell F)) jobs cols :
  jobs <> [] ->
  pd.set_column (rank_jobs.column_name query)
    (rank_jobs.calculate_match_probabilities model
       (rank_jobs.create_job_texts jobs) query)
    {| columns := cols; rows := g <$> jobs |}
  = Ok {| columns := pd.put_column (rank_jobs.column_name query) cols;
          rows := (fun job => score_step model job (g job) query) <$> jobs |}.
Proof.
  intros Hjobs. unfold pd.set_column. cbn [rows columns].
  rewrite bool_decide_eq_false_2 by (by destruct jobs).
  unfold rank_jobs.calculate_match_probabilities, rank_jobs.create_job_texts.
  rewrite bool_decide_eq_true_2 by (by rewrite !length_fmap).
  rewrite <-list_fmap_compose. by rewrite zip_with_fmap_same.
Qed.

Lemma add_query_columns_run (model : Model F) jobs queries
    (g : record -> gmap string (cell F)) cols console :
  jobs <> [] ->
  rank_jobs.add_query_columns model (rank_jobs.create_job_texts jobs)
    {| columns := cols; rows := g <$> jobs |} queries console
  = (Ok {| columns := foldl (fun cols query =>
                               pd.put_column (rank_jobs.column_name query) cols)
                            cols queries;
           rows := (fun job => foldl (score_step model job) (g job) queries)
                   <$> jobs |},
     (console ++ ((fun query => ("Processing query: '" ++ query ++ "'")%string)
                    <$> queries))%list).
Proof.
  intros Hjobs. revert g cols console.
  induction queries as [|query queries IH]; intros g cols console.
  { cbn. by rewrite app_nil_r. }
  cbn [rank_jobs.add_query_columns]. unfold mbind, M_bind.
  unfold rank_jobs.add_query_column, mbind, M_bind, print, lift.
  rewrite set_column_scores by done.
  rewrite (IH (fun job => score_step model job (g job) query)).
  by rewrite fmap_cons, <-(assoc_L app).
Qed.

Lemma row_means_total cols (rws : list (gmap string (cell F))) :
  (forall row, row ∈ rws -> exists m, pd.row_mean cols row = Ok m) ->
  exists means, rank_jobs.row_means cols rws = Ok means.
Proof.
  induction rws as [|row rws IH]; intros Hrows; cbn; [by eexists|].
  destruct (Hrows row) as [m ->]; [by left|].
  destruct IH as [ms ->]; [|by eexists].
  intros row' Hrow'. apply Hrows. by right.
Qed.

Lemma row_means_fmap {A} cols (g : A -> gmap string (cell F)) (m : A -> option F) l :
  (forall x, x ∈ l -> pd.row_mean cols (g x) = Ok (m x)) ->
  rank_jobs.row_means cols (g <$> l) = Ok (m <$> l).
Proof.
  induction l as [|x l IH]; intros Hl; [done|].
  cbn. rewrite (Hl x) by (by left). cbn.
  rewrite IH; [done|]. intros y Hy. apply Hl. by right.
Qed.

Lemma numbers_total cols (row : gmap string (cell F)) :
  (forall col s, col ∈ cols -> row !! col <> Some (CVal (VStr s))) ->
  exists xs, pd.numbers cols row = Ok xs.
Proof.
  induction cols as [|col cols IH]; intros Hcols; cbn; [by eexists|].
  destruct IH as [xs ->]; [intros c s Hc; apply Hcols; by right|].
  pose proof (fun s => Hcols col s ltac:(by left)) as Hcol.
  destruct (row !! col) as [[[s|n|]|x]|]; cbn; try by eexists.
  by destruct (Hcol s).
Qed.

Lemma foldl_score_step_cases (model : Model F) job queries
    (row : gmap string (cell F)) k :
  foldl (score_step model job) row queries !! k = row !! k
  \/ exists x, foldl (score_step model job) row queries !! k = Some (CNum x).
Proof.
  revert row. induction queries as [|q queries IH]; intros row; [by left|].
  cbn [foldl]. destruct (IH (score_step model job row q)) as [->|Hx]; [|by right].
  unfold score_step. destruct (decide (rank_jobs.column_name q = k)) as [->|Hne].
  - right. rewrite lookup_insert_eq. by eexists.
  - left. by rewrite lookup_insert_ne.
Qed.

Lemma no_text_scores_spec jobs job col s :
  no_text_scores jobs = true -> job ∈ jobs ->
  PyStr.startswith "match_probability_" col = true ->
  fields job !! col <> Some (VStr s).
Proof.
  unfold no_text_scores. rewrite forallb_forall.
  intros Hall Hjob Hprefix Hcol. apply list_elem_of_In in Hjob.
  specialize (Hall job Hjob). rewrite forallb_forall in Hall.
  apply elem_of_list_to_map_2, list_elem_of_In, Hall in Hcol.
  cbn beta iota delta [fst snd] in Hcol. by rewrite Hprefix in Hcol.
Qed.

(** The mean can be taken when no score column holds text. *)
Lemma add_average_total (model : Model F) queries jobs :
  no_text_scores jobs = true ->
  exists averaged,
    rank_jobs.add_average (scored_frame model queries jobs) = Ok averaged.
Proof.
  intros Hjobs. unfold rank_jobs.add_average.
  destruct (row_means_total
              (rank_jobs.probability_cols (scored_frame model queries jobs))
              (rows (scored_frame model queries jobs))) as [means ->];
    [|by eexists].
  intros row (job & -> & Hjob)%list_elem_of_fmap. unfold pd.row_mean.
  destruct (numbers_total
              (rank_jobs.probability_cols (scored_frame model queries jobs))
              (scored_row model queries job)) as [xs ->]; [|by eexists].
  intros col s [Hprefix _]%list_elem_of_filter Hcell.
  unfold scored_row in Hcell.
  destruct (foldl_score_step_cases model job queries (CVal <$> fields job) col)
    as [Heq|[x Heq]]; rewrite Heq in Hcell; [|done].
  rewrite lookup_fmap in Hcell.
  destruct (fields job !! col) as [v|] eqn:Hv; [|done].
  injection Hcell as ->. by eapply no_text_scores_spec.
Qed.

(** With the model loaded, the mean taken and the file writable,
    [process_multiple_queries] runs to its end and writes the table
    ranked by the average. *)
Lemma process_multiple_queries_run fs (model : Model F) timestamp queries
    input_file jobs output_file console averaged :
  jobs <> [] ->
  rank_jobs.add_average (scored_frame model queries jobs) = Ok averaged ->
  writable fs (rank_jobs.output_path output_file
                 (rank_jobs.ranked_file_multiple timestamp)) = true ->
  exists console',
    rank_jobs.process_multiple_queries fs (Ok model) timestamp queries
      input_file jobs output_file console
    = (Ok (Some (rank_jobs.output_path output_file
                   (rank_jobs.ranked_file_multiple timestamp),
                 pd.sort_values_desc "average_match_probability" averaged)),
       console').
Proof.
  intros Hjobs Haverage Hwrite. unfold rank_jobs.process_multiple_queries.
  rewrite bool_decide_eq_false_2 by done.
  unfold try_except, mbind, M_bind, print, lift, mret, M_ret.
  unfold pd.DataFrame. rewrite add_query_columns_run by done.
  fold (scored_row model queries). fold (scored_frame model queries jobs).
  rewrite Haverage, (write_csv_writable _ _ Hwrite).
  by eexists.
Qed.

Lemma process_query_run fs (model : Model F) timestamp query input_file jobs
    output_file model_name console saved :
  jobs <> [] ->
  rank_jobs.save_to_csv fs timestamp jobs
    (rank_jobs.calculate_match_probabilities model
       (rank_jobs.create_job_texts jobs) query) query output_file = Ok saved ->
  exists console',
    rank_jobs.process_query fs (Ok model) timestamp query input_file jobs
      output_file model_name console
    = (Ok (Some saved), console').
Proof.
  intros Hjobs Hsaved. unfold rank_jobs.process_query.
  rewrite bool_decide_eq_false_2 by done.
  unfold try_except, mbind, M_bind, print, lift, mret, M_ret.
  rewrite Hsaved. by eexists.
Qed.

End ranked_tables_facts.

Section ranked_order.
Context {F : Type} `{FloatOrder F}.

Lemma score_Some col (row : gmap string (cell F)) a :
  pd.score col row = Some a -> isnan a = false.
Proof.
  unfold pd.score. destruct (row !! col) as [[v|x]|]; [done| |done].
  destruct (isnan x) eqn:Hx; [done|]. by intros [= <-].
Qed.

Lemma score_CNum col (row : gmap string (cell F)) a :
  row !! col = Some (CNum a) -> isnan a = false -> pd.score col row = Some a.
Proof. intros Hrow Ha. unfold pd.score. by rewrite Hrow, Ha. Qed.

Lemma after_desc_asym col (x y : gmap string (cell F)) :
  pd.after_desc col x y = true -> pd.after_desc col y x = false.
Proof.
  unfold pd.after_desc.
  destruct (pd.score col x) as [a|], (pd.score col y) as [b|]; try done.
  apply flt_asym.
Qed.

Lemma after_desc_chain col (x y z : gmap string (cell F)) :
  pd.after_desc col x y = false -> pd.after_desc col y z = false ->
  pd.after_desc col x z = false.
Proof.
  unfold pd.after_desc.
  destruct (pd.score col x) as [a|] eqn:Ha, (pd.score col y) as [b|] eqn:Hb,
    (pd.score col z) as [c|] eqn:Hc; try done.
  apply flt_chain; by eapply score_Some.
Qed.

(** Rows of a table sorted by [col]: a higher number stands first. *)
Lemma sort_values_desc_ranked col (df : frame F) i j
    (x y : gmap string (cell F)) a b :
  rows (pd.sort_values_desc col df) !! i = Some x ->
  rows (pd.sort_values_desc col df) !! j = Some y ->
  x !! col = Some (CNum a) -> y !! col = Some (CNum b) ->
  flt b a = true -> (i < j)%nat.
Proof.
  intros Hi Hj Hx Hy Hlt. destruct (flt_numbers b a Hlt) as [Hb Ha].
  eapply (sort_by_ranked (pd.after_desc col)); [| |exact Hi|exact Hj|].
  - apply after_desc_asym.
  - apply after_desc_chain.
  - unfold pd.after_desc.
    by rewrite (score_CNum _ _ _ Hx Ha), (score_CNum _ _ _ Hy Hb).
Qed.

End ranked_order.

(** C8. Ranked output is in descending order of its score column: in the
    table [save_to_csv] writes for one query, in the table
    [process_multiple_queries] writes (by the average), and in the list
    [keyword_matching] returns, a record with a higher score stands before
    any record with a lower one, and each output holds the scored records
    it was given, reordered. The output is there whenever the code gets
    as far as ranking: one score per job and a file that can be written
    for [save_to_csv]; jobs, no text in a score column of the input and a
    file that can be written for [process_multiple_queries]; text fields
    that are text for [keyword_matching]. *)
Theorem ranked_output_is_descending {F : Type} `{FloatOrder F} :
  (forall fs timestamp (jobs : list record) (match_probabilities : list F)
          query output_file,
     let col := rank_jobs.column_name query in
     let path :=
       rank_jobs.output_path output_file (rank_jobs.ranked_file timestamp query) in
     List.length match_probabilities = List.length jobs ->
     writable fs path = true ->
     exists table,
       rank_jobs.save_to_csv fs timestamp jobs match_probabilities query
         output_file
       = Ok (path, table)
       /\ rows table
          ≡ₚ zip_with (fun job x => <[col := CNum x]> (CVal <$> fields job))
               jobs match_probabilities
       /\ forall i j x y a b,
            rows table !! i = Some x -> rows table !! j = Some y ->
            x !! col = Some (CNum a) -> y !! col = Some (CNum b) ->
            flt b a = true -> (i < j)%nat)
  /\ (forall fs (model : Model F) timestamp queries input_file jobs output_file
             console,
        let path :=
          rank_jobs.output_path output_file
            (rank_jobs.ranked_file_multiple timestamp) in
        jobs <> [] ->
        no_text_scores jobs = true ->
        writable fs path = true ->
        exists averaged table console',
          rank_jobs.process_multiple_queries fs (Ok model) timestamp queries
            input_file jobs output_file console
          = (Ok (Some (path, table)), console')
          /\ rank_jobs.add_average (scored_frame model queries jobs) = Ok averaged
          /\ rows table ≡ₚ rows averaged
          /\ forall i j x y a b,
               rows table !! i = Some x -> rows table !! j = Some y ->
               x !! "average_match_probability" = Some (CNum a) ->
               y !! "average_match_probability" = Some (CNum b) ->
               flt b a = true -> (i < j)%nat)
  /\ (forall jobs query_terms,
        forallb searchable jobs = true ->
        exists matches,
          search.keyword_matching jobs query_terms = Ok matches
          /\ matches ≡ₚ matches_in_input_order query_terms jobs
          /\ forall i j x y,
               matches !! i = Some x -> matches !! j = Some y ->
               (y.2 < x.2)%Q -> (i < j)%nat).
Proof.
  split; [|split].
  - intros fs timestamp jobs match_probabilities query output_file col path
      Hlen Hwrite.
    unfold rank_jobs.save_to_csv. rewrite set_column_values by done.
    cbn [mbind res_bind]. fold path. rewrite (write_csv_writable _ _ Hwrite).
    cbn [mbind res_bind mret res_ret].
    eexists. split; [reflexivity|]. split.
    + cbn [rows pd.sort_values_desc]. apply sort_by_perm.
    + intros i j x y a b. apply sort_values_desc_ranked.
  - intros fs model timestamp queries input_file jobs output_file console path
      Hjobs Htext Hwrite.
    destruct (add_average_total model queries jobs Htext) as [averaged Haverage].
    destruct (process_multiple_queries_run fs model timestamp queries
                input_file jobs output_file console averaged Hjobs Haverage
                Hwrite) as [console' Hrun].
    exists averaged, (pd.sort_values_desc "average_match_probability" averaged),
      console'.
    split; [exact Hrun|]. split; [exact Haverage|]. split.
    + cbn [rows pd.sort_values_desc]. apply sort_by_perm.
    + intros i j x y a b. apply sort_values_desc_ranked.
  - intros jobs query_terms Hjobs. rewrite keyword_matching_unfold.
    destruct (collect_matches_total (PyStr.lower <$> query_terms) jobs Hjobs)
      as [ms Hms].
    rewrite Hms. rewrite (collect_matches_in_input_order _ _ _ Hms).
    eexists. split; [reflexivity|]. split; [apply sort_by_perm|].
    intros i j x y Hi Hj Hlt.
    eapply (sort_by_ranked score_after); [| |exact Hi|exact Hj|].
    + intros ? ?. apply Qlt_bool_asym.
    + intros ? ? ?. apply Qlt_bool_chain.
    + by apply Qlt_bool_iff.
Qed.

(** ** Score columns and their average *)

Lemma prefix_app p s : String.prefix p (p ++ s) = true.
Proof.
  induction p as [|c p IH]; [by destruct s|].
  change (String c p ++ s)%string with (String c (p ++ s)).
  cbn [String.prefix]. by destruct (ascii_dec c c).
Qed.

Lemma column_name_prefix query :
  PyStr.startswith "match_probability_" (rank_jobs.column_name query) = true.
Proof. apply prefix_app. Qed.

Lemma average_has_no_prefix :
  PyStr.startswith "match_probability_" "average_match_probability" = false.
Proof. by_evaluation. Qed.

Lemma first_seen_elem_of k keys : k ∈ pd.first_seen keys -> k ∈ keys.
Proof.
  unfold pd.first_seen.
  assert (forall seen, k ∈ foldl (fun seen k => if bool_decide (k ∈ seen)
                                               then seen else (seen ++ [k])%list)
                                 seen keys -> k ∈ seen \/ k ∈ keys) as Hfold.
  { induction keys as [|k0 keys IH]; intros seen; cbn [foldl]; [by left|].
    intros [Hk|Hk]%IH; [|right; by right].
    case_bool_decide; [by left|].
    apply elem_of_app in Hk as [Hk|Hk%list_elem_of_singleton]; [by left|].
    right. subst. by left. }
  intros [Hk|Hk]%Hfold; [by apply elem_of_nil in Hk|done].
Qed.

Lemma no_score_columns_spec jobs k :
  no_score_columns jobs = true -> k ∈ jobs ≫= fmap fst ->
  PyStr.startswith "match_probability_" k = false.
Proof.
  unfold no_score_columns. rewrite forallb_forall.
  intros Hall (job & Hk & Hjob)%list_elem_of_bind.
  apply list_elem_of_In in Hjob. specialize (Hall job Hjob).
  rewrite forallb_forall in Hall. by apply negb_true_iff, Hall, list_elem_of_In.
Qed.

Lemma filter_none {A} (P : A -> Prop) `{!forall x, Decision (P x)} (l : list A) :
  (forall x, x ∈ l -> ~ P x) -> filter P l = [].
Proof.
  induction l as [|x l IH]; intros Hl; [done|].
  rewrite filter_cons, decide_False by (apply Hl; by left).
  apply IH. intros y Hy. apply Hl. by right.
Qed.

(** The score columns of a table to which new ones are added. *)
Lemma filter_put_columns (P : string -> Prop) `{!forall x, Decision (P x)}
    (f : string -> string) queries cols found :
  (forall query, P (f query)) ->
  NoDup (found ++ (f <$> queries)) ->
  filter P cols = found ->
  filter P (foldl (fun cols query => pd.put_column (f query) cols) cols queries)
  = (found ++ (f <$> queries))%list.
Proof.
  intros HP. revert cols found.
  induction queries as [|q queries IH]; intros cols found Hnodup Hcols.
  { cbn. by rewrite app_nil_r. }
  cbn [foldl]. rewrite fmap_cons, (cons_middle (f q)), (assoc_L app).
  rewrite fmap_cons, (cons_middle (f q)), (assoc_L app) in Hnodup.
  apply IH; [done|]. unfold pd.put_column.
  rewrite bool_decide_eq_false_2.
  - rewrite filter_app, Hcols, filter_cons, filter_nil. by rewrite decide_True.
  - intros Hin. apply NoDup_app in Hnodup as [Hnodup _].
    apply NoDup_app in Hnodup as (_ & Hfresh & _).
    apply (Hfresh (f q)); [|by left].
    rewrite <-Hcols. by apply list_elem_of_filter.
Qed.

Section scored_table.
Context {F : Type} `{Floats F}.

Lemma foldl_score_step_other (model : Model F) job queries
    (row : gmap string (cell F)) k :
  k ∉ rank_jobs.column_name <$> queries ->
  foldl (score_step model job) row queries !! k = row !! k.
Proof.
  revert row. induction queries as [|q queries IH]; intros row Hk; [done|].
  rewrite fmap_cons, not_elem_of_cons in Hk. destruct Hk as [Hne Hk].
  cbn [foldl]. rewrite IH by done. unfold score_step.
  by rewrite lookup_insert_ne.
Qed.

Lemma foldl_score_step_query (model : Model F) job queries
    (row : gmap string (cell F)) q :
  NoDup (rank_jobs.column_name <$> queries) -> q ∈ queries ->
  foldl (score_step model job) row queries !! rank_jobs.column_name q
  = Some (CNum (model q (rank_jobs.job_repr job))).
Proof.
  revert row. induction queries as [|q0 queries IH]; intros row Hnodup Hq.
  { by apply elem_of_nil in Hq. }
  rewrite fmap_cons in Hnodup. apply NoDup_cons in Hnodup as [Hfresh Hnodup].
  cbn [foldl]. apply elem_of_cons in Hq as [->|Hq].
  - rewrite foldl_score_step_other by done. unfold score_step.
    by rewrite lookup_insert_eq.
  - by apply IH.
Qed.

Variable model : Model F.
Variable queries : list string.
Variable jobs : list record.

Hypothesis columns_distinct : NoDup (rank_jobs.column_name <$> queries).
Hypothesis input_clean : no_score_columns jobs = true.

(** The score columns found by prefix are the columns of the queries, in
    the order of the queries. *)
Lemma probability_cols_scored :
  rank_jobs.probability_cols (scored_frame model queries jobs)
  = rank_jobs.column_name <$> queries.
Proof.
  unfold rank_jobs.probability_cols, scored_frame. cbn [columns].
  rewrite (filter_put_columns _ rank_jobs.column_name queries _ []); [done|..].
  - apply column_name_prefix.
  - done.
  - apply filter_none. intros k Hk%first_seen_elem_of.
    by rewrite (no_score_columns_spec jobs k).
Qed.

Lemma numbers_scored_row job qs :
  qs ⊆ queries ->
  pd.numbers (rank_jobs.column_name <$> qs) (scored_row model queries job)
  = Ok (without_nan ((fun query => model query (rank_jobs.job_repr job)) <$> qs)).
Proof.
  induction qs as [|q qs IH]; intros Hsub; [done|].
  rewrite !fmap_cons. cbn [pd.numbers].
  assert (scored_row model queries job !! rank_jobs.column_name q
          = Some (CNum (model q (rank_jobs.job_repr job)))) as ->.
  { apply foldl_score_step_query; [done|set_solver]. }
  rewrite IH by set_solver. cbn. unfold without_nan.
  destruct (isnan (model q (rank_jobs.job_repr job))) eqn:Hq.
  - by rewrite decide_False.
  - by rewrite decide_True.
Qed.

(** The mean pandas takes over the score columns of a row is the
    arithmetic mean of those scores of its job that are numbers. *)
Lemma row_mean_scored_row job :
  pd.row_mean (rank_jobs.probability_cols (scored_frame model queries jobs))
    (scored_row model queries job)
  = Ok (arithmetic_mean (without_nan (query_scores model queries job))).
Proof.
  rewrite probability_cols_scored. unfold pd.row_mean.
  by rewrite numbers_scored_row.
Qed.

Lemma add_average_scored :
  rank_jobs.add_average (scored_frame model queries jobs)
  = Ok {| columns := pd.put_column "average_match_probability"
                       (columns (scored_frame model queries jobs));
          rows := (fun job =>
                     rank_jobs.set_cell "average_match_probability"
                       (scored_row model queries job)
                       (arithmetic_mean
                          (without_nan (query_scores model queries job))))
                  <$> jobs |}.
Proof.
  unfold rank_jobs.add_average.
  change (rows (scored_frame model queries jobs))
    with (scored_row model queries <$> jobs).
  rewrite (row_means_fmap _ (scored_row model queries)
             (fun job => arithmetic_mean
                           (without_nan (query_scores model queries job)))).
  - cbn [mbind res_bind mret res_ret]. by rewrite zip_with_fmap_same.
  - intros job _. apply row_mean_scored_row.
Qed.

End scored_table.

Lemma set_cell_lookup {F} name (row : gmap string (cell F)) (x : option F) :
  rank_jobs.set_cell name row x !! name = CNum <$> x.
Proof.
  destruct x; cbn; [by rewrite lookup_insert_eq|by rewrite lookup_delete_eq].
Qed.

Lemma set_cell_lookup_ne {F} name (row : gmap string (cell F)) (x : option F) k :
  k <> name -> rank_jobs.set_cell name row x !! k = row !! k.
Proof.
  intros Hk. destruct x; cbn; [by rewrite lookup_insert_ne|by rewrite lookup_delete_ne].
Qed.

Lemma probability_cols_put_average {F} (cols : list string)
    (rws rws' : list (gmap string (cell F))) :
  rank_jobs.probability_cols
    {| columns := pd.put_column "average_match_probability" cols; rows := rws |}
  = rank_jobs.probability_cols {| columns := cols; rows := rws' |}.
Proof.
  unfold rank_jobs.probability_cols, pd.put_column. cbn [columns].
  case_bool_decide; [done|].
  rewrite filter_app, filter_cons, filter_nil, decide_False, app_nil_r; [done|].
  by rewrite average_has_no_prefix.
Qed.

(** C9, read to the letter, gives every query a score column of its own
    and makes the average the mean of the scores of the queries, 0.6 for
    0.4 and 0.8. With Python's floats and the model that scores 0.4
    against "data science" and 0.8 against any other query:
    - the mean of 0.4 and 0.8 is 0.6000000000000001, above 0.6;
    - the queries "data science" and "data_science" share one column,
      where the second score replaces the first, and the average is that
      score, 0.8;
    - a job that brings a column match_probability_old with it has that
      column averaged with the others: 1, 0.4 and 0.8 give
      0.7333333333333334;
    - asked to write to avg.csv, a name without a directory, the run ends
      in [FileNotFoundError] and nothing is written. *)
Lemma average_is_not_always_the_mean_of_the_scores :
  query_scores scores_04_08 ["data science"; "python"] (record_titled "A")
  = [decimal 4 10; decimal 8 10 : PrimFloat.float]
  /\ written_column "average_match_probability"
       (rank_jobs.process_multiple_queries open_disk (Ok scores_04_08)
          "2025-03-01_10-00-00" ["data science"; "python"] "data/jobs.json"
          [record_titled "A"] None [])
     = Some [Some (CNum (decimal 6000000000000001 10000000000000000
                         : PrimFloat.float))]
  /\ flt (decimal 6 10 : PrimFloat.float)
         (decimal 6000000000000001 10000000000000000) = true
  /\ written_column "match_probability_data_science"
       (rank_jobs.process_multiple_queries open_disk (Ok scores_04_08)
          "2025-03-01_10-00-00" ["data science"; "data_science"]
          "data/jobs.json" [record_titled "A"] None [])
     = Some [Some (CNum (decimal 8 10 : PrimFloat.float))]
  /\ written_column "average_match_probability"
       (rank_jobs.process_multiple_queries open_disk (Ok scores_04_08)
          "2025-03-01_10-00-00" ["data science"; "data_science"]
          "data/jobs.json" [record_titled "A"] None [])
     = Some [Some (CNum (decimal 8 10 : PrimFloat.float))]
  /\ written_column "average_match_probability"
       (rank_jobs.process_multiple_queries open_disk (Ok scores_04_08)
          "2025-03-01_10-00-00" ["data science"; "python"] "data/jobs.json"
          [record_ranked_before] None [])
     = Some [Some (CNum (decimal 7333333333333334 10000000000000000
                         : PrimFloat.float))]
  /\ (rank_jobs.process_multiple_queries (F := PrimFloat.float) open_disk
        (Ok scores_04_08) "2025-03-01_10-00-00" ["data science"; "python"]
        "data/jobs.json" [record_titled "A"] (Some "avg.csv") []).1
     = Raise FileNotFoundError.
Proof. repeat split; vm_compute; reflexivity. Qed.

(** C9, amended. For jobs none of whose fields already starts with
    "match_probability_", queries whose column names (blanks turned into
    underscores) are pairwise distinct, and an output file that can be
    written, the ranking for several queries writes a table whose score
    columns are those of the queries, one per query and in their order,
    and in which every job has its row: the row holds the score of each
    query in that query's column, and as average_match_probability the
    mean of these scores as floating-point arithmetic takes it, their sum
    divided by their number (a score that is NaN is left out). *)
Theorem average_is_mean_of_query_scores {F : Type} `{Floats F} fs
    (model : Model F) timestamp queries input_file jobs output_file console :
  let path :=
    rank_jobs.output_path output_file (rank_jobs.ranked_file_multiple timestamp) in
  jobs <> [] ->
  NoDup (rank_jobs.column_name <$> queries) ->
  no_score_columns jobs = true ->
  writable fs path = true ->
  exists table console',
    rank_jobs.process_multiple_queries fs (Ok model) timestamp queries
      input_file jobs output_file console
    = (Ok (Some (path, table)), console')
    /\ rank_jobs.probability_cols table = rank_jobs.column_name <$> queries
    /\ exists rows', rows table ≡ₚ rows'
         /\ Forall2 (row_for model queries) jobs rows'.
Proof.
  intros path Hjobs Hnodup Hclean Hwrite.
  pose proof (add_average_scored model queries jobs Hnodup Hclean) as Haverage.
  destruct (process_multiple_queries_run fs model timestamp queries input_file
              jobs output_file console _ Hjobs Haverage Hwrite)
    as [console' Hrun].
  eexists _, console'. split; [exact Hrun|]. split.
  { unfold pd.sort_values_desc. cbn [columns rows].
    rewrite (probability_cols_put_average _ _
               (rows (scored_frame model queries jobs))).
    by apply probability_cols_scored. }
  eexists. split; [cbn [rows pd.sort_values_desc]; apply sort_by_perm|].
  apply Forall2_fmap_r, Forall_Forall2_diag, Forall_forall.
  intros job _. split.
  - intros query Hquery. rewrite set_cell_lookup_ne.
    + by apply foldl_score_step_query.
    + intros Heq. pose proof (column_name_prefix query) as Hprefix.
      rewrite Heq in Hprefix. by rewrite average_has_no_prefix in Hprefix.
  - apply set_cell_lookup.
Qed.

Lemma average_is_mean_of_query_scores_witness :
  [record_titled "A"] <> []
  /\ NoDup (rank_jobs.column_name <$> ["data science"; "python"])
  /\ no_score_columns [record_titled "A"] = true
  /\ writable open_disk
       (rank_jobs.output_path None
          (rank_jobs.ranked_file_multiple "2025-03-01_10-00-00")) = true
  /\ arithmetic_mean
       (without_nan
          (query_scores scores_04_08 ["data science"; "python"]
             (record_titled "A")))
     = Some (decimal 6000000000000001 10000000000000000 : PrimFloat.float)
  /\ exists table console',
       rank_jobs.process_multiple_queries open_disk (Ok scores_04_08)
         "2025-03-01_10-00-00" ["data science"; "python"] "data/jobs.json"
         [record_titled "A"] None []
       = (Ok (Some ("data/ranked_jobs_multiple_queries_2025-03-01_10-00-00.csv",
                    table)), console')
       /\ exists rows', rows table ≡ₚ rows'
            /\ Forall2 (row_for (F := PrimFloat.float) scores_04_08
                          ["data science"; "python"])
                 [record_titled "A"] rows'.
Proof.
  assert ([record_titled "A"] <> []) as H1 by discriminate.
  assert (NoDup (rank_jobs.column_name <$> ["data science"; "python"])) as H2
    by by_evaluation.
  assert (no_score_columns [record_titled "A"] = true) as H3 by by_evaluation.
  assert (writable open_disk
            (rank_jobs.output_path None
               (rank_jobs.ranked_file_multiple "2025-03-01_10-00-00")) = true)
    as H4 by by_evaluation.
  do 4 (split; [assumption|]).
  split; [vm_compute; reflexivity|].
  destruct (average_is_mean_of_query_scores (F := PrimFloat.float) open_disk
              scores_04_08 "2025-03-01_10-00-00" ["data science"; "python"]
              "data/jobs.json" [record_titled "A"] None [] H1 H2 H3 H4)
    as (table & console' & Hrun & _ & Hrows).
  exists table, console'. split; [exact Hrun|exact Hrows].
Defined.

(** The example of C8 with Python's floats: A, B and C scored 0.2, 0.9 and
    0.5 come out as B, C, A. *)
Lemma ranked_output_is_descending_witness :
  List.length [decimal 2 10; decimal 9 10; decimal 5 10 : PrimFloat.float]
  = List.length records_abc
  /\ writable open_disk
       (rank_jobs.output_path None
          (rank_jobs.ranked_file "2025-03-01_10-00-00" "python")) = true
  /\ exists table : frame PrimFloat.float,
       rank_jobs.save_to_csv open_disk "2025-03-01_10-00-00" records_abc
         [decimal 2 10; decimal 9 10; decimal 5 10] "python" None
       = Ok ("data/ranked_jobs_python_2025-03-01_10-00-00.csv", table)
       /\ (fun row : gmap string (cell PrimFloat.float) => row !! "title")
          <$> rows table
          = [Some (CVal (VStr "B")); Some (CVal (VStr "C")); Some (CVal (VStr "A"))]
       /\ forall i j x y a b,
            rows table !! i = Some x -> rows table !! j = Some y ->
            x !! "match_probability_python" = Some (CNum a) ->
            y !! "match_probability_python" = Some (CNum b) ->
            flt b a = true -> (i < j)%nat.
Proof.
  assert (List.length [decimal 2 10; decimal 9 10; decimal 5 10 : PrimFloat.float]
          = List.length records_abc) as H1 by reflexivity.
  assert (writable open_disk
            (rank_jobs.output_path None
               (rank_jobs.ranked_file "2025-03-01_10-00-00" "python")) = true)
    as H2 by by_evaluation.
  split; [exact H1|]. split; [exact H2|].
  destruct (proj1 (ranked_output_is_descending (H0 := binary64_order))
              open_disk "2025-03-01_10-00-00" records_abc
              [decimal 2 10; decimal 9 10; decimal 5 10] "python" None H1 H2)
    as (table & Hrun & _ & Hranked).
  exists table. split; [exact Hrun|]. split; [|exact Hranked].
  assert (match rank_jobs.save_to_csv open_disk "2025-03-01_10-00-00" records_abc
                  [decimal 2 10; decimal 9 10; decimal 5 10 : PrimFloat.float]
                  "python" None with
          | Ok saved =>
              (fun row : gmap string (cell PrimFloat.float) => row !! "title")
              <$> rows saved.2
          | Raise _ => []
          end
          = [Some (CVal (VStr "B")); Some (CVal (VStr "C")); Some (CVal (VStr "A"))])
    as Htitles by (vm_compute; reflexivity).
  by rewrite Hrun in Htitles.
Defined.

(** The same through the whole of [process_query], with a model that gives
    these scores. *)
Example process_query_ranks_abc :
  written_column (F := PrimFloat.float) "title"
    (rank_jobs.process_query open_disk (Ok scores_abc) "2025-03-01_10-00-00"
       "python" "data/jobs.json" records_abc None "all-MiniLM-L6-v2" [])
  = Some [Some (CVal (VStr "B")); Some (CVal (VStr "C")); Some (CVal (VStr "A"))]
  /\ written_column (F := PrimFloat.float) "match_probability_python"
       (rank_jobs.process_query open_disk (Ok scores_abc) "2025-03-01_10-00-00"
          "python" "data/jobs.json" records_abc None "all-MiniLM-L6-v2" [])
     = Some [Some (CNum (decimal 9 10)); Some (CNum (decimal 5 10));
             Some (CNum (decimal 2 10))].
Proof. split; vm_compute; reflexivity. Qed.

(** * Further properties of the scraper *)

(** ** The detail merge, field by field *)

Lemma has_valid_data_insert_ne (r : gmap string value) k k' v :
  k <> k' ->
  scraper.has_valid_data (<[k := v]> r) k' = scraper.has_valid_data r k'.
Proof. intros Hne. unfold scraper.has_valid_data. by rewrite lookup_insert_ne. Qed.

Lemma collect_detail_eq soup (t : gmap string value) details field_name selector :
  field_name <> "website" ->
  scraper.collect_detail soup t details (field_name, selector)
  = if scraper.has_valid_data t field_name then details
    else setitem details field_name (VStr (detail_text soup selector)).
Proof.
  intros Hname. unfold scraper.collect_detail, detail_text.
  destruct (scraper.has_valid_data t field_name); [done|].
  destruct (bs4.select soup selector); [done|].
  by rewrite decide_False.
Qed.

(** The entries the first loop of the merge collects. *)
Lemma collected_details soup (t : gmap string value) :
  foldl (scraper.collect_detail soup t) [] scraper.detail_fields
  = ((if scraper.has_valid_data t "post_date" then []
      else [("post_date",
             VStr (detail_text soup ".field-name-field-date-posted .field-item, .date-posted"))])
     ++ (if scraper.has_valid_data t "duration" then []
         else [("duration",
                VStr (detail_text soup ".field-name-field-duration .field-item, .duration"))])
     ++ (if scraper.has_valid_data t "description" then []
         else [("description",
                VStr (detail_text soup ".field-name-body .field-item, .description"))]))%list.
Proof.
  unfold scraper.detail_fields. cbn [foldl].
  rewrite !collect_detail_eq by done.
  destruct (scraper.has_valid_data t "post_date"),
    (scraper.has_valid_data t "duration"),
    (scraper.has_valid_data t "description"); reflexivity.
Qed.

Lemma update_missing_fresh (r : gmap string value) key v :
  scraper.has_valid_data r key = false ->
  scraper.update_missing r (key, v) = <[key := v]> r.
Proof. intros H. unfold scraper.update_missing. by rewrite H. Qed.

(** The value [merge_details] leaves in one of the three detail fields. *)
Lemma merge_details_detail_field soup (t : gmap string value) k selector :
  (k, selector) ∈ scraper.detail_fields ->
  scraper.merge_details soup t !! k
  = if scraper.has_valid_data t k then t !! k
    else Some (VStr (detail_text soup selector)).
Proof.
  intros Hk. unfold scraper.merge_details. rewrite collected_details.
  unfold scraper.detail_fields in Hk.
  destruct (scraper.has_valid_data t "post_date") eqn:H1,
    (scraper.has_valid_data t "duration") eqn:H2,
    (scraper.has_valid_data t "description") eqn:H3;
    cbn [app foldl];
    rewrite ?(update_missing_fresh t) by assumption;
    rewrite ?(update_missing_fresh (<[_ := _]> t))
      by (rewrite ?has_valid_data_insert_ne by done; assumption);
    rewrite ?(update_missing_fresh (<[_ := _]> (<[_ := _]> t)))
      by (rewrite ?has_valid_data_insert_ne by done; assumption);
    repeat (apply elem_of_cons in Hk as [Hk|Hk];
            [injection Hk as -> ->; rewrite ?H1, ?H2, ?H3;
             rewrite ?lookup_insert_ne by done; by rewrite ?lookup_insert_eq|]);
    by apply elem_of_nil in Hk.
Qed.

(** A field that is none of the three stays as it is. *)
Lemma merge_details_other_field soup (t : gmap string value) k :
  k ∉ detail_names -> scraper.merge_details soup t !! k = t !! k.
Proof.
  intros Hk. unfold detail_names in Hk.
  rewrite !not_elem_of_cons in Hk. destruct Hk as (Hk1 & Hk2 & Hk3 & _).
  unfold scraper.merge_details. rewrite collected_details.
  destruct (scraper.has_valid_data t "post_date") eqn:H1,
    (scraper.has_valid_data t "duration") eqn:H2,
    (scraper.has_valid_data t "description") eqn:H3;
    cbn [app foldl];
    rewrite ?(update_missing_fresh t) by assumption;
    rewrite ?(update_missing_fresh (<[_ := _]> t))
      by (rewrite ?has_valid_data_insert_ne by done; assumption);
    rewrite ?(update_missing_fresh (<[_ := _]> (<[_ := _]> t)))
      by (rewrite ?has_valid_data_insert_ne by done; assumption);
    by rewrite ?lookup_insert_ne by done.
Qed.

Lemma has_valid_data_merged soup (t : gmap string value) k selector :
  (k, selector) ∈ scraper.detail_fields ->
  scraper.has_valid_data t k = false ->
  scraper.has_valid_data (scraper.merge_details soup t) k
  = bool_decide (detail_text soup selector <> sentinel).
Proof.
  intros Hk Hinvalid. unfold scraper.has_valid_data at 1.
  rewrite (merge_details_detail_field soup t k selector Hk), Hinvalid.
  apply bool_decide_ext. split; [|congruence].
  intros H Heq. apply H. by rewrite Heq.
Qed.

(** X1. The detail merge touches only post_date, duration and description:
    every other field of the record comes out as it went in, no other key
    appears, and the three fields are always present afterwards. *)
Theorem merge_details_touches_three_fields soup (t : gmap string value) :
  (forall k, k ∉ detail_names -> scraper.merge_details soup t !! k = t !! k)
  /\ (forall k, k ∈ detail_names -> is_Some (scraper.merge_details soup t !! k))
  /\ dom (scraper.merge_details soup t) = dom t ∪ list_to_set detail_names.
Proof.
  assert (forall k, k ∈ detail_names ->
            exists selector, (k, selector) ∈ scraper.detail_fields) as Hsel.
  { intros k Hk. unfold detail_names in Hk. unfold scraper.detail_fields.
    repeat (apply elem_of_cons in Hk as [->|Hk];
            [eexists; apply list_elem_of_In; cbn; eauto 6|]).
    by apply elem_of_nil in Hk. }
  assert (forall k, k ∈ detail_names ->
            is_Some (scraper.merge_details soup t !! k)) as Hpresent.
  { intros k [selector Hk]%Hsel.
    rewrite (merge_details_detail_field soup t k selector Hk).
    unfold scraper.has_valid_data.
    destruct (t !! k) as [v|]; [|by eexists].
    case_bool_decide; by eexists. }
  split; [apply merge_details_other_field|]. split; [exact Hpresent|].
  apply set_eq. intros k. rewrite elem_of_union, !elem_of_dom, elem_of_list_to_set.
  destruct (decide (k ∈ detail_names)) as [Hk|Hk].
  - split; [by right|]. intros _. by apply Hpresent.
  - rewrite merge_details_other_field by done. tauto.
Qed.

Lemma merge_details_touches_three_fields_witness :
  ("title" ∉ detail_names)
  /\ scraper.merge_details detail_6_months (record_bare 1) !! "title"
     = record_bare 1 !! "title".
Proof.
  assert ("title" ∉ detail_names) as H by by_evaluation.
  split; [exact H|].
  exact (proj1 (merge_details_touches_three_fields detail_6_months (record_bare 1))
           "title" H).
Defined.

(** X2. A detail field that the record lacks, or holds as "Not specified",
    receives what the detail page offers under the selector of that field:
    the text of the first match without its label, or "Not specified" when
    nothing matches. *)
Theorem merge_details_fills_missing soup (t : gmap string value) k selector :
  (k, selector) ∈ scraper.detail_fields ->
  t !! k = None \/ t !! k = Some (VStr sentinel) ->
  scraper.merge_details soup t !! k = Some (VStr (detail_text soup selector)).
Proof.
  intros Hk Hmissing.
  rewrite (merge_details_detail_field soup t k selector Hk).
  unfold scraper.has_valid_data.
  destruct Hmissing as [->| ->]; [done|].
  by rewrite bool_decide_eq_false_2 by (intros H; by apply H).
Qed.

Lemma merge_details_fills_missing_witness :
  ("duration", ".field-name-field-duration .field-item, .duration")
    ∈ scraper.detail_fields
  /\ (record_bare 1 !! "duration" = None
      \/ record_bare 1 !! "duration" = Some (VStr sentinel))
  /\ scraper.merge_details detail_6_months (record_bare 1) !! "duration"
     = Some (VStr "6 months").
Proof.
  assert (("duration", ".field-name-field-duration .field-item, .duration")
            ∈ scraper.detail_fields) as H1 by by_evaluation.
  assert (record_bare 1 !! "duration" = None
          \/ record_bare 1 !! "duration" = Some (VStr sentinel)) as H2
    by (right; by_evaluation).
  split; [exact H1|]. split; [exact H2|].
  rewrite (merge_details_fills_missing detail_6_months (record_bare 1) _ _ H1 H2).
  by_evaluation.
Defined.

(** X3. Merging the same detail page a second time changes nothing. *)
Theorem merge_details_idempotent soup (t : gmap string value) :
  scraper.merge_details soup (scraper.merge_details soup t)
  = scraper.merge_details soup t.
Proof.
  apply map_eq. intros k.
  destruct (decide (k ∈ detail_names)) as [Hk|Hk];
    [|by rewrite !merge_details_other_field].
  assert (exists selector, (k, selector) ∈ scraper.detail_fields) as [selector Hsel].
  { unfold detail_names in Hk. unfold scraper.detail_fields.
    repeat (apply elem_of_cons in Hk as [->|Hk];
            [eexists; apply list_elem_of_In; cbn; eauto 6|]).
    by apply elem_of_nil in Hk. }
  rewrite (merge_details_detail_field soup _ k selector Hsel).
  destruct (scraper.has_valid_data (scraper.merge_details soup t) k) eqn:Hvalid;
    [done|].
  unfold scraper.has_valid_data in Hvalid.
  rewrite (merge_details_detail_field soup t k selector Hsel) in Hvalid |- *.
  destruct (scraper.has_valid_data t k) eqn:Ht; [|done].
  unfold scraper.has_valid_data in Ht.
  destruct (t !! k); congruence.
Qed.

(** ** Requests that fail *)

(** X4. When the detail page cannot be had (the connection fails, or the
    status is in 400..599), [get_traineeship_details] hands back the very
    record it was given, after exactly one request to its url. *)
Theorem get_traineeship_details_failure_returns_record web
    (t : gmap string value) log u :
  t !! "url" = Some (VStr u) ->
  is_Some (t !! "title") ->
  match web (List.length log) u with
  | ConnectionError => True
  | Response status _ => (400 <=? status) && (status <? 600) = true
  end ->
  scraper.get_traineeship_details web t log = (Ok t, (log ++ [GetDetail u])%list).
Proof.
  intros Hurl [title Htitle] Hfail.
  unfold scraper.get_traineeship_details, mbind, M_bind, lift, getitem.
  rewrite Hurl, Htitle. unfold try_except. rewrite session_get_run.
  destruct (web (List.length log) u) as [|status soup]; [done|]. cbn.
  unfold scraper.raise_for_status, raise. cbn. by rewrite Hfail.
Qed.

Lemma get_traineeship_details_failure_returns_record_witness :
  record_full 1 !! "url"
  = Some (VStr "https://erasmusintern.org/traineeship/data-analyst")
  /\ is_Some (record_full 1 !! "title")
  /\ scraper.get_traineeship_details (fun _ _ => Response 503 detail_6_months)
       (record_full 1) []
     = (Ok (record_full 1),
        [GetDetail "https://erasmusintern.org/traineeship/data-analyst"]).
Proof.
  assert (record_full 1 !! "url"
          = Some (VStr "https://erasmusintern.org/traineeship/data-analyst")) as H1
    by by_evaluation.
  assert (is_Some (record_full 1 !! "title")) as H2
    by (exists (VStr "Data analyst"); by_evaluation).
  split; [exact H1|]. split; [exact H2|].
  exact (get_traineeship_details_failure_returns_record
           (fun _ _ => Response 503 detail_6_months) (record_full 1) [] _ H1 H2
           eq_refl).
Defined.

(** X5. A listing page never raises and costs exactly one request, to the
    address of that page; it yields no record when the connection fails or
    the status is in 400..599. *)
Theorem scrape_traineeship_listings_never_raises base_url web page_num log :
  exists recs,
    scraper.scrape_traineeship_listings base_url web page_num log
    = (Ok recs,
       (log ++ [GetListing page_num (scraper.page_url base_url page_num)])%list)
    /\ (web (List.length log) (scraper.page_url base_url page_num) = ConnectionError ->
        recs = [])
    /\ (forall status soup,
          web (List.length log) (scraper.page_url base_url page_num)
          = Response status soup ->
          400 <= status < 600 -> recs = []).
Proof.
  destruct (scrape_traineeship_listings_run base_url web page_num log)
    as (recs & Hrun & Hrecs).
  exists recs. split; [exact Hrun|]. split.
  - intros Hweb. by rewrite Hweb in Hrecs.
  - intros status soup Hweb Hstatus. rewrite Hweb in Hrecs.
    assert ((400 <=? status) && (status <? 600) = true) as Hb.
    { apply andb_true_intro. split; [apply Z.leb_le|apply Z.ltb_lt]; lia. }
    by rewrite Hb in Hrecs.
Qed.

Lemma scrape_traineeship_listings_never_raises_witness :
  scraper.scrape_traineeship_listings sample_base web_down_once 1 []
  = (Ok [], [GetListing 1 "https://erasmusintern.org/traineeships?page=0"]).
Proof.
  destruct (scrape_traineeship_listings_never_raises sample_base web_down_once 1 [])
    as (recs & Hrun & Hdown & _).
  rewrite Hrun, (Hdown eq_refl). f_equal.
Defined.

(** ** Records of a listing page *)




(** X7. The selectors of a field are tried in order and the first one that
    matches decides: the field is the text of that element without the
    label, whatever the selectors after it would match. *)
Theorem first_matching_selector_decides label before selector after_ container
    elem found :
  (forall s, s ∈ before -> bs4.select_one container s = None) ->
  bs4.select_one container selector = Some elem ->
  scraper.first_labelled label (before ++ selector :: after_)%list container found
  = strip_label label (bs4.get_text_strip "" elem).
Proof.
  intros Hbefore Hsel. induction before as [|s before IH]; cbn.
  - by rewrite Hsel.
  - rewrite (Hbefore s) by (by left). apply IH.
    intros ? ?. apply Hbefore. by right.
Qed.

Lemma first_matching_selector_decides_witness :
  scraper.first_labelled "Duration:" scraper.duration_selectors fragment_full sentinel
  = "3 months".
Proof.
  assert (forall s,
            s ∈ [".ds-top-footer .field-name-field-traineeship-duration .field-items .field-item"] ->
            bs4.select_one fragment_full s = None) as H1.
  { intros s ->%list_elem_of_singleton. reflexivity. }
  pose proof (first_matching_selector_decides "Duration:" _
                ".ds-top-footer .field-name-field-traineeship-duration"
                [".field-name-field-traineeship-duration .field-item";
                 ".field-type-taxonomy-term-reference.field-name-field-traineeship-duration .field-items .field-item"]
                fragment_full (leaf ["Duration:"; " 3 months "] []) sentinel
                H1 eq_refl) as H.
  etransitivity; [exact H|]. by_evaluation.
Defined.

(** ** The requests of a crawl *)

Lemma detail_urls_app l1 l2 :
  detail_urls (l1 ++ l2)%list = (detail_urls l1 ++ detail_urls l2)%list.
Proof. apply omap_app. Qed.

Lemma well_formed_url (t : gmap string value) :
  well_formed t -> t !! "url" = Some (VStr (record_url t)).
Proof.
  intros [Htyped Hcomplete].
  destruct (Hcomplete "url") as [v Hv]; [by_evaluation|].
  pose proof (Htyped "url" v Hv) as Hs. cbn in Hs. destruct Hs as [s ->].
  unfold record_url, text_of. by rewrite Hv.
Qed.

(** On a record of the listing page the detail step asks for exactly one
    page, the one the record points to, and keeps the address. *)
Lemma get_traineeship_details_request web (t : gmap string value) log :
  well_formed t ->
  exists t',
    scraper.get_traineeship_details web t log
    = (Ok t', (log ++ [GetDetail (record_url t)])%list)
    /\ record_url t' = record_url t /\ well_formed t'.
Proof.
  intros Ht. pose proof (well_formed_url t Ht) as Hurl.
  destruct Ht as [Htyped Hcomplete].
  destruct (Hcomplete "title") as [title Htitle]; [by_evaluation|].
  unfold scraper.get_traineeship_details, mbind, M_bind, lift, getitem.
  rewrite Hurl, Htitle. unfold try_except. rewrite session_get_run.
  destruct (web _ _) as [|status soup]; cbn.
  { by exists t. }
  unfold scraper.raise_for_status, raise, mret, M_ret. cbn.
  destruct ((400 <=? status) && (status <? 600)); cbn.
  { by exists t. }
  exists (scraper.merge_details soup t). split; [done|]. split.
  - unfold record_url, text_of.
    by rewrite merge_details_other_field by by_evaluation.
  - by apply merge_details_typed.
Qed.

Lemma mapM_get_traineeship_details_requests web recs log :
  Forall well_formed recs ->
  exists recs',
    mapM (scraper.get_traineeship_details web) recs log
    = (Ok recs', (log ++ (GetDetail <$> (record_url <$> recs')))%list)
    /\ List.length recs' = List.length recs /\ Forall well_formed recs'.
Proof.
  intros Hall. revert log.
  induction Hall as [|t recs Ht Hall IH]; intros log; cbn.
  { exists []. by rewrite app_nil_r. }
  unfold mbind, M_bind.
  destruct (get_traineeship_details_request web t log Ht) as (t' & -> & Hurl & Ht').
  destruct (IH (log ++ [GetDetail (record_url t)])%list) as (recs' & -> & Hlen & Hrecs').
  exists (t' :: recs'). cbn. rewrite Hurl, Hlen, <-(assoc_L app).
  repeat split; try done. by constructor.
Qed.

Lemma listing_pages_details (urls : list string) :
  listing_pages (GetDetail <$> urls) = [].
Proof. induction urls as [|u urls IH]; [done|]. cbn. exact IH. Qed.

Lemma detail_urls_details (urls : list string) :
  detail_urls (GetDetail <$> urls) = urls.
Proof.
  induction urls as [|u urls IH]; [done|].
  unfold detail_urls in *. cbn. by f_equal.
Qed.

Section crawl_requests.

Variable base_url : string.
Variable web : site.

(** The page loop with details: after the request for each page come the
    requests for the detail pages of its records, one per record. *)
Lemma scrape_pages_requests pages acc log :
  Forall well_formed acc ->
  exists new evs,
    scraper.scrape_pages base_url web true pages acc log
    = (Ok (acc ++ new)%list, (log ++ evs)%list)
    /\ Forall (expected_event base_url) evs
    /\ detail_urls evs = record_url <$> new
    /\ List.length evs = (List.length pages + List.length new)%nat
    /\ Forall well_formed new.
Proof.
  revert acc log. induction pages as [|page pages IH]; intros acc log Hacc; cbn.
  { exists [], []. by rewrite !app_nil_r. }
  unfold mbind, M_bind.
  destruct (scrape_traineeship_listings_run base_url web page log)
    as (on_page & Hrun & _).
  pose proof (scrape_traineeship_listings_well_formed _ _ _ _ _ _ Hrun) as Hon_page.
  rewrite Hrun.
  set (log1 := (log ++ [GetListing page (scraper.page_url base_url page)])%list).
  assert (exists detailed,
            (if bool_decide (on_page <> [])
             then mapM (scraper.get_traineeship_details web) on_page
             else mret on_page) log1
            = (Ok detailed, (log1 ++ (GetDetail <$> (record_url <$> detailed)))%list)
            /\ Forall well_formed detailed)
    as (detailed & -> & Hdetailed).
  { case_bool_decide as Hne.
    - destruct (mapM_get_traineeship_details_requests web on_page log1 Hon_page)
        as (recs' & -> & _ & ?). by exists recs'.
    - exists on_page. split; [|done].
      assert (on_page = []) as -> by (by destruct on_page; [|destruct Hne]).
      cbn. by rewrite app_nil_r. }
  destruct (IH (acc ++ detailed)%list
              (log1 ++ (GetDetail <$> (record_url <$> detailed)))%list)
    as (new & evs & -> & Hexp & Hurls & Hlen & Hnew); [by apply Forall_app|].
  exists (detailed ++ new)%list,
    ([GetListing page (scraper.page_url base_url page)]
     ++ (GetDetail <$> (record_url <$> detailed)) ++ evs)%list.
  subst log1. rewrite <-!(assoc_L app). split; [done|]. split; [|split; [|split]].
  - constructor; [done|]. apply Forall_app. split; [|done].
    apply Forall_fmap, Forall_forall. by intros.
  - rewrite !detail_urls_app, detail_urls_details, Hurls, fmap_app. done.
  - rewrite !length_app, Hlen, !length_fmap. cbn. lia.
  - by apply Forall_app.
Qed.

(** The page loop without details: one request per page, nothing else. *)
Lemma scrape_pages_requests_no_details pages acc log :
  exists recs,
    scraper.scrape_pages base_url web false pages acc log
    = (Ok recs, (log ++ (listing_request base_url <$> pages))%list).
Proof.
  revert acc log. induction pages as [|page pages IH]; intros acc log; cbn.
  { exists acc. by rewrite app_nil_r. }
  unfold mbind, M_bind.
  destruct (scrape_traineeship_listings_run base_url web page log)
    as (on_page & -> & _).
  unfold mret, M_ret. cbn beta iota.
  destruct (IH (acc ++ on_page)%list
              (log ++ [GetListing page (scraper.page_url base_url page)])%list)
    as (recs & ->).
  exists recs. by rewrite <-(assoc_L app).
Qed.


End crawl_requests.



(** ** Where the index requests go *)

Lemma prefix_app_l p s t :
  String.prefix p s = true -> String.prefix p (s ++ t) = true.
Proof.
  revert s. induction p as [|c p IH]; intros s H.
  { by destruct (s ++ t)%string. }
  destruct s as [|c' s]; [done|].
  change (String c' s ++ t)%string with (String c' (s ++ t)).
  cbn [String.prefix] in *. destruct (ascii_dec c c'); [by apply IH|done].
Qed.

Lemma page_url_prefix base_url page_num p :
  String.prefix p base_url = true ->
  String.prefix p (scraper.page_url base_url page_num) = true.
Proof.
  intros H. unfold scraper.page_url.
  destruct (PyStr.contains "?" base_url); by apply prefix_app_l.
Qed.

Lemma scrape_all_events_expected base_url web max_pages get_details :
  Forall (expected_event base_url)
         (scraper.scrape_all base_url web max_pages get_details []).2.
Proof.
  unfold scraper.scrape_all, mbind, M_bind. rewrite get_total_pages_run.
  destruct (web _ _) as [|status soup]; cbn [fst snd].
  { by repeat constructor. }
  set (pages := seqZ 1 _). destruct get_details.
  - destruct (scrape_pages_requests base_url web pages [] ([] ++ [GetPager base_url])%list
                ltac:(constructor)) as (new & evs & -> & Hexp & _).
    cbn. by constructor.
  - destruct (scrape_pages_requests_no_details base_url web pages []
                ([] ++ [GetPager base_url])%list) as (recs & ->).
    cbn. constructor; [done|]. apply Forall_fmap, Forall_forall. by intros.
Qed.

(** X9. With a configuration that [validate_config] accepts, every index
    request of the crawl (the pager probe and each listing page) goes to an
    address under https://erasmusintern.org, whatever the site answers. *)
Theorem validated_crawl_stays_on_site c console console' web max_pages get_details :
  utils.validate_config c console = (Ok true, console') ->
  Forall on_site
         (scraper.scrape_all (utils.base_url c) web max_pages get_details []).2.
Proof.
  intros Hvalid.
  assert (PyStr.startswith "https://erasmusintern.org" (utils.base_url c) = true)
    as Hbase.
  { unfold utils.validate_config in Hvalid.
    case_bool_decide; [discriminate Hvalid|].
    destruct (PyStr.startswith _ _); [done|].
    rewrite orb_true_r in Hvalid. discriminate Hvalid. }
  eapply Forall_impl; [apply scrape_all_events_expected|].
  intros [u|p u|u]; cbn; [by intros ->|intros ->|done].
  by apply page_url_prefix.
Qed.

Lemma validated_crawl_stays_on_site_witness :
  utils.validate_config
    {| utils.groq_api_key := "key"; utils.base_url := sample_base;
       utils.max_pages := 0; utils.data_dir := "data" |} []
  = (Ok true, [])
  /\ Forall on_site
       (scraper.scrape_all sample_base sample_web (Some 1) false []).2.
Proof.
  assert (utils.validate_config
            {| utils.groq_api_key := "key"; utils.base_url := sample_base;
               utils.max_pages := 0; utils.data_dir := "data" |} []
          = (Ok true, [])) as H by by_evaluation.
  split; [exact H|].
  exact (validated_crawl_stays_on_site _ _ _ sample_web (Some 1) false H).
Defined.

Lemma append_inj_r (s x y : string) : (s ++ x = s ++ y)%string -> x = y.
Proof.
  induction s as [|c s IH]; [done|].
  change (String c (s ++ x) = String c (s ++ y) -> x = y).
  intros [= H]. by apply IH.
Qed.

(** X10. Different pages have different addresses: the listing address
    determines the page number. *)
Theorem page_url_injective base_url p q :
  scraper.page_url base_url p = scraper.page_url base_url q -> p = q.
Proof.
  unfold scraper.page_url, PyStr.of_Z.
  destruct (PyStr.contains "?" base_url);
    intros H%append_inj_r%append_inj_r%(inj pretty); lia.
Qed.

Lemma page_url_injective_witness :
  scraper.page_url sample_base 3 = "https://erasmusintern.org/traineeships?page=2"
  /\ 3 = 3.
Proof.
  split; [by_evaluation|].
  exact (page_url_injective sample_base 3 3 eq_refl).
Defined.

(** ** Counting the pages *)

Lemma max_list_spec x l :
  scraper.max_list x l ∈ x :: l
  /\ forall y, y ∈ x :: l -> y <= scraper.max_list x l.
Proof.
  unfold scraper.max_list. revert x. induction l as [|z l IH]; intros x; cbn.
  { split; [by left|]. intros y ->%list_elem_of_singleton. lia. }
  destruct (IH (Z.max x z)) as [Hin Hle]. split.
  - apply elem_of_cons in Hin as [Heq|Hin]; [|by do 2 right].
    rewrite Heq. destruct (Z.max_spec x z) as [[_ ->]|[_ ->]];
      [right; by left|by left].
  - intros y Hy. assert (y <= Z.max x z \/ y ∈ l) as [Hy'|Hy'].
    { apply elem_of_cons in Hy as [->|Hy]; [left; lia|].
      apply elem_of_cons in Hy as [->|Hy]; [left; lia|by right]. }
    + pose proof (Hle (Z.max x z) ltac:(by left)). lia.
    + apply Hle. by right.
Qed.

(** X11. A last-page link whose address holds "page=" decides the page
    count alone, whatever the status of the response: the number after
    "page=" plus one, or 1 when what follows is no number; the pager items
    are then not consulted. The pager probe raises only when the
    connection fails. *)
Theorem get_total_pages_from_last_link base_url web log status soup last rest :
  web (List.length log) base_url = Response status soup ->
  bs4.select soup ".pager-last a" = last :: rest ->
  PyStr.contains "page=" (bs4.get last "href" "") = true ->
  scraper.get_total_pages base_url web log
  = (Ok match PyStr.split "page=" (bs4.get last "href" "") !! 1%nat ≫= PyStr.int with
        | Some k => k + 1
        | None => 1
        end,
     (log ++ [GetPager base_url])%list).
Proof.
  intros Hweb Hlast Hpage. rewrite get_total_pages_run, Hweb.
  unfold scraper.count_pages. rewrite Hlast, Hpage.
  destruct (PyStr.split "page=" (bs4.get last "href" "") !! 1%nat) as [t|]; [|done].
  cbn. by destruct (PyStr.int t).
Qed.

Lemma get_total_pages_from_last_link_witness :
  scraper.get_total_pages sample_base (fun _ _ => Response 200 index_page) []
  = (Ok 10, [GetPager sample_base])
  /\ scraper.get_total_pages sample_base (fun _ _ => Response 500 pager_sorted_page) []
     = (Ok 1, [GetPager sample_base]).
Proof.
  split.
  - exact (get_total_pages_from_last_link sample_base
             (fun _ _ => Response 200 index_page) [] 200 index_page
             (leaf ["last"] [("href", "/traineeships?page=9")]) []
             eq_refl eq_refl eq_refl).
  - exact (get_total_pages_from_last_link sample_base
             (fun _ _ => Response 500 pager_sorted_page) [] 500 pager_sorted_page
             (leaf ["last"] [("href", "/traineeships?page=9&sort=asc")]) []
             eq_refl eq_refl eq_refl).
Defined.

(** X12. Without a last-page link the count comes from the pager items:
    the largest page number among the items that can be read (a link gives
    the number after "page=" plus one, the current-page marker its own
    text), and 1 when there is no item or none can be read. *)
Theorem get_total_pages_from_pager_items base_url web log status soup :
  web (List.length log) base_url = Response status soup ->
  bs4.select soup ".pager-last a" = [] ->
  let pages :=
    omap scraper.pager_item_page
         (bs4.select soup ".pager-item a, .pager-current") in
  exists n,
    scraper.get_total_pages base_url web log
    = (Ok n, (log ++ [GetPager base_url])%list)
    /\ (pages = [] -> n = 1)
    /\ (pages <> [] -> n ∈ pages /\ forall p, p ∈ pages -> p <= n).
Proof.
  intros Hweb Hlast pages. rewrite get_total_pages_run, Hweb.
  unfold scraper.count_pages. rewrite Hlast. subst pages.
  destruct (bs4.select soup ".pager-item a, .pager-current") as [|item items] eqn:Hitems.
  { exists 1. by repeat split. }
  destruct (omap scraper.pager_item_page (item :: items)) as [|p pages].
  { exists 1. by repeat split. }
  exists (scraper.max_list p pages). split; [done|]. split; [done|].
  intros _. apply max_list_spec.
Qed.

Lemma get_total_pages_from_pager_items_witness :
  scraper.get_total_pages sample_base (fun _ _ => Response 200 pager_items_page) []
  = (Ok 5, [GetPager sample_base])
  /\ omap scraper.pager_item_page
          (bs4.select pager_items_page ".pager-item a, .pager-current")
     = [2; 3; 5].
Proof.
  assert (omap scraper.pager_item_page
               (bs4.select pager_items_page ".pager-item a, .pager-current")
          = [2; 3; 5]) as Hpages by by_evaluation.
  split; [|exact Hpages].
  destruct (get_total_pages_from_pager_items sample_base
              (fun _ _ => Response 200 pager_items_page) [] 200 pager_items_page
              eq_refl eq_refl) as (n & Hrun & _ & Hmax).
  rewrite Hrun. do 2 f_equal.
  rewrite Hpages in Hmax. destruct (Hmax ltac:(discriminate)) as [Hin Hle].
  pose proof (Hle 5 ltac:(by do 2 right; left)).
  repeat (apply elem_of_cons in Hin as [Hin|Hin]; [lia|]).
  by apply elem_of_nil in Hin.
Defined.

(** * Further properties of the search tool *)

Section sort_by_stable.

Context {A : Type} (after : A -> A -> bool).
Context (P : A -> Prop) `{!forall x, Decision (P x)}.

(** Two elements of the class [P] never belong behind one another. *)
Hypothesis same_class : forall x y, P x -> P y -> after x y = false.

Lemma filter_insert_sorted x l :
  filter P (insert_sorted after x l)
  = if decide (P x) then x :: filter P l else filter P l.
Proof.
  induction l as [|y l IH]; cbn [insert_sorted].
  { rewrite filter_cons, filter_nil. by destruct (decide (P x)). }
  destruct (after x y) eqn:Hxy.
  - rewrite !filter_cons, IH.
    destruct (decide (P x)) as [Hx|Hx], (decide (P y)) as [Hy|Hy]; try done.
    rewrite (same_class x y Hx Hy) in Hxy. discriminate Hxy.
  - rewrite !(filter_cons _ x). by destruct (decide (P x)).
Qed.

(** Sorting keeps the members of one class in their order. *)
Lemma filter_sort_by l : filter P (sort_by after l) = filter P l.
Proof.
  induction l as [|x l IH]; [done|]. cbn [sort_by foldr].
  change (foldr (insert_sorted after) [] l) with (sort_by after l).
  rewrite filter_insert_sorted, filter_cons, IH. done.
Qed.

End sort_by_stable.

(** X13. Keyword matching is stable: the matches that share a score stand
    in the result in the order in which their jobs stand in the input. *)
Theorem keyword_matching_keeps_order_of_ties jobs query_terms matches (q : Q) :
  search.keyword_matching jobs query_terms = Ok matches ->
  filter (fun m => (m.2 == q)%Q) matches
  = filter (fun m => (m.2 == q)%Q) (matches_in_input_order query_terms jobs).
Proof.
  rewrite keyword_matching_unfold.
  destruct (search.collect_matches _ jobs) as [ms|] eqn:Hms; [|done].
  intros [= <-]. rewrite (collect_matches_in_input_order _ _ _ Hms).
  apply filter_sort_by. intros x y Hx Hy. unfold score_after.
  apply Qlt_bool_false. rewrite Hx, Hy. apply Qle_refl.
Qed.

Lemma keyword_matching_keeps_order_of_ties_witness :
  search.keyword_matching [job_python; job_cook; job_analyst; job_python] ["python"]
  = Ok [(job_python, (1 # 1)%Q); (job_analyst, (1 # 1)%Q); (job_python, (1 # 1)%Q)]
  /\ filter (fun m : gmap string value * Q => (m.2 == 1)%Q)
       [(job_python, (1 # 1)%Q); (job_analyst, (1 # 1)%Q); (job_python, (1 # 1)%Q)]
     = filter (fun m => (m.2 == 1)%Q)
         (matches_in_input_order ["python"]
            [job_python; job_cook; job_analyst; job_python]).
Proof.
  assert (search.keyword_matching [job_python; job_cook; job_analyst; job_python]
            ["python"]
          = Ok [(job_python, (1 # 1)%Q); (job_analyst, (1 # 1)%Q);
                (job_python, (1 # 1)%Q)]) as H by by_evaluation.
  split; [exact H|].
  exact (keyword_matching_keeps_order_of_ties _ _ _ 1%Q H).
Defined.

Lemma lower_char_idemp c : PyStr.lower_char (PyStr.lower_char c) = PyStr.lower_char c.
Proof. by destruct c as [[] [] [] [] [] [] [] []]. Qed.

Lemma lower_idemp s : PyStr.lower (PyStr.lower s) = PyStr.lower s.
Proof. induction s as [|c s IH]; [done|]. cbn. by rewrite lower_char_idemp, IH. Qed.

(** X14. Keyword matching ignores the letter case of the query: the query
    terms and their lower-case forms give the same result. *)
Theorem keyword_matching_ignores_query_case jobs query_terms :
  search.keyword_matching jobs (PyStr.lower <$> query_terms)
  = search.keyword_matching jobs query_terms.
Proof.
  unfold search.keyword_matching. rewrite <-list_fmap_compose.
  by rewrite (list_fmap_ext (PyStr.lower ∘ PyStr.lower) PyStr.lower query_terms)
    by (intros; apply lower_idemp).
Qed.

(** X15. With no query term at all, keyword matching on records whose text
    fields are text returns the empty list: nothing is divided by the
    number of terms. *)
Theorem keyword_matching_empty_query jobs :
  forallb searchable jobs = true ->
  search.keyword_matching jobs [] = Ok [].
Proof.
  intros Hjobs. rewrite keyword_matching_unfold.
  destruct (collect_matches_total (PyStr.lower <$> []) jobs Hjobs) as [ms Hms].
  rewrite Hms. rewrite (collect_matches_in_input_order [] jobs ms Hms).
  assert (matches_in_input_order [] jobs = []) as ->; [|done].
  clear. induction jobs as [|job jobs IH]; [done|].
  by rewrite matches_in_input_order_cons, IH.
Qed.

Lemma keyword_matching_empty_query_witness :
  forallb searchable [job_python; job_cook] = true
  /\ search.keyword_matching [job_python; job_cook] (PyStr.words "   ") = Ok [].
Proof.
  assert (forallb searchable [job_python; job_cook] = true) as H by by_evaluation.
  split; [exact H|].
  exact (keyword_matching_empty_query [job_python; job_cook] H).
Defined.

Lemma slice_to_length {A} (n : Z) (l : list A) :
  0 <= n -> (List.length (slice_to n l) <= Z.to_nat n)%nat.
Proof.
  intros Hn. unfold slice_to. rewrite (proj2 (Z.leb_le 0 n) Hn), length_take. lia.
Qed.

Lemma pick_length jobs top_indices found :
  search.pick jobs top_indices = Ok found ->
  List.length found = List.length top_indices.
Proof.
  revert found. induction top_indices as [|[i s] rest IH]; intros found; cbn.
  { by intros [= <-]. }
  destruct (jobs !! i) as [job|]; [|done].
  destruct (search.pick jobs rest) as [found'|]; [|done]. cbn.
  intros [= <-]. cbn. by rewrite (IH found').
Qed.

Lemma semantic_search_length model job_texts jobs query top_n found :
  0 <= top_n ->
  search.semantic_search model job_texts jobs query top_n = Ok found ->
  (List.length found <= Z.to_nat top_n)%nat.
Proof.
  intros Hn. unfold search.semantic_search. case_bool_decide; [done|].
  intros ->%pick_length. by apply slice_to_length.
Qed.

(** X16. [main] of the search tool returns at most as many results as the
    limit asks for (a limit that is not negative), whichever method ranks
    them, the fallback included. *)
Theorem search_main_respects_limit load_model jobs a console ranked console' :
  0 <= search.results a ->
  search.main load_model jobs a console = (Ok (Some ranked), console') ->
  (List.length ranked <= Z.to_nat (search.results a))%nat.
Proof.
  intros Hn. unfold search.main.
  case_bool_decide; [by intros [= ]|].
  unfold try_except, mbind, M_bind, print, lift, mret, M_ret.
  destruct (search.search_method a); cbn.
  - destruct load_model as [model|e]; cbn.
    + destruct (search.semantic_search model _ jobs _ _) as [found|e] eqn:Hfound;
        cbn.
      * intros [= <- _]. by eapply semantic_search_length.
      * destruct (is_ImportError e); [|by intros [= ]]. cbn.
        destruct (search.keyword_matching jobs _); cbn; [|by intros [= ]].
        intros [= <- _]. by apply slice_to_length.
    + destruct (is_ImportError e); [|by intros [= ]]. cbn.
      destruct (search.keyword_matching jobs _); cbn; [|by intros [= ]].
      intros [= <- _]. by apply slice_to_length.
  - destruct (search.keyword_matching jobs _) as [ms|e]; cbn.
    + intros [= <- _]. by apply slice_to_length.
    + by destruct (is_ImportError e); cbn; intros [= ].
Qed.

Lemma search_main_respects_limit_witness :
  0 <= 1
  /\ (search.main (Raise ImportError) [job_python; job_analyst]
        {| search.query := "python"; search.results := 1;
           search.search_method := search.transformer |} []).1
     = Ok (Some [(job_python, (1 # 1)%Q)])
  /\ (List.length [(job_python, (1 # 1)%Q)] <= Z.to_nat 1)%nat.
Proof.
  assert (search.main (Raise ImportError) [job_python; job_analyst]
            {| search.query := "python"; search.results := 1;
               search.search_method := search.transformer |} []
          = (Ok (Some [(job_python, (1 # 1)%Q)]),
             [ "Loaded 2 jobs. Searching for: 'python'";
               "Loading sentence transformer model (this may take a moment)...";
               "Sentence Transformers not installed. Falling back to keyword matching.";
               "To install: pip install sentence-transformers" ])) as H
    by by_evaluation.
  split; [lia|]. split; [by rewrite H|].
  assert (0 <= search.results
                 {| search.query := "python"; search.results := 1;
                    search.search_method := search.transformer |}) as Hlimit
    by (cbn; lia).
  exact (search_main_respects_limit _ _ _ _ _ _ Hlimit H).
Defined.

(** X17. Only [ImportError] is handled on the embedding path. When loading
    the model raises anything else, the same exception leaves
    [search.main], [rank_jobs.process_query] and
    [rank_jobs.process_multiple_queries]: no message about the missing
    library is printed, nothing is ranked, and [search.main] does not fall
    back to keyword matching. *)
Theorem other_load_errors_are_not_handled {F : Type} `{Floats F} e
    (console : list string) :
  e <> ImportError ->
  (forall (jobs : list (gmap string value)) a,
     jobs <> [] ->
     search.search_method a = search.transformer ->
     search.main (Raise e) jobs a console
     = (Raise e,
        (console ++
         [ ("Loaded " ++ PyStr.of_Z (Z.of_nat (List.length jobs))
            ++ " jobs. Searching for: '" ++ search.query a ++ "'")%string;
           "Loading sentence transformer model (this may take a moment)..." ])%list))
  /\ (forall fs timestamp query input_file (jobs : list record) output_file
             model_name,
        jobs <> [] ->
        rank_jobs.process_query (F := F) fs (Raise e) timestamp query input_file
          jobs output_file model_name console
        = (Raise e,
           (console ++
            [ ("Loaded " ++ PyStr.of_Z (Z.of_nat (List.length jobs))
               ++ " jobs. Calculating match probabilities for: '" ++ query ++ "'")%string;
              ("Loading sentence transformer model '" ++ model_name ++ "'...")%string
            ])%list))
  /\ (forall fs timestamp queries input_file (jobs : list record) output_file,
        jobs <> [] ->
        rank_jobs.process_multiple_queries (F := F) fs (Raise e) timestamp
          queries input_file jobs output_file console
        = (Raise e,
           (console ++
            [ ("Loaded " ++ PyStr.of_Z (Z.of_nat (List.length jobs))
               ++ " jobs. Processing "
               ++ PyStr.of_Z (Z.of_nat (List.length queries)) ++ " queries...")%string;
              "Loading sentence transformer model..." ])%list)).
Proof.
  intros He.
  assert (is_ImportError e = false) as Hcaught
    by (by apply bool_decide_eq_false_2).
  split; [|split].
  - intros jobs a Hjobs Hmethod. unfold search.main.
    rewrite bool_decide_eq_false_2 by done. rewrite Hmethod.
    unfold try_except, mbind, M_bind, print, lift, mret, M_ret. cbn.
    rewrite Hcaught. by rewrite <-!(assoc_L app).
  - intros fs timestamp query input_file jobs output_file model_name Hjobs.
    unfold rank_jobs.process_query.
    rewrite bool_decide_eq_false_2 by done.
    unfold try_except, mbind, M_bind, print, lift, mret, M_ret. cbn.
    rewrite Hcaught. by rewrite <-!(assoc_L app).
  - intros fs timestamp queries input_file jobs output_file Hjobs.
    unfold rank_jobs.process_multiple_queries.
    rewrite bool_decide_eq_false_2 by done.
    unfold try_except, mbind, M_bind, print, lift, mret, M_ret. cbn.
    rewrite Hcaught. by rewrite <-!(assoc_L app).
Qed.

Lemma other_load_errors_are_not_handled_witness :
  OSError <> ImportError
  /\ [job_python] <> []
  /\ search.main (Raise OSError) [job_python] args_transformer []
     = (Raise OSError,
        [ "Loaded 1 jobs. Searching for: 'python data'";
          "Loading sentence transformer model (this may take a moment)..." ])
  /\ [record_titled "Python Developer"] <> []
  /\ rank_jobs.process_query (F := PrimFloat.float) open_disk (Raise OSError)
       "2025-03-01_10-00-00" "python data" "data/jobs.json"
       [record_titled "Python Developer"] None "all-MiniLM-L6-v2" []
     = (Raise OSError,
        [ "Loaded 1 jobs. Calculating match probabilities for: 'python data'";
          "Loading sentence transformer model 'all-MiniLM-L6-v2'..." ]).
Proof.
  assert (OSError <> ImportError) as H1 by discriminate.
  assert ([job_python] <> []) as H2 by discriminate.
  assert ([record_titled "Python Developer"] <> []) as H3 by discriminate.
  split; [exact H1|]. split; [exact H2|]. split.
  { exact (proj1 (other_load_errors_are_not_handled (F := PrimFloat.float)
                    OSError [] H1) [job_python] args_transformer H2 eq_refl). }
  split; [exact H3|].
  exact (proj1 (proj2 (other_load_errors_are_not_handled (F := PrimFloat.float)
                         OSError [] H1))
           open_disk "2025-03-01_10-00-00" "python data" "data/jobs.json"
           [record_titled "Python Developer"] None "all-MiniLM-L6-v2" H3).
Defined.

(** ** Semantic search *)

Lemma pick_picked jobs top_indices :
  Forall (fun p : nat * Q => is_Some (jobs !! p.1)) top_indices ->
  search.pick jobs top_indices = Ok (picked jobs <$> top_indices).
Proof.
  induction top_indices as [|[i s] rest IH]; intros Htop; [done|].
  apply Forall_cons in Htop as [[job Hjob] Hrest]. cbn [fst] in Hjob.
  rewrite fmap_cons. unfold picked at 1. cbn [fst snd search.pick].
  destruct (jobs !! i) as [job'|]; [|done].
  by rewrite (IH Hrest).
Qed.

(** The similarities with their indices: every index is that of a job,
    and goes with the score of that job. *)
Lemma indexed_similarities model query jobs i s :
  (i, s) ∈ zip (seq 0 (List.length (model query <$> search.create_job_texts jobs)))
               (model query <$> search.create_job_texts jobs) ->
  exists job, jobs !! i = Some job /\ job ∈ jobs
              /\ (job, s) = with_similarity model query job.
Proof.
  intros (k & Hk)%list_elem_of_lookup_1.
  apply lookup_zip_with_Some in Hk as (i' & s' & [= <- <-] & Hi & Hs).
  apply lookup_seq in Hi as [-> _]. cbn in Hs.
  unfold search.create_job_texts in Hs. rewrite <-list_fmap_compose in Hs.
  apply list_lookup_fmap_Some in Hs as (job & -> & Hjob).
  exists job. split; [done|]. split; [by eapply list_elem_of_lookup_2|done].
Qed.

(** X18. Semantic search over jobs (at least one) and their texts
    returns, for a limit that is not negative, the smaller of the limit and
    the number of jobs many results; each is a job of the input paired with
    the score the model gives its text; and they stand in descending order
    of score. *)
Theorem semantic_search_ranked model jobs query top_n :
  jobs <> [] ->
  0 <= top_n ->
  exists found,
    search.semantic_search model (search.create_job_texts jobs) jobs query top_n
    = Ok found
    /\ List.length found = Nat.min (Z.to_nat top_n) (List.length jobs)
    /\ (forall r, r ∈ found ->
          exists job, job ∈ jobs /\ r = with_similarity model query job)
    /\ (forall i j x y,
          found !! i = Some x -> found !! j = Some y -> (i < j)%nat ->
          (y.2 <= x.2)%Q).
Proof.
  intros Hjobs Hn. unfold search.semantic_search, slice_to.
  rewrite bool_decide_eq_false_2 by (by destruct jobs).
  rewrite (proj2 (Z.leb_le 0 top_n) Hn).
  change (fun x y : nat * Q => Qlt_bool y.2 x.2) with (@similarity_after nat).
  set (sims := model query <$> search.create_job_texts jobs).
  set (indexed := zip (seq 0 (List.length sims)) sims).
  set (ascending := sort_by similarity_after indexed).
  assert (List.length ascending = List.length jobs) as Hlen.
  { subst ascending indexed sims. unfold search.create_job_texts.
    rewrite sort_by_length, length_zip_with, length_seq, !length_fmap. lia. }
  assert (forall p, p ∈ ascending ->
            exists job, jobs !! p.1 = Some job /\ job ∈ jobs
                        /\ picked jobs p = with_similarity model query job)
    as Hindexed.
  { intros [i s] Hp. apply sort_by_elem_of in Hp.
    destruct (indexed_similarities model query jobs i s Hp)
      as (job & Hi & Hjob & Hpair).
    exists job. split; [done|]. split; [done|].
    unfold picked. cbn [fst snd]. by rewrite Hi. }
  rewrite pick_picked.
  2: { apply Forall_forall. intros p (k & Hp & _)%elem_of_take.
       apply list_elem_of_lookup_2 in Hp. rewrite elem_of_reverse in Hp.
       destruct (Hindexed p Hp) as (job & Hi & _). by eexists. }
  eexists. split; [reflexivity|]. split; [|split].
  - by rewrite length_fmap, length_take, length_reverse, Hlen.
  - intros r (p & -> & Hp)%list_elem_of_fmap.
    apply elem_of_take in Hp as (k & Hp & _).
    apply list_elem_of_lookup_2 in Hp. rewrite elem_of_reverse in Hp.
    destruct (Hindexed p Hp) as (job & _ & Hjob & Hpair). by exists job.
  - intros i j x y Hx Hy Hij.
    apply list_lookup_fmap_Some in Hx as (p & -> & Hp).
    apply list_lookup_fmap_Some in Hy as (q & -> & Hq).
    apply lookup_take_Some in Hp as [Hp Hi], Hq as [Hq Hj].
    apply reverse_lookup_Some in Hp as [Hp Hi'], Hq as [Hq Hj'].
    assert (in_order similarity_after q p) as Horder.
    { eapply (StronglySorted_lookup_lt similarity_after ascending
                (List.length ascending - S j) (List.length ascending - S i));
        [|exact Hq|exact Hp|lia].
      apply sort_by_sorted.
      - intros ? ?. apply Qlt_bool_asym.
      - intros a b c. unfold similarity_after. intros Hab Hbc.
        by apply (Qlt_bool_chain _ _ _ Hbc Hab). }
    unfold in_order, similarity_after in Horder. cbn [picked snd].
    by apply Qlt_bool_false in Horder.
Qed.

Lemma semantic_search_ranked_witness :
  jobs_abc <> []
  /\ 0 <= 2
  /\ search.semantic_search model_abc (search.create_job_texts jobs_abc) jobs_abc
       "python" 2
     = Ok [(job_titled "B", (9 # 10)%Q); (job_titled "C", (5 # 10)%Q)]
  /\ exists found,
       search.semantic_search model_abc (search.create_job_texts jobs_abc)
         jobs_abc "python" 2 = Ok found
       /\ List.length found = Nat.min (Z.to_nat 2) (List.length jobs_abc).
Proof.
  assert (jobs_abc <> []) as H1 by discriminate.
  assert (0 <= 2) as H2 by lia.
  split; [exact H1|]. split; [exact H2|]. split; [by_evaluation|].
  destruct (semantic_search_ranked model_abc jobs_abc "python" 2 H1 H2)
    as (found & Hrun & Hlen & _).
  exists found. split; [exact Hrun|exact Hlen].
Defined.

(** * Further properties of the ranking tool *)

(** X19. With the model loaded and an output file that can be written,
    the ranking for one query writes exactly one row per job: the fields
    of the job as they were (apart from a field named like the score
    column), and in the score column the score the model gives the text of
    the job. *)
Theorem process_query_rows {F : Type} `{Floats F} fs (model : Model F)
    timestamp query input_file jobs output_file model_name console :
  let path :=
    rank_jobs.output_path output_file (rank_jobs.ranked_file timestamp query) in
  jobs <> [] ->
  writable fs path = true ->
  exists table console',
    rank_jobs.process_query fs (Ok model) timestamp query input_file jobs
      output_file model_name console
    = (Ok (Some (path, table)), console')
    /\ rows table
       ≡ₚ (fun job => score_step model job (CVal <$> fields job) query) <$> jobs
    /\ List.length (rows table) = List.length jobs
    /\ forall row, row ∈ rows table ->
         exists job, job ∈ jobs
           /\ row !! rank_jobs.column_name query
              = Some (CNum (model query (rank_jobs.job_repr job)))
           /\ forall k, k <> rank_jobs.column_name query ->
                        row !! k = CVal <$> fields job !! k.
Proof.
  intros path Hjobs Hwrite.
  assert (exists table,
            rank_jobs.save_to_csv fs timestamp jobs
              (rank_jobs.calculate_match_probabilities model
                 (rank_jobs.create_job_texts jobs) query) query output_file
            = Ok (path, table)
            /\ rows table
               ≡ₚ (fun job => score_step model job (CVal <$> fields job) query)
                  <$> jobs) as (table & Hsaved & Hperm).
  { unfold rank_jobs.save_to_csv, pd.DataFrame.
    rewrite set_column_scores by done. cbn [mbind res_bind]. fold path.
    rewrite (write_csv_writable _ _ Hwrite). cbn [mbind res_bind mret res_ret].
    eexists. split; [reflexivity|]. cbn [rows pd.sort_values_desc].
    apply sort_by_perm. }
  destruct (process_query_run fs model timestamp query input_file jobs
              output_file model_name console _ Hjobs Hsaved) as [console' Hrun].
  exists table, console'. split; [exact Hrun|]. split; [exact Hperm|]. split.
  { by rewrite Hperm, length_fmap. }
  intros row Hrow. rewrite Hperm in Hrow.
  apply list_elem_of_fmap in Hrow as (job & -> & Hjob).
  exists job. split; [done|]. unfold score_step. split.
  - by rewrite lookup_insert_eq.
  - intros k Hk. by rewrite lookup_insert_ne, lookup_fmap.
Qed.

Lemma process_query_rows_witness :
  records_abc <> []
  /\ writable open_disk
       (rank_jobs.output_path None
          (rank_jobs.ranked_file "2025-03-01_10-00-00" "python")) = true
  /\ exists (table : frame PrimFloat.float) console',
       rank_jobs.process_query open_disk (Ok scores_abc) "2025-03-01_10-00-00"
         "python" "data/jobs.json" records_abc None "all-MiniLM-L6-v2" []
       = (Ok (Some ("data/ranked_jobs_python_2025-03-01_10-00-00.csv", table)),
          console')
       /\ List.length (rows table) = List.length records_abc.
Proof.
  assert (records_abc <> []) as H1 by discriminate.
  assert (writable open_disk
            (rank_jobs.output_path None
               (rank_jobs.ranked_file "2025-03-01_10-00-00" "python")) = true)
    as H2 by by_evaluation.
  split; [exact H1|]. split; [exact H2|].
  destruct (process_query_rows (F := PrimFloat.float) open_disk scores_abc
              "2025-03-01_10-00-00" "python" "data/jobs.json" records_abc None
              "all-MiniLM-L6-v2" [] H1 H2)
    as (table & console' & Hrun & _ & Hlen & _).
  exists table, console'. split; [exact Hrun|exact Hlen].
Defined.



(** * Saving the collection *)

Section saving.

Variable data_dir now tempdir : string.
Variable join : string -> string -> string.
Variable parent : string -> string.
Variable splitext : string -> string * string.
Variable makedirs : string -> option persistence.write_error.
Variable file_exists open_append : string -> bool.
Variable write : string -> option persistence.write_error.

Lemma rescue_cases path_for filename :
  match persistence.rescue now write path_for filename with
  | persistence.Returned p => write p = None
  | persistence.Raised e =>
      (e = persistence.UnboundLocalError
       /\ persistence.not_given filename = false)
      \/ (exists p e', write p = Some e' /\ e = persistence.raised_of e'
                       /\ persistence.not_given filename = true)
  end.
Proof.
  unfold persistence.rescue, persistence.date_str.
  destruct (persistence.not_given filename); [|by left].
  destruct (write (path_for now)) as [e|] eqn:Hw; [|done].
  right. by exists (path_for now), e.
Qed.

(** X21. A save function never names a file it did not write: for a
    collection that is not empty, the path [save_to_csv] returns is one
    where the write succeeded, and [save_to_json] returns such a path or
    the empty string. *)
Theorem saved_path_was_written (traineeships : list (gmap string value))
    filename :
  traineeships <> [] ->
  (forall p,
     persistence.save_to_csv data_dir now join parent splitext tempdir
       makedirs file_exists open_append write traineeships filename
     = persistence.Returned p ->
     write p = None)
  /\ (forall p,
        persistence.save_to_json data_dir now join parent tempdir makedirs
          write traineeships filename
        = persistence.Returned p ->
        p = "" \/ write p = None).
Proof.
  intros Hne. split; intros p.
  - unfold persistence.save_to_csv. rewrite bool_decide_eq_false_2 by done.
    destruct (makedirs _); [done|].
    match goal with |- context [write ?f] => destruct (write f) as [[]|] eqn:Hw end.
    + intros H. pose proof (rescue_cases
        (fun d => join tempdir ("erasmusintern_backup_" ++ d ++ ".csv")) filename) as Hr.
      by rewrite H in Hr.
    + intros H. pose proof (rescue_cases
        (fun d => "erasmusintern_traineeships_fallback_" ++ d ++ ".csv") filename) as Hr.
      by rewrite H in Hr.
    + by intros [= <-].
  - unfold persistence.save_to_json. rewrite bool_decide_eq_false_2 by done.
    destruct (makedirs _); [done|].
    match goal with |- context [write ?f] => destruct (write f) as [[]|] eqn:Hw end.
    + intros H. right. pose proof (rescue_cases
        (fun d => join tempdir ("erasmusintern_backup_" ++ d ++ ".json")) filename) as Hr.
      by rewrite H in Hr.
    + intros [= <-]. by left.
    + intros [= <-]. by right.
Qed.

(** X22. With an output name given by the caller, a failed write is never
    made good: the handlers of [save_to_csv] build their paths from
    [date_str], which is assigned only when no name is given, so the call
    ends in [UnboundLocalError]; in [scrape_command] this ends the saving,
    and the JSON copy is not attempted. *)
Theorem named_output_is_never_rescued (traineeships : list (gmap string value))
    f :
  traineeships <> [] ->
  f <> "" ->
  makedirs (parent f) = None ->
  is_Some (write (if file_exists f && negb (open_append f)
                  then (splitext f).1 ++ "_new" ++ (splitext f).2
                  else f)) ->
  persistence.save_to_csv data_dir now join parent splitext tempdir
    makedirs file_exists open_append write traineeships (Some f)
  = persistence.Raised persistence.UnboundLocalError
  /\ persistence.scrape_command_save data_dir now join parent splitext tempdir
       makedirs file_exists open_append write traineeships (Some f)
     = (persistence.Raised persistence.UnboundLocalError, None).
Proof.
  intros Hne Hf Hdirs [e Hw].
  assert ((persistence.save_to_csv data_dir now join parent splitext tempdir
     makedirs file_exists open_append write traineeships (Some f))
          = persistence.Raised persistence.UnboundLocalError) as Hcsv.
  { unfold persistence.save_to_csv, persistence.target, persistence.not_given.
    rewrite !bool_decide_eq_false_2 by done. cbn beta iota zeta.
    change (default "" (Some f)) with f. rewrite Hdirs, Hw.
    unfold persistence.rescue, persistence.date_str,
      persistence.not_given. rewrite bool_decide_eq_false_2 by done.
    by destruct e. }
  split; [exact Hcsv|]. unfold persistence.scrape_command_save. by rewrite Hcsv.
Qed.

(** X23. With the default file name the handlers do work. Provided
    the directory can be made, [save_to_csv] raises only when the first
    write has failed and the write its handler then makes has failed too:
    to the backup file in the temporary directory after a
    [PermissionError], to the fallback file in the current directory after
    any other exception. [save_to_json] raises only when the first write
    was refused with [PermissionError] and the write to the backup file
    has failed. What leaves is what the handler's write raised, never
    [UnboundLocalError]. *)
Theorem default_name_raises_only_after_two_failures
    (traineeships : list (gmap string value)) filename e :
  persistence.not_given filename = true ->
  (forall d, makedirs d = None) ->
  let csv := persistence.target data_dir now join ".csv" filename in
  let first_csv :=
    if file_exists csv && negb (open_append csv)
    then (splitext csv).1 ++ "_new" ++ (splitext csv).2
    else csv in
  let json := persistence.target data_dir now join ".json" filename in
  (persistence.save_to_csv data_dir now join parent splitext tempdir
     makedirs file_exists open_append write traineeships filename
   = persistence.Raised e ->
   e <> persistence.UnboundLocalError
   /\ exists e2,
        e = persistence.raised_of e2
        /\ (write first_csv = Some persistence.Denied
            /\ write (join tempdir ("erasmusintern_backup_" ++ now ++ ".csv"))
               = Some e2
            \/ write first_csv = Some persistence.Failed
               /\ write ("erasmusintern_traineeships_fallback_" ++ now ++ ".csv")
                  = Some e2))
  /\ (persistence.save_to_json data_dir now join parent tempdir makedirs
        write traineeships filename
      = persistence.Raised e ->
      e <> persistence.UnboundLocalError
      /\ exists e2,
           e = persistence.raised_of e2
           /\ write json = Some persistence.Denied
           /\ write (join tempdir ("erasmusintern_backup_" ++ now ++ ".json"))
              = Some e2).
Proof.
  intros Hdefault Hdirs csv first_csv json.
  assert (forall path_for,
            persistence.rescue now write path_for filename = persistence.Raised e ->
            e <> persistence.UnboundLocalError
            /\ exists e2, e = persistence.raised_of e2
                          /\ write (path_for now) = Some e2) as Hrescue.
  { intros path_for. unfold persistence.rescue, persistence.date_str.
    rewrite Hdefault. destruct (write (path_for now)) as [e2|] eqn:Hw; [|done].
    intros [= <-]. split; [by destruct e2|]. by exists e2. }
  split.
  - unfold persistence.save_to_csv. case_bool_decide; [done|].
    rewrite Hdirs. fold csv. fold first_csv.
    destruct (write first_csv) as [[]|] eqn:Hw; [| |done].
    + intros (Hne & e2 & -> & Hw2)%Hrescue. split; [done|].
      exists e2. split; [done|]. by left.
    + intros (Hne & e2 & -> & Hw2)%Hrescue. split; [done|].
      exists e2. split; [done|]. by right.
  - unfold persistence.save_to_json. case_bool_decide; [done|].
    rewrite Hdirs. fold json.
    destruct (write json) as [[]|] eqn:Hw; [|done|done].
    intros (Hne & e2 & -> & Hw2)%Hrescue. split; [done|]. by exists e2.
Qed.

End saving.

Lemma saved_path_was_written_witness :
  [record_full 1] <> []
  /\ persistence.save_to_csv "data" "2025-03-01_10-00-00" fs_join fs_parent
       fs_splitext "/tmp" fs_makedirs fs_exists fs_open_append fs_write_tmp_only
       [record_full 1] None
     = persistence.Returned "/tmp/erasmusintern_backup_2025-03-01_10-00-00.csv"
  /\ fs_write_tmp_only "/tmp/erasmusintern_backup_2025-03-01_10-00-00.csv" = None.
Proof.
  assert ([record_full 1] <> []) as H by discriminate.
  assert (persistence.save_to_csv "data" "2025-03-01_10-00-00" fs_join fs_parent
            fs_splitext "/tmp" fs_makedirs fs_exists fs_open_append
            fs_write_tmp_only [record_full 1] None
          = persistence.Returned "/tmp/erasmusintern_backup_2025-03-01_10-00-00.csv")
    as Hrun.
  { unfold persistence.save_to_csv. rewrite bool_decide_eq_false_2 by exact H.
    reflexivity. }
  split; [exact H|]. split; [exact Hrun|].
  exact (proj1 (saved_path_was_written "data" "2025-03-01_10-00-00" "/tmp" fs_join
                  fs_parent fs_splitext fs_makedirs fs_exists fs_open_append
                  fs_write_tmp_only [record_full 1] None H) _ Hrun).
Defined.

Lemma named_output_is_never_rescued_witness :
  [record_full 1] <> []
  /\ "out/jobs.csv" <> ""
  /\ persistence.scrape_command_save "data" "2025-03-01_10-00-00" fs_join fs_parent
       fs_splitext "/tmp" fs_makedirs fs_exists fs_open_append fs_write_tmp_only
       [record_full 1] (Some "out/jobs.csv")
     = (persistence.Raised persistence.UnboundLocalError, None).
Proof.
  assert ([record_full 1] <> []) as H1 by discriminate.
  assert ("out/jobs.csv" <> "") as H2 by discriminate.
  split; [exact H1|]. split; [exact H2|].
  exact (proj2 (named_output_is_never_rescued "data" "2025-03-01_10-00-00" "/tmp"
                  fs_join fs_parent fs_splitext fs_makedirs fs_exists
                  fs_open_append fs_write_tmp_only [record_full 1] "out/jobs.csv"
                  H1 H2 eq_refl (mk_is_Some _ _ eq_refl))).
Defined.

Lemma default_name_raises_only_after_two_failures_witness :
  persistence.not_given None = true
  /\ persistence.save_to_csv "data" "2025-03-01_10-00-00" fs_join fs_parent
       fs_splitext "/var/tmp" fs_makedirs fs_exists fs_open_append
       fs_write_tmp_only [record_full 1] None
     = persistence.Raised persistence.PermissionError
  /\ fs_write_tmp_only "data/erasmusintern_traineeships_2025-03-01_10-00-00.csv"
     = Some persistence.Denied
  /\ fs_write_tmp_only "/var/tmp/erasmusintern_backup_2025-03-01_10-00-00.csv"
     = Some persistence.Denied
  /\ persistence.PermissionError <> persistence.UnboundLocalError.
Proof.
  assert (persistence.save_to_csv "data" "2025-03-01_10-00-00" fs_join fs_parent
            fs_splitext "/var/tmp" fs_makedirs fs_exists fs_open_append
            fs_write_tmp_only [record_full 1] None
          = persistence.Raised persistence.PermissionError) as Hrun.
  { unfold persistence.save_to_csv.
    rewrite bool_decide_eq_false_2 by discriminate. reflexivity. }
  split; [reflexivity|]. split; [exact Hrun|].
  split; [reflexivity|]. split; [reflexivity|].
  exact (proj1 (proj1 (default_name_raises_only_after_two_failures "data"
                         "2025-03-01_10-00-00" "/var/tmp" fs_join fs_parent
                         fs_splitext fs_makedirs fs_exists fs_open_append
                         fs_write_tmp_only [record_full 1] None _ eq_refl
                         (fun _ => eq_refl)) Hrun)).
Defined.

(** * The clean-up before saving *)

(** X24. The clean-up of [scrape_command] changes nothing but [None]
    values: it keeps the keys of a record and every value that is not
    [None], and applying it twice is the same as applying it once. *)
Theorem clean_nulls_only_rewrites_null (t : gmap string value) :
  dom (main_py.clean_nulls t) = dom t
  /\ (forall k v, t !! k = Some v -> v <> VNone ->
                  main_py.clean_nulls t !! k = Some v)
  /\ (forall k, t !! k = Some VNone ->
                main_py.clean_nulls t !! k = Some (VStr sentinel))
  /\ main_py.clean_nulls (main_py.clean_nulls t) = main_py.clean_nulls t.
Proof.
  split; [apply dom_fmap_L|]. split; [|split].
  - intros k v Hk Hv. rewrite clean_nulls_lookup, Hk. by destruct v.
  - intros k Hk. by rewrite clean_nulls_lookup, Hk.
  - apply map_eq. intros k. rewrite !clean_nulls_lookup.
    by destruct (t !! k) as [[]|].
Qed.

Lemma clean_nulls_only_rewrites_null_witness :
  (<["title" := VNone]> job_cook) !! "title" = Some VNone
  /\ main_py.clean_nulls (<["title" := VNone]> job_cook) !! "title"
     = Some (VStr sentinel).
Proof.
  assert ((<["title" := VNone]> job_cook) !! "title" = Some VNone) as H
    by by_evaluation.
  split; [exact H|].
  exact (proj1 (proj2 (proj2 (clean_nulls_only_rewrites_null
                                (<["title" := VNone]> job_cook)))) "title" H).
Defined.

(** * The most recent data file *)

Lemma str_lt_asym a b : utils.str_lt a b = true -> utils.str_lt b a = false.
Proof.
  unfold utils.str_lt.
  destruct (String_as_OT.compare_spec a b) as [->|Hab|Hba]; [done| |done].
  intros _. destruct (String_as_OT.compare_spec b a) as [->|Hba|Hab']; [done| |done].
  exfalso. eapply (irreflexivity String_as_OT.lt a). by etransitivity.
Qed.

Lemma str_lt_irrefl a : utils.str_lt a a = false.
Proof.
  destruct (utils.str_lt a a) eqn:H; [|done].
  pose proof (str_lt_asym _ _ H). congruence.
Qed.

Lemma str_lt_chain a b c :
  utils.str_lt b a = false -> utils.str_lt c b = false -> utils.str_lt c a = false.
Proof.
  unfold utils.str_lt.
  destruct (String_as_OT.compare_spec b a) as [->|Hba|Hab]; [done|done|].
  intros _.
  destruct (String_as_OT.compare_spec c b) as [->|Hcb|Hbc]; [|done|]; intros _.
  - destruct (String_as_OT.compare_spec b a) as [->|Hba|_]; [done| |done].
    exfalso. eapply (irreflexivity String_as_OT.lt a). by etransitivity.
  - destruct (String_as_OT.compare_spec c a) as [->|Hca|_]; [done| |done].
    exfalso. eapply (irreflexivity String_as_OT.lt a).
    etransitivity; [exact Hab|]. by etransitivity.
Qed.

Lemma last_of_sorted {A} (R : A -> A -> Prop) (l : list A) x y :
  StronglySorted R l -> last l = Some x -> y ∈ l -> y = x \/ R y x.
Proof.
  induction 1 as [|z l Hl IH Hz]; intros Hlast Hy; [by apply elem_of_nil in Hy|].
  destruct l as [|z' l'].
  - cbn in Hlast. injection Hlast as <-.
    apply list_elem_of_singleton in Hy. by left.
  - change (last (z :: z' :: l')) with (last (z' :: l')) in Hlast.
    apply elem_of_cons in Hy as [->|Hy]; [|by apply IH].
    right. rewrite Forall_forall in Hz. apply Hz.
    by apply last_Some_elem_of.
Qed.

(** X25. When the data directory holds matching files,
    [get_most_recent_data_file] returns one of them, and none of them
    compares greater than it. *)
Theorem get_most_recent_data_file_is_greatest (files : list string) :
  files <> [] ->
  exists f,
    utils.get_most_recent_data_file true files = Some f
    /\ f ∈ files
    /\ forall g, g ∈ files -> utils.str_lt f g = false.
Proof.
  intros Hne. unfold utils.get_most_recent_data_file.
  rewrite bool_decide_eq_false_2 by done. cbn [negb].
  destruct (last (utils.sorted files)) as [f|] eqn:Hlast.
  2: { apply last_None in Hlast. apply (f_equal List.length) in Hlast.
       unfold utils.sorted in Hlast. rewrite sort_by_length in Hlast.
       by destruct files. }
  exists f. split; [done|].
  assert (f ∈ files) as Hf.
  { apply last_Some_elem_of in Hlast. unfold utils.sorted in Hlast.
    by apply sort_by_elem_of in Hlast. }
  split; [done|]. intros g Hg.
  assert (g ∈ utils.sorted files) as Hg' by by apply sort_by_elem_of.
  destruct (last_of_sorted (in_order (fun x y => utils.str_lt y x))
              (utils.sorted files) f g) as [->|Hin]; [|done|done| |done].
  - apply sort_by_sorted.
    + intros x y. apply str_lt_asym.
    + intros x y z. apply str_lt_chain.
  - apply str_lt_irrefl.
Qed.

Lemma get_most_recent_data_file_is_greatest_witness :
  data_files <> []
  /\ exists f,
       utils.get_most_recent_data_file true data_files = Some f
       /\ f ∈ data_files
       /\ forall g, g ∈ data_files -> utils.str_lt f g = false.
Proof.
  assert (data_files <> []) as H by discriminate.
  split; [exact H|]. exact (get_most_recent_data_file_is_greatest data_files H).
Defined.
